(** * BookRise-Obsidian: the API client and the note synchronizer

    A shallow embedding of [src/BookriseClient.ts] (the response normalizer
    and the revisions of [chat]) and of the highlight synchronizer and the
    chat view of [main.ts], with the properties of the specification and
    further properties of the code stated and proved over it.

    JavaScript strings are sequences of UTF-16 code units; they are modelled
    as lists of code units.  What the JavaScript host provides and the
    repository only calls (number formatting, [toLowerCase], [JSON.parse],
    [JSON.stringify]) is an interface, [JsHost] and [JsonHost]. *)

From stdpp Require Import gmap list.
From Stdlib Require Import NArith ZArith Ascii Lia.
From Stdlib Require String DecimalString.
Import String.StringSyntax.

Set Warnings "-register-all".

Local Open Scope string_scope.
Local Open Scope list_scope.
Local Open Scope N_scope.

(** ** JavaScript strings *)

Module Js.

(** A string is the list of its code units. *)
Abbreviation jsstring := (list N).

Definition nl : jsstring := [10].
Definition quote : jsstring := [34].

(** A source literal, code unit by code unit. *)
Definition lit (s : String.string) : jsstring :=
  map N_of_ascii (String.list_ascii_of_string s).
Arguments lit : simpl never.

(** The class [\s] of a regular expression and the characters [trim]
    removes: ECMAScript WhiteSpace and LineTerminator. *)
Definition is_ws (c : N) : bool :=
  ((9 <=? c) && (c <=? 13)) || (c =? 32) || (c =? 160) || (c =? 5760)
  || ((8192 <=? c) && (c <=? 8202)) || (c =? 8232) || (c =? 8233)
  || (c =? 8239) || (c =? 8287) || (c =? 12288) || (c =? 65279).

(** [s.replace(/[...]/g, r)] for a one-character class and a
    one-character replacement. *)
Definition replace_class (cls : N -> bool) (r : N) (s : jsstring) : jsstring :=
  map (fun c => if cls c then r else c) s.

(** [s.replace(/\s+/g, r)]: every maximal run of white space becomes [r].
    [in_run] tells that the previous character was white space. *)
Fixpoint replace_ws_runs_from (in_run : bool) (r : N) (s : jsstring) : jsstring :=
  match s with
  | [] => []
  | c :: s' =>
      if is_ws c
      then (if in_run then replace_ws_runs_from true r s'
            else r :: replace_ws_runs_from true r s')
      else c :: replace_ws_runs_from false r s'
  end.

Definition replace_ws_runs (r : N) (s : jsstring) : jsstring :=
  replace_ws_runs_from false r s.

(** [s.replace(/\/\//g, '/')]: one pass from the left, so three slashes
    become two. *)
Fixpoint replace_double_slash (s : jsstring) : jsstring :=
  match s with
  | [] => []
  | c :: s' =>
      match s' with
      | d :: s'' =>
          if (c =? 47) && (d =? 47)
          then 47 :: replace_double_slash s''
          else c :: replace_double_slash s'
      | [] => [c]
      end
  end.

Definition slash_free (s : jsstring) : Prop := Forall (fun c => c <> 47) s.

(** [s.replace(/\n/g, '\n' + indent)]. *)
Definition replace_newlines (indent : jsstring) (s : jsstring) : jsstring :=
  flat_map (fun c => if c =? 10 then 10 :: indent else [c]) s.

Fixpoint trimStart (s : jsstring) : jsstring :=
  match s with
  | c :: s' => if is_ws c then trimStart s' else s
  | [] => []
  end.

Definition trimEnd (s : jsstring) : jsstring := rev (trimStart (rev s)).

Definition trim (s : jsstring) : jsstring := trimEnd (trimStart s).

(** [s.split(sep)] for a one-character separator: never the empty array. *)
Fixpoint split (sep : N) (s : jsstring) : list jsstring :=
  match s with
  | [] => [[]]
  | c :: s' =>
      if c =? sep then [] :: split sep s'
      else match split sep s' with
           | seg :: segs => (c :: seg) :: segs
           | [] => [[c]]
           end
  end.

(** [l.join(sep)]. *)
Fixpoint join (sep : jsstring) (l : list jsstring) : jsstring :=
  match l with
  | [] => []
  | [x] => x
  | x :: l' => x ++ sep ++ join sep l'
  end.

Fixpoint startsWith (s p : jsstring) : bool :=
  match p, s with
  | [], _ => true
  | _ :: _, [] => false
  | a :: p', b :: s' => (a =? b) && startsWith s' p'
  end.

Definition endsWith (s p : jsstring) : bool := startsWith (rev s) (rev p).

(** [s.includes(p)]. *)
Fixpoint includes (s p : jsstring) : bool :=
  startsWith s p ||
  match s with
  | [] => false
  | _ :: s' => includes s' p
  end.

Definition eqb (s t : jsstring) : bool := bool_decide (s = t).

(** [s.substring(a, b)] for [a <= b]. *)
Definition substring (a b : nat) (s : jsstring) : jsstring :=
  take (b - a)%nat (drop a s).

(** [s.slice(a)] for [a >= 0]. *)
Definition slice (a : nat) (s : jsstring) : jsstring := drop a s.

(** [s.split(/\r?\n/)]: a line feed ends a line, and a carriage return
    right before it belongs to the separator. *)
Definition drop_final_cr (s : jsstring) : jsstring :=
  match rev s with
  | 13 :: r => rev r
  | _ => s
  end.

Fixpoint map_but_last {A} (f : A -> A) (l : list A) : list A :=
  match l with
  | [] => []
  | [x] => [x]
  | x :: l' => f x :: map_but_last f l'
  end.

Definition split_lines (s : jsstring) : list jsstring :=
  map_but_last drop_final_cr (split 10 s).

(** [s.replace(/\.md$/, '')]. *)
Definition strip_md (s : jsstring) : jsstring :=
  if endsWith s (lit ".md") then take (length s - 3)%nat s else s.

(** [Array.from(new Set(l))]: first occurrences, in order. *)
Fixpoint dedupe {A} (same : A -> A -> bool) (l : list A) : list A :=
  match l with
  | [] => []
  | x :: l' => x :: filter (fun y => negb (same x y) = true) (dedupe same l')
  end.

(** A natural number in decimal, as [`${n}`] prints a count. *)
Definition decimal (n : nat) : jsstring :=
  lit (DecimalString.NilEmpty.string_of_uint (Nat.to_uint n)).

End Js.

Import Js.


(** ** What the JavaScript host provides *)

(** Numbers are IEEE doubles in the host; the code only tests them for
    truth and prints them. *)
Class JsHost := {
  number : Type;
  (** [ToBoolean]: false for zero and NaN. *)
  number_truthy : number -> bool;
  (** [Number::toString], as a template literal and [+=] apply it. *)
  number_toString : number -> jsstring;
  (** SameValueZero, the equality of a [Set]. *)
  number_same : number -> number -> bool;
  (** [String.prototype.toLowerCase]. *)
  toLowerCase : jsstring -> jsstring;
}.

(** Thrown values: all are instances of [Error]. *)
Inductive exn : Type :=
  | Error (message : jsstring)
  | TypeError (message : jsstring)
  | SyntaxError (message : jsstring).

Definition message (e : exn) : jsstring :=
  match e with
  | Error m | TypeError m | SyntaxError m => m
  end.

(** A call returns or throws. *)
Inductive outcome (A : Type) : Type :=
  | Ok (a : A)
  | Throw (e : exn).
Arguments Ok {A} a.
Arguments Throw {A} e.

(** An optional string property is truthy when present and non-empty. *)
Definition truthy (o : option jsstring) : bool :=
  match o with
  | Some (_ :: _) => true
  | _ => false
  end.

(** [o || d] and [`${o}`] under a truthiness test. *)
Definition or_else (o : option jsstring) (d : jsstring) : jsstring :=
  match o with
  | Some (c :: s) => c :: s
  | _ => d
  end.

(** ** The data model of [BookriseClient.ts] *)

Module Book.
Record t `{JsHost} : Type := {
  id : jsstring;
  title : jsstring;
  author : option jsstring;
  isbn : option jsstring;
  tags : option (list jsstring);
  percent_read : option number;
  assistant_id : option jsstring;
}.
End Book.

Module Highlight.
Record t `{JsHost} : Type := {
  id : jsstring;
  book_id : option jsstring;
  user_id : option jsstring;
  cfi_range : option jsstring;
  text_content : option jsstring;
  page : option number;
  location : option jsstring;
  color : option jsstring;
  note : option jsstring;
  created_at : option jsstring;
  updated_at : option jsstring;
}.
End Highlight.

(** ** The vault and the effects of the synchronizer *)

(** What [getAbstractFileByPath] finds at a path. *)
Inductive entry : Type :=
  | TFile (content : jsstring)
  | TFolder.

Abbreviation vault := (gmap jsstring entry).

(** What a run shows: the notices, and the files it wrote with their
    bytes ([vault.create] and [vault.modify] alike). *)
Inductive event : Type :=
  | Notice (text : jsstring)
  | Wrote (path content : jsstring).

(** An [async] method of the plugin: it reads and changes the vault,
    returns or throws, and leaves its events.  A throw keeps the changes
    made before it. *)
Definition M (A : Type) : Type := vault -> outcome A * vault * list event.

Definition ret {A} (a : A) : M A := fun v => (Ok a, v, []).

Definition throw {A} (e : exn) : M A := fun v => (Throw e, v, []).

Definition bind {A B} (m : M A) (f : A -> M B) : M B :=
  fun v =>
    match m v with
    | (Ok a, v1, ev1) =>
        match f a v1 with
        | (r, v2, ev2) => (r, v2, ev1 ++ ev2)
        end
    | (Throw e, v1, ev1) => (Throw e, v1, ev1)
    end.

(** [try { m } catch (error) { handler }]. *)
Definition try_catch {A} (m : M A) (handler : exn -> M A) : M A :=
  fun v =>
    match m v with
    | (Ok a, v1, ev1) => (Ok a, v1, ev1)
    | (Throw e, v1, ev1) =>
        match handler e v1 with
        | (r, v2, ev2) => (r, v2, ev1 ++ ev2)
        end
    end.

(** [await] of a client call whose outcome is known. *)
Definition await {A} (r : outcome A) : M A :=
  match r with
  | Ok a => ret a
  | Throw e => throw e
  end.

Definition emit (e : event) : M unit := fun v => (Ok tt, v, [e]).

Declare Scope sync_scope.
Delimit Scope sync_scope with sync.
Notation "'let*' x ':=' m 'in' k" := (bind m (fun x => k))
  (at level 10, x name, m at level 100, k at level 200) : sync_scope.
Notation "'run' m 'then' k" := (bind m (fun _ => k))
  (at level 10, m at level 100, k at level 200) : sync_scope.

(** The file store of the host, as the plugin uses it: a flat map from
    paths to entries, where creating at an occupied path fails. *)
Module Vault.

Definition getAbstractFileByPath (path : jsstring) : M (option entry) :=
  fun v => (Ok (v !! path), v, []).

Definition createFolder (path : jsstring) : M unit :=
  fun v =>
    match v !! path with
    | Some _ => (Throw (Error (lit "Folder already exists.")), v, [])
    | None => (Ok tt, <[path := TFolder]> v, [])
    end.

Definition create (path content : jsstring) : M unit :=
  fun v =>
    match v !! path with
    | Some _ => (Throw (Error (lit "File already exists.")), v, [])
    | None => (Ok tt, <[path := TFile content]> v, [Wrote path content])
    end.

(** [modify] takes the file found at [path]. *)
Definition modify (path content : jsstring) : M unit :=
  fun v => (Ok tt, <[path := TFile content]> v, [Wrote path content]).

End Vault.

(** ** The note synchronizer of [main.ts] *)

Module Sync.
Section Plugin.
Context `{JsHost}.
Local Open Scope sync_scope.

Record BookrisePluginSettings : Type := {
  bookriseApiKey : jsstring;
  bookriseSyncFolder : jsstring;
  createNotePerHighlight : bool;
}.

Definition DEFAULT_SETTINGS : BookrisePluginSettings :=
  {| bookriseApiKey := lit "";
     bookriseSyncFolder := lit "BookRise";
     createNotePerHighlight := false |}.

(** The client as the plugin sees it: what its two list calls resolve to
    while the remote state stays as it is.  [None] is the [null] that
    [request] returns for an empty body. *)
Record BookriseClient : Type := {
  listBooks : outcome (option (list Book.t));
  listHighlights : jsstring -> outcome (option (list Highlight.t));
}.

Record BookrisePlugin : Type := {
  settings : BookrisePluginSettings;
  client : option BookriseClient;
}.

(** [Math.random().toString(36)] as drawn for the highlight at each
    position of a book's list. *)
Definition oracle : Type := nat -> jsstring.

(** The class of [sanitizeFileName]: slash, backslash, colon, star,
    question mark, double quote, angle brackets and bar. *)
Definition forbidden_in_file_name (c : N) : bool :=
  (c =? 47) || (c =? 92) || (c =? 58) || (c =? 42) || (c =? 63)
  || (c =? 34) || (c =? 60) || (c =? 62) || (c =? 124).

Definition sanitizeFileName (name : jsstring) : jsstring :=
  replace_ws_runs 32 (replace_class forbidden_in_file_name 45 name).

(** [.replace(/:/g, '-')] *)
Definition colons_to_dashes (s : jsstring) : jsstring :=
  replace_class (fun c => c =? 58) 45 s.

(** [.replace(/[^a-zA-Z0-9\-_]/g, '_')] *)
Definition not_tag_char (c : N) : bool :=
  negb (((97 <=? c) && (c <=? 122)) || ((65 <=? c) && (c <=? 90))
        || ((48 <=? c) && (c <=? 57)) || (c =? 45) || (c =? 95)).

Definition author_tag (author : jsstring) : jsstring :=
  lit "author/" ++ replace_class not_tag_char 95 author.

(** The YAML array of the tags: each with its colons replaced, in double
    quotes, joined by a comma and a space, in square brackets. *)
Definition tag_array (tags : list jsstring) : jsstring :=
  lit "[" ++ join (lit ", ") (map (fun t => quote ++ colons_to_dashes t ++ quote) tags)
  ++ lit "]".

Definition createOrUpdateFile (filePath content : jsstring) : M unit :=
  let* existingFile := Vault.getAbstractFileByPath filePath in
  match existingFile with
  | Some (TFile _) => Vault.modify filePath content
  | _ => Vault.create filePath content
  end.

Definition ensureFolderExists (folderPath : jsstring) : M unit :=
  try_catch
    (let* folder := Vault.getAbstractFileByPath folderPath in
     match folder with
     | None => Vault.createFolder folderPath
     | Some TFolder => ret tt
     | Some (TFile _) =>
         run emit (Notice (lit "Error: " ++ folderPath
                           ++ lit " exists but is a file, not a folder."))
         then throw (Error (folderPath ++ lit " exists but is a file, not a folder."))
     end)
    (fun error =>
       if negb (includes (message error) (lit "Folder already exists"))
       then throw error
       else ret tt).

Definition generateBookFrontmatter (book : Book.t) : jsstring :=
  let fm := lit "---" ++ nl in
  let fm := fm ++ lit "title: " ++ quote ++ colons_to_dashes (Book.title book)
               ++ quote ++ nl in
  let fm := fm ++ lit "id: " ++ Book.id book ++ nl in
  let existingBookTags := default [] (Book.tags book) in
  let '(fm, pluginAddedTags) :=
    if truthy (Book.author book)
    then (fm ++ lit "author: " ++ quote ++ or_else (Book.author book) [] ++ quote ++ nl,
          [lit "BookRise"; author_tag (or_else (Book.author book) [])])
    else (fm, [lit "BookRise"]) in
  let fm := if truthy (Book.isbn book)
            then fm ++ lit "isbn: " ++ quote ++ or_else (Book.isbn book) [] ++ quote ++ nl
            else fm in
  let fm := match Book.percent_read book with
            | Some p => fm ++ lit "percent_read: " ++ number_toString p ++ nl
            | None => fm
            end in
  let allTags := dedupe Js.eqb (existingBookTags ++ pluginAddedTags) in
  let fm := if (0 <? length allTags)%nat
            then fm ++ lit "tags: " ++ tag_array allTags ++ nl
            else fm in
  let fm := fm ++ lit "source: BookRise" ++ nl in
  fm ++ lit "---" ++ nl ++ nl.

(** [s.trim().split(' ')] *)
Definition words (s : jsstring) : list jsstring := split 32 (trim s).

Definition number_is_truthy (o : option number) : bool :=
  match o with
  | Some n => number_truthy n
  | None => false
  end.

(** [`hlcolor/${color.toLowerCase().replace(/\s+/g, '_')}`] *)
Definition color_tag (color : jsstring) : jsstring :=
  lit "hlcolor/" ++ replace_ws_runs 95 (toLowerCase color).

Definition generateHighlightNoteFrontmatter (hl : Highlight.t) (book : Book.t)
    (bookSanitizedFileNameForLink : jsstring) : jsstring :=
  let fm := lit "---" ++ nl in
  let noteTitle :=
    match Highlight.text_content hl, Highlight.note hl with
    | Some (c :: s), _ =>
        let noteTitle := join (lit " ") (take 7 (words (c :: s))) in
        if (7 <? length (words (c :: s)))%nat then noteTitle ++ lit "..." else noteTitle
    | _, Some (c :: s) =>
        let noteTitle := lit "Note: " ++ join (lit " ") (take 6 (words (c :: s))) in
        if (6 <? length (words (c :: s)))%nat then noteTitle ++ lit "..." else noteTitle
    | _, _ => lit "BookRise Highlight"
    end in
  let fm := fm ++ lit "title: " ++ quote
               ++ sanitizeFileName (colons_to_dashes noteTitle) ++ quote ++ nl in
  let fm := fm ++ lit "book: " ++ quote ++ lit "[[" ++ bookSanitizedFileNameForLink
               ++ lit "]]" ++ quote ++ nl in
  let fm := fm ++ lit "book_id: " ++ Book.id book ++ nl in
  let fm := fm ++ lit "highlight_id: " ++ Highlight.id hl ++ nl in
  let fm := if truthy (Highlight.color hl)
            then fm ++ lit "color: " ++ or_else (Highlight.color hl) [] ++ nl else fm in
  let fm := match Highlight.page hl with
            | Some p => if number_truthy p
                        then fm ++ lit "page: " ++ number_toString p ++ nl else fm
            | None => fm
            end in
  let fm := if truthy (Highlight.location hl)
            then fm ++ lit "location: " ++ quote ++ or_else (Highlight.location hl) []
                    ++ quote ++ nl
            else fm in
  let fm := if truthy (Highlight.created_at hl)
            then fm ++ lit "highlight_created_at: "
                    ++ or_else (Highlight.created_at hl) [] ++ nl
            else fm in
  let tags := [lit "BookRise"; lit "BookRiseHighlight"] in
  let tags := if truthy (Book.author book)
              then tags ++ [author_tag (or_else (Book.author book) [])] else tags in
  let tags := if truthy (Highlight.color hl)
              then tags ++ [color_tag (or_else (Highlight.color hl) [])] else tags in
  let fm := fm ++ lit "tags: " ++ tag_array tags ++ nl in
  fm ++ lit "---" ++ nl ++ nl.

Definition formatSingleHighlightAsListItem (random36 : jsstring)
    (hl : Highlight.t) : jsstring :=
  let blockId := match Highlight.id hl with
                 | _ :: _ => substring 0 8 (Highlight.id hl)
                 | [] => substring 2 10 random36
                 end in
  let metadataParts :=
    (match Highlight.page hl with
     | Some p => if number_truthy p then [lit "p. " ++ number_toString p] else []
     | None => []
     end)
    ++ (if truthy (Highlight.location hl)
        then [lit "loc. " ++ or_else (Highlight.location hl) []] else []) in
  let metadataString :=
    if (0 <? length metadataParts)%nat
    then lit " (" ++ join (lit ", ") metadataParts ++ lit ")"
    else [] in
  let colorTagString :=
    if truthy (Highlight.color hl)
    then lit " #" ++ color_tag (or_else (Highlight.color hl) [])
    else [] in
  let '(primaryLineContent, subNoteContent) :=
    match Highlight.text_content hl, Highlight.note hl with
    | Some (c :: s), Some (d :: n) =>
        (replace_newlines (lit "  ") (c :: s),
         lit "  - **Note:** " ++ replace_newlines (lit "    ") (d :: n) ++ nl)
    | Some (c :: s), _ => (replace_newlines (lit "  ") (c :: s), [])
    | _, Some (d :: n) =>
        (lit "**Note:** " ++ replace_newlines (lit "  ") (d :: n), [])
    | _, _ => ([], [])
    end in
  let finalPrimaryLine := trim primaryLineContent in
  let finalPrimaryLine :=
    if (length finalPrimaryLine =? 0)%nat
       && ((0 <? length metadataString)%nat || (0 <? length colorTagString)%nat)
    then lit " " else finalPrimaryLine in
  let finalPrimaryLine := finalPrimaryLine ++ metadataString ++ colorTagString in
  let listItem := lit "- " ++ trim finalPrimaryLine ++ lit " ^" ++ blockId ++ nl in
  let listItem := match subNoteContent with
                  | _ :: _ => listItem ++ subNoteContent
                  | [] => listItem
                  end in
  listItem ++ nl.

Definition formatSingleHighlightContent (hl : Highlight.t) : jsstring :=
  let content := [] in
  let content := if truthy (Highlight.text_content hl)
                 then content ++ or_else (Highlight.text_content hl) [] ++ nl ++ nl
                 else content in
  let content := if truthy (Highlight.note hl)
                 then content ++ lit "**Note:**" ++ nl
                      ++ or_else (Highlight.note hl) [] ++ nl ++ nl
                 else content in
  if negb (truthy (Highlight.text_content hl)) && negb (truthy (Highlight.note hl))
  then content ++ lit "(This highlight has no text or note content from BookRise.)" ++ nl
  else content.

(** The names one pass of the per-highlight loop derives. *)
Definition noteTitlePrefix (hl : Highlight.t) : jsstring :=
  sanitizeFileName
    match Highlight.text_content hl, Highlight.note hl with
    | Some (c :: s), _ => join (lit " ") (take 5 (words (c :: s)))
    | _, Some (c :: s) => lit "Note - " ++ join (lit " ") (take 4 (words (c :: s)))
    | _, _ => lit "Highlight"
    end.

Definition noteFileName (hl : Highlight.t) : jsstring :=
  let highlightIdSanitized := sanitizeFileName (Highlight.id hl) in
  noteTitlePrefix hl ++ lit " (" ++ substring 0 8 highlightIdSanitized ++ lit ").md".

Definition highlightLink (hl : Highlight.t) : jsstring :=
  lit "- [[_Highlights/" ++ strip_md (noteFileName hl) ++ lit "|"
  ++ noteTitlePrefix hl ++ lit " (" ++ or_else (Highlight.color hl) (lit "highlight")
  ++ lit ")]]".

(** [for (const hl of highlights)] of the per-highlight mode: writes each
    note and collects its link. *)
Fixpoint writeHighlightNotes (book : Book.t) (highlightsFolder
    mainBookSanitizedTitle : jsstring) (highlights : list Highlight.t)
    (highlightLinks : list jsstring) : M (list jsstring) :=
  match highlights with
  | [] => ret highlightLinks
  | hl :: rest =>
      let noteFilePath :=
        replace_double_slash (highlightsFolder ++ lit "/" ++ noteFileName hl) in
      let noteContent :=
        generateHighlightNoteFrontmatter hl book mainBookSanitizedTitle
        ++ formatSingleHighlightContent hl in
      run createOrUpdateFile noteFilePath noteContent
      then writeHighlightNotes book highlightsFolder mainBookSanitizedTitle rest
             (highlightLinks ++ [highlightLink hl])
  end.

(** [highlights.forEach] of the aggregate mode; [i] is the position of
    the head of [highlights]. *)
Fixpoint appendListItems (rnd : oracle) (i : nat) (highlights : list Highlight.t)
    (mainBookContent : jsstring) : jsstring :=
  match highlights with
  | [] => mainBookContent
  | hl :: rest =>
      appendListItems rnd (S i) rest
        (mainBookContent ++ formatSingleHighlightAsListItem (rnd i) hl)
  end.

Definition bookFolderPath (plugin : BookrisePlugin) (book : Book.t) : jsstring :=
  replace_double_slash
    (bookriseSyncFolder (settings plugin) ++ lit "/" ++ sanitizeFileName (Book.title book)).

Definition mainBookFilePath (plugin : BookrisePlugin) (book : Book.t) : jsstring :=
  replace_double_slash
    (bookFolderPath plugin book ++ lit "/" ++ sanitizeFileName (Book.title book)
     ++ lit ".md").

Definition highlightsIndexHeader : jsstring :=
  lit "This book's highlights are stored as individual notes in the "
  ++ quote ++ lit "_Highlights" ++ quote ++ lit " subfolder." ++ nl ++ nl
  ++ lit "## Highlights Index" ++ nl.

Definition syncBookHighlights (plugin : BookrisePlugin) (rnd : oracle)
    (book : Book.t) : M unit :=
  match client plugin with
  | None => ret tt
  | Some c =>
      run ensureFolderExists (bookFolderPath plugin book) then
      let* highlights := await (listHighlights c (Book.id book)) in
      let mainBookSanitizedTitle := sanitizeFileName (Book.title book) in
      let mainBookContent :=
        generateBookFrontmatter book ++ lit "# " ++ Book.title book ++ nl ++ nl in
      match highlights with
      | None | Some [] =>
          let mainBookContent :=
            if createNotePerHighlight (settings plugin)
            then mainBookContent ++ lit "No highlights found for this book." ++ nl
            else mainBookContent ++ lit "# Highlights for " ++ Book.title book ++ nl ++ nl
                 ++ lit "(No highlights found or synced for this book.)" ++ nl in
          createOrUpdateFile (mainBookFilePath plugin book) mainBookContent
      | Some highlights =>
          if createNotePerHighlight (settings plugin)
          then
            let highlightsFolder := bookFolderPath plugin book ++ lit "/_Highlights" in
            run ensureFolderExists highlightsFolder then
            let mainBookContent := mainBookContent ++ highlightsIndexHeader in
            let* highlightLinks :=
              writeHighlightNotes book highlightsFolder mainBookSanitizedTitle
                highlights [] in
            let mainBookContent :=
              mainBookContent ++ join nl highlightLinks ++ nl in
            createOrUpdateFile (mainBookFilePath plugin book) mainBookContent
          else
            let mainBookContent :=
              mainBookContent ++ lit "# Highlights for " ++ Book.title book ++ nl ++ nl in
            let mainBookContent := appendListItems rnd 0 highlights mainBookContent in
            createOrUpdateFile (mainBookFilePath plugin book) mainBookContent
      end
  end.

(** [for (const book of books)] of [syncAllHighlights], with its two
    counters; [k] is the position of the head of [books]. *)
Fixpoint syncBooks (plugin : BookrisePlugin) (rnds : nat -> oracle) (k : nat)
    (books : list Book.t) (successCount errorCount : nat) : M (nat * nat) :=
  match books with
  | [] => ret (successCount, errorCount)
  | book :: rest =>
      let* counts :=
        try_catch
          (run syncBookHighlights plugin (rnds k) book
           then ret (S successCount, errorCount))
          (fun bookError =>
             run emit (Notice (lit "Error syncing " ++ Book.title book
                               ++ lit ". Check console."))
             then ret (successCount, S errorCount)) in
      syncBooks plugin rnds (S k) rest (fst counts) (snd counts)
  end.

Definition summaryNotice (successCount errorCount : nat) : jsstring :=
  let summaryNotice := lit "BookRise highlight sync finished." in
  let summaryNotice :=
    if (0 <? successCount)%nat
    then summaryNotice ++ lit " Synced " ++ decimal successCount ++ lit " books."
    else summaryNotice in
  if (0 <? errorCount)%nat
  then summaryNotice ++ lit " Failed for " ++ decimal errorCount ++ lit " books."
  else summaryNotice.

Definition syncAllHighlights (plugin : BookrisePlugin) (rnds : nat -> oracle) : M unit :=
  match client plugin with
  | None => emit (Notice (lit "BookRise client not available. Please check API key."))
  | Some c =>
      run emit (Notice (lit "Starting BookRise highlight sync...")) then
      try_catch
        (let* books := await (listBooks c) in
         match books with
         | None | Some [] => emit (Notice (lit "No books found in your BookRise library."))
         | Some books =>
             run emit (Notice (lit "Found " ++ decimal (length books)
                               ++ lit " books. Fetching highlights...")) then
             run ensureFolderExists (bookriseSyncFolder (settings plugin)) then
             let* counts := syncBooks plugin rnds 0 books 0 0 in
             emit (Notice (summaryNotice (fst counts) (snd counts)))
         end)
        (fun error =>
           emit (Notice (lit "Error syncing BookRise highlights. Check console for details.")))
  end.

End Plugin.
End Sync.

(** ** JSON values and what [JSON.parse] returns *)

Inductive json `{JsHost} : Type :=
  | JNull
  | JBool (b : bool)
  | JNum (n : number)
  | JStr (s : jsstring)
  | JArr (items : list json)
  | JObj (props : list (jsstring * json)).

Class JsonHost `{JsHost} := {
  (** [JSON.parse]: [None] when it throws a [SyntaxError]. *)
  JSON_parse : jsstring -> option json;
  (** The message of that [SyntaxError], which differs between engines
      and tells of the text. *)
  JSON_parse_error : jsstring -> jsstring;
  JSON_stringify : json -> jsstring;
}.

Module Json.
Section Json.
Context `{JsHost}.

(** The own property [key]; of two members with one key, [JSON.parse]
    keeps the later. *)
Fixpoint lookup (key : jsstring) (props : list (jsstring * json)) : option json :=
  match props with
  | [] => None
  | (k, v) :: rest =>
      match lookup key rest with
      | Some w => Some w
      | None => if Js.eqb k key then Some v else None
      end
  end.

(** [value.key] for the keys the client reads, none of which a prototype
    defines: reading a property of [null] throws, and only an object has
    own properties with such names.  [None] is [undefined]. *)
Definition get (key : jsstring) (value : json) : outcome (option json) :=
  match value with
  | JNull => Throw (TypeError (lit "Cannot read properties of null (reading '"
                               ++ key ++ lit "')"))
  | JObj props => Ok (lookup key props)
  | _ => Ok None
  end.

(** [ToBoolean]. *)
Definition truthy (value : json) : bool :=
  match value with
  | JNull => false
  | JBool b => b
  | JNum n => number_truthy n
  | JStr s => negb (Js.eqb s [])
  | JArr _ | JObj _ => true
  end.

Definition truthy_opt (value : option json) : bool :=
  match value with
  | Some v => truthy v
  | None => false
  end.

(** What [s + value] and a template literal append to a string.  An
    array prints its items joined by commas, [null] items as nothing; an
    object prints as [[object Object]] unless an own [toString] member
    (never a function in parsed JSON) hides the inherited method, which
    is a [TypeError]: [None]. *)
Fixpoint ToString (value : json) : option jsstring :=
  match value with
  | JNull => Some (lit "null")
  | JBool true => Some (lit "true")
  | JBool false => Some (lit "false")
  | JNum n => Some (number_toString n)
  | JStr s => Some s
  | JArr items =>
      (fix items_to_string (l : list json) : option jsstring :=
         match l with
         | [] => Some []
         | x :: l' =>
             match (match x with JNull => Some [] | _ => ToString x end),
                   items_to_string l' with
             | Some s, Some rest =>
                 Some (match l' with [] => s | _ :: _ => s ++ lit "," ++ rest end)
             | _, _ => None
             end
         end) items
  | JObj props =>
      match lookup (lit "toString") props with
      | Some _ => None
      | None => Some (lit "[object Object]")
      end
  end.

(** SameValueZero, as a [Set] compares: two parsed arrays or objects are
    never the same object. *)
Definition same (a b : json) : bool :=
  match a, b with
  | JNull, JNull => true
  | JBool x, JBool y => bool_decide (x = y)
  | JNum x, JNum y => number_same x y
  | JStr x, JStr y => Js.eqb x y
  | _, _ => false
  end.

End Json.
End Json.

(** ** The API client of [BookriseClient.ts] *)

Module Client.

Record RequestUrlParam : Type := {
  url : jsstring;
  method : option jsstring;
  headers : list (jsstring * jsstring);
  body : option jsstring;
}.

(** A status code is a natural number. *)
Record RequestUrlResponse : Type := {
  status : nat;
  text : jsstring;
}.

(** How the reader of a response body ends. *)
Inductive stream_end : Type :=
  | EndOfStream
  | ReadFails (e : exn).

(** A [fetch] response: [reads] is the decoded text of every chunk the
    reader yields, [None] when the response has no body to read. *)
Record FetchResponse : Type := {
  fetch_status : nat;
  fetch_text : jsstring;
  fetch_body : option (list jsstring * stream_end);
}.

Declare Scope client_scope.
Delimit Scope client_scope with client.

Section Client.
Context `{JsonHost}.

(** What a call of the client shows to the outside. *)
Inductive effect : Type :=
  | Requested (request : RequestUrlParam)
  | Fetched (request : RequestUrlParam)
  | Warned (text : jsstring)
  | Chunk (chunk : json).

(** An [async] method of the client: returns or throws, and leaves its
    effects in order. *)
Definition Eff (A : Type) : Type := outcome A * list effect.

Definition pure {A} (a : A) : Eff A := (Ok a, []).

Definition raise {A} (e : exn) : Eff A := (Throw e, []).

Definition and_then {A B} (m : Eff A) (f : A -> Eff B) : Eff B :=
  match m with
  | (Ok a, ev1) => match f a with (r, ev2) => (r, ev1 ++ ev2) end
  | (Throw e, ev1) => (Throw e, ev1)
  end.

Definition catch {A} (m : Eff A) (handler : exn -> Eff A) : Eff A :=
  match m with
  | (Ok a, ev1) => (Ok a, ev1)
  | (Throw e, ev1) => match handler e with (r, ev2) => (r, ev1 ++ ev2) end
  end.

Definition perform (e : effect) : Eff unit := (Ok tt, [e]).

Definition lift {A} (r : outcome A) : Eff A := (r, []).

(** [`${value}`]. *)
Definition interpolate (value : json) : Eff jsstring :=
  match Json.ToString value with
  | Some s => pure s
  | None => raise (TypeError (lit "Cannot convert object to primitive value"))
  end.

Notation "'let*' x ':=' m 'in' k" := (and_then m (fun x => k))
  (at level 10, x name, m at level 100, k at level 200) : client_scope.
Notation "'run' m 'then' k" := (and_then m (fun _ => k))
  (at level 10, m at level 100, k at level 200) : client_scope.
Local Open Scope client_scope.

(** The fields of the class and the global [fetch]. *)
Record BookriseClient : Type := {
  token : jsstring;
  requestUrlFn : RequestUrlParam -> outcome RequestUrlResponse;
  fetch : RequestUrlParam -> outcome FetchResponse;
}.

Definition baseUrl : jsstring := lit "https://app.bookrise.io".

Record RequestOptions : Type := {
  opt_method : option jsstring;
  opt_headers : list (jsstring * jsstring);
  opt_body : option jsstring;
}.

Definition no_options : RequestOptions :=
  {| opt_method := None; opt_headers := []; opt_body := None |}.

Definition in_2xx (status : nat) : bool := (200 <=? status)%nat && (status <? 300)%nat.

(** [request<T>]: [None] is the [null] it returns. *)
Definition request (this : BookriseClient) (endpoint : jsstring)
    (options : RequestOptions) : Eff (option json) :=
  let url := baseUrl ++ endpoint in
  let requestOptions :=
    {| url := url;
       method := Some (or_else (opt_method options) (lit "GET"));
       headers := [(lit "Authorization", lit "Bearer " ++ token this);
                   (lit "Content-Type", lit "application/json")]
                  ++ opt_headers options;
       body := opt_body options |} in
  run perform (Requested requestOptions) then
  let* response := lift (requestUrlFn this requestOptions) in
  if negb (in_2xx (status response))
  then
    let* errorBody :=
      catch
        (match JSON_parse (text response) with
         | None => raise (SyntaxError (JSON_parse_error (text response)))
         | Some parsedError =>
             let* detail := lift (Json.get (lit "detail") parsedError) in
             match detail with
             | Some d => if Json.truthy d then pure d else pure (JStr (text response))
             | None => pure (JStr (text response))
             end
         end)
        (fun e => pure (JStr (text response))) in
    let* shown := interpolate errorBody in
    raise (Error (lit "Error calling BookRise API: Status " ++ decimal (status response)
                  ++ lit " - " ++ shown))
  else
    let responseText := text response in
    if Js.eqb responseText [] && negb (status response =? 204)%nat
    then
      run perform (Warned (lit "Empty response for status " ++ decimal (status response)
                           ++ lit " from " ++ url))
      then pure None
    else if (status response =? 204)%nat
    then pure None
    else
      match JSON_parse responseText with
      | Some parsed => pure (Some parsed)
      | None => raise (SyntaxError (JSON_parse_error responseText))
      end.

Definition listBooks (this : BookriseClient) : Eff (option json) :=
  request this (lit "/api/books") no_options.

Definition listHighlights (this : BookriseClient) (bookId : jsstring) : Eff (option json) :=
  match bookId with
  | [] => raise (Error (lit "bookId is required to list highlights."))
  | _ :: _ => request this (lit "/api/highlights?book_id=" ++ bookId) no_options
  end.

(** [books.find(b => b.id === bookId)], on whatever [listBooks] resolved
    to: only an array has [find], and [null], be it the [null] of
    [request] or a body that reads null, has no properties at all. *)
Fixpoint find_by_id (bookId : jsstring) (items : list json) : outcome (option json) :=
  match items with
  | [] => Ok None
  | b :: rest =>
      match Json.get (lit "id") b with
      | Throw e => Throw e
      | Ok (Some (JStr s)) => if Js.eqb s bookId then Ok (Some b) else find_by_id bookId rest
      | Ok _ => find_by_id bookId rest
      end
  end.

Definition find_book (bookId : jsstring) (books : option json) : outcome (option json) :=
  match books with
  | Some (JArr items) => find_by_id bookId items
  | None | Some JNull =>
      Throw (TypeError (lit "Cannot read properties of null (reading 'find')"))
  | Some _ => Throw (TypeError (lit "books.find is not a function"))
  end.

(** The JSON body of the chat request. *)
Definition chat_body (bookId prompt : jsstring) (contextIds : option (list jsstring)) : json :=
  JObj [(lit "book_id", JStr bookId);
        (lit "message", JStr prompt);
        (lit "context_ids", JArr (map JStr (default [] contextIds)))].

(** The object a streamed chat returns. *)
Definition ChatResponse (answer : jsstring) (cited_paragraph_ids cited_chapters : list json)
    : json :=
  JObj [(lit "answer", JStr answer);
        (lit "cited_paragraph_ids", JArr cited_paragraph_ids);
        (lit "cited_chapters", JArr cited_chapters)].

(** The request of the streaming branch. *)
Definition stream_request (this : BookriseClient) (body : json) : RequestUrlParam :=
  {| url := baseUrl ++ lit "/chat";
     method := Some (lit "POST");
     headers := [(lit "Authorization", lit "Bearer " ++ token this);
                 (lit "Content-Type", lit "application/json");
                 (lit "Accept", lit "text/event-stream")];
     body := Some (JSON_stringify body) |}.

(** The value of [value] under an [if (value)] test: [None] when it is
    [undefined] or falsy. *)
Definition if_truthy (value : option json) : option json :=
  match value with
  | Some v => if Json.truthy v then Some v else None
  | None => None
  end.

End Client.

Notation "'let*' x ':=' m 'in' k" := (and_then m (fun x => k))
  (at level 10, x name, m at level 100, k at level 200) : client_scope.
Notation "'run' m 'then' k" := (and_then m (fun _ => k))
  (at level 10, m at level 100, k at level 200) : client_scope.

End Client.

(** ** [chat] of [src/BookriseClient.ts]: the stream is read from [fetch] *)

Module FetchClient.
Import Client.
Section Chat.
Context `{JsonHost}.
Local Open Scope client_scope.

(** The two variables of the read loop. *)
Record StreamState : Type := {
  fullAnswer : jsstring;
  citedChapters : list json;
}.

(** [fullAnswer += value; onChunk(value);]: the conversion to a string
    comes first and may throw. *)
Definition append_and_call (st : StreamState) (value : json) : Eff StreamState :=
  let* shown := interpolate value in
  run perform (Chunk value) then
  pure {| fullAnswer := fullAnswer st ++ shown; citedChapters := citedChapters st |}.

(** The [try] block of one data line.  Nothing in it throws once a chunk
    was appended, so its [catch] resumes from the state before the line. *)
Definition try_block (st : StreamState) (data : jsstring) : Eff StreamState :=
  match JSON_parse data with
  | None => raise (SyntaxError (JSON_parse_error data))
  | Some parsed =>
      let* content := lift (Json.get (lit "content") parsed) in
      let* st :=
        match if_truthy content with
        | Some c => append_and_call st c
        | None =>
            let* answer := lift (Json.get (lit "answer") parsed) in
            match if_truthy answer with
            | Some a => append_and_call st a
            | None =>
                let* delta := lift (Json.get (lit "delta") parsed) in
                match if_truthy delta with
                | Some d => append_and_call st d
                | None =>
                    match parsed with
                    | JStr _ => append_and_call st parsed
                    | _ => pure st
                    end
                end
            end
        end in
      let* cited := lift (Json.get (lit "cited_chapters") parsed) in
      match cited with
      | Some (JArr items) =>
          pure {| fullAnswer := fullAnswer st; citedChapters := citedChapters st ++ items |}
      | _ => pure st
      end
  end.

(** The body of [for (const line of lines)]. *)
Definition process_line (st : StreamState) (line : jsstring) : Eff StreamState :=
  if startsWith line (lit "data: ")
  then
    let data := slice 6 line in
    if Js.eqb data (lit "[DONE]") then pure st
    else catch (try_block st data)
           (fun e => run perform (Warned (lit "Failed to parse chunk:")) then pure st)
  else pure st.

Fixpoint process_lines (st : StreamState) (lines : list jsstring) : Eff StreamState :=
  match lines with
  | [] => pure st
  | line :: rest =>
      let* st := process_line st line in
      process_lines st rest
  end.

(** [while (true)]: one pass for each chunk the reader yields. *)
Fixpoint read_loop (st : StreamState) (reads : list jsstring) : Eff StreamState :=
  match reads with
  | [] => pure st
  | chunk :: rest =>
      let* st := process_lines st (split 10 chunk) in
      read_loop st rest
  end.

(** The [try] block of [chat].  [onChunk] tells whether the callback was
    given; its calls are the [Chunk] effects, and each call is taken to
    return. *)
Definition chat_try (this : BookriseClient) (bookId prompt : jsstring)
    (contextIds : option (list jsstring)) (onChunk : bool) : Eff json :=
  let body := chat_body bookId prompt contextIds in
  if onChunk
  then
    run perform (Fetched (stream_request this body)) then
    let* response := lift (fetch this (stream_request this body)) in
    if negb (in_2xx (fetch_status response))
    then raise (Error (lit "Chat API error: " ++ decimal (fetch_status response)
                       ++ lit " - " ++ fetch_text response))
    else
      match fetch_body response with
      | None => raise (Error (lit "Failed to get response reader"))
      | Some (reads, ending) =>
          let* st := read_loop {| fullAnswer := []; citedChapters := [] |} reads in
          match ending with
          | ReadFails e => raise e
          | EndOfStream =>
              pure (ChatResponse (fullAnswer st) []
                      (dedupe Json.same (citedChapters st)))
          end
      end
  else
    let* response :=
      request this (lit "/chat")
        {| opt_method := Some (lit "POST"); opt_headers := [];
           opt_body := Some (JSON_stringify body) |} in
    match if_truthy response with
    | None => raise (Error (lit "Received empty response from chat API"))
    | Some response => pure response
    end.

(** [chat]: the guard, the look-up of the book, and the [try] block
    with its [catch], which throws anew. *)
Definition chat (this : BookriseClient) (bookId prompt : jsstring)
    (contextIds : option (list jsstring)) (onChunk : bool) : Eff json :=
  if Js.eqb bookId [] || Js.eqb prompt []
  then raise (Error (lit "bookId and prompt are required for chat."))
  else
    let* books := listBooks this in
    let* book := lift (find_book bookId books) in
    match if_truthy book with
    | None => raise (Error (lit "Book with ID " ++ bookId ++ lit " not found"))
    | Some _ =>
      catch (chat_try this bookId prompt contextIds onChunk)
        (fun error => raise (Error (lit "Failed to get chat response: " ++ message error)))
    end.

End Chat.
End FetchClient.

(** ** [chat] of the later revision: the stream is the text of the
    response of [requestUrlFn] *)

Module RequestUrlClient.
Import Client.
Section Chat.
Context `{JsonHost}.
Local Open Scope client_scope.

(** [fullAnswer] and the [Set] of cited chapters, in insertion order. *)
Record StreamState : Type := {
  fullAnswer : jsstring;
  citedChapters : list number;
}.

Definition emitChunk (st : StreamState) (chunk : json) : Eff StreamState :=
  if negb (Json.truthy chunk) then pure st
  else
    let* shown := interpolate chunk in
    run perform (Chunk chunk) then
    pure {| fullAnswer := fullAnswer st ++ shown; citedChapters := citedChapters st |}.

(** [citedChapters.add(chapter)] for the numbers of the array. *)
Definition add_chapters (set : list number) (items : list json) : list number :=
  fold_left
    (fun set chapter =>
       match chapter with
       | JNum n => if existsb (number_same n) set then set else set ++ [n]
       | _ => set
       end)
    items set.

(** The [try] block of one data line.  Nothing in it throws once a chunk
    was appended, so its [catch] resumes from the state before the line. *)
Definition try_block (st : StreamState) (data : jsstring) : Eff StreamState :=
  match JSON_parse data with
  | None => raise (SyntaxError (JSON_parse_error data))
  | Some parsed =>
      let* content := lift (Json.get (lit "content") parsed) in
      let* st :=
        match if_truthy content with
        | Some c => emitChunk st c
        | None =>
            let* answer := lift (Json.get (lit "answer") parsed) in
            match if_truthy answer with
            | Some a => emitChunk st a
            | None =>
                let* delta := lift (Json.get (lit "delta") parsed) in
                match if_truthy delta with
                | Some d => emitChunk st d
                | None =>
                    match parsed with
                    | JStr _ => emitChunk st parsed
                    | _ => pure st
                    end
                end
            end
        end in
      let* cited := lift (Json.get (lit "cited_chapters") parsed) in
      match cited with
      | Some (JArr items) =>
          pure {| fullAnswer := fullAnswer st;
                  citedChapters := add_chapters (citedChapters st) items |}
      | _ => pure st
      end
  end.

(** The body of [for (const rawLine of lines)]. *)
Definition process_line (st : StreamState) (rawLine : jsstring) : Eff StreamState :=
  let line := trim rawLine in
  if negb (startsWith line (lit "data:")) then pure st
  else
    let data := trim (slice 5 line) in
    if Js.eqb data [] || Js.eqb data (lit "[DONE]") then pure st
    else catch (try_block st data)
           (fun e =>
              run perform (Warned (lit "Failed to parse chat stream chunk:")) then
              emitChunk st (JStr data)).

Fixpoint process_lines (st : StreamState) (lines : list jsstring) : Eff StreamState :=
  match lines with
  | [] => pure st
  | rawLine :: rest =>
      let* st := process_line st rawLine in
      process_lines st rest
  end.

(** The [try] block of [chat]. *)
Definition chat_try (this : BookriseClient) (bookId prompt : jsstring)
    (contextIds : option (list jsstring)) (onChunk : bool) : Eff json :=
  let body := chat_body bookId prompt contextIds in
  if onChunk
  then
    run perform (Requested (stream_request this body)) then
    let* response := lift (requestUrlFn this (stream_request this body)) in
    if negb (in_2xx (status response))
    then raise (Error (lit "Chat API error: " ++ decimal (status response)
                       ++ lit " - " ++ text response))
    else
      let streamPayload := text response in
      if Js.eqb streamPayload []
      then raise (Error (lit "Received empty response from chat API stream"))
      else
        let* st :=
          process_lines {| fullAnswer := []; citedChapters := [] |}
            (split_lines streamPayload) in
        pure (ChatResponse (fullAnswer st) [] (map JNum (citedChapters st)))
  else
    let* response :=
      request this (lit "/chat")
        {| opt_method := Some (lit "POST"); opt_headers := [];
           opt_body := Some (JSON_stringify body) |} in
    match if_truthy response with
    | None => raise (Error (lit "Received empty response from chat API"))
    | Some response => pure response
    end.

(** [chat]: the guard, the look-up of the book, and the [try] block
    with its [catch], which throws anew. *)
Definition chat (this : BookriseClient) (bookId prompt : jsstring)
    (contextIds : option (list jsstring)) (onChunk : bool) : Eff json :=
  if Js.eqb bookId [] || Js.eqb prompt []
  then raise (Error (lit "bookId and prompt are required for chat."))
  else
    let* books := listBooks this in
    let* book := lift (find_book bookId books) in
    match if_truthy book with
    | None => raise (Error (lit "Book with ID " ++ bookId ++ lit " not found"))
    | Some _ =>
      catch (chat_try this bookId prompt contextIds onChunk)
        (fun error => raise (Error (lit "Failed to get chat response: " ++ message error)))
    end.

End Chat.
End RequestUrlClient.

(** ** A concrete host and concrete data, for the examples *)

Module Sample.

(** Integers as numbers, printed in decimal; lower case for ASCII. *)
#[export] Instance host : JsHost := {|
  number := Z;
  number_truthy := fun z => negb (z =? 0)%Z;
  number_toString := fun z => lit (DecimalString.NilZero.string_of_int (Z.to_int z));
  number_same := Z.eqb;
  toLowerCase := map (fun c => if (65 <=? c) && (c <=? 90) then c + 32 else c);
|}.

(** [JSON.parse] on the payloads of the examples; it throws elsewhere. *)
Definition parse_table : list (jsstring * json) :=
  [ (quote ++ quote, JStr []);
    (lit "null", JNull);
    (lit "{}", JObj []);
    (lit "[]", JArr []);
    (lit "{" ++ quote ++ lit "content" ++ quote ++ lit ":" ++ quote ++ lit "Hel" ++ quote
     ++ lit "}", JObj [(lit "content", JStr (lit "Hel"))]);
    (lit "{" ++ quote ++ lit "content" ++ quote ++ lit ":" ++ quote ++ lit "lo" ++ quote
     ++ lit "}", JObj [(lit "content", JStr (lit "lo"))]);
    (lit "{" ++ quote ++ lit "content" ++ quote ++ lit ":" ++ quote ++ lit "a" ++ quote
     ++ lit "," ++ quote ++ lit "answer" ++ quote ++ lit ":" ++ quote ++ lit "b" ++ quote
     ++ lit "}", JObj [(lit "content", JStr (lit "a")); (lit "answer", JStr (lit "b"))]);
    (lit "[{" ++ quote ++ lit "id" ++ quote ++ lit ":" ++ quote ++ lit "b1" ++ quote
     ++ lit "}]", JArr [JObj [(lit "id", JStr (lit "b1"))]]);
    (lit "{" ++ quote ++ lit "content" ++ quote ++ lit ":" ++ quote ++ lit "Hel" ++ quote
     ++ lit "," ++ quote ++ lit "cited_chapters" ++ quote ++ lit ":[3,1,3]}",
     JObj [(lit "content", JStr (lit "Hel"));
           (lit "cited_chapters", JArr [JNum 3%Z; JNum 1%Z; JNum 3%Z])]);
    (lit "{" ++ quote ++ lit "cited_chapters" ++ quote ++ lit ":[1," ++ quote ++ lit "2"
     ++ quote ++ lit ",2]}",
     JObj [(lit "cited_chapters", JArr [JNum 1%Z; JStr (lit "2"); JNum 2%Z])]) ].

Fixpoint assoc (key : jsstring) (table : list (jsstring * json)) : option json :=
  match table with
  | [] => None
  | (k, v) :: rest => if Js.eqb k key then Some v else assoc key rest
  end.

(** A serializer without escapes, enough for the request bodies of the
    examples. *)
Fixpoint stringify (value : json) : jsstring :=
  match value with
  | JNull => lit "null"
  | JBool true => lit "true"
  | JBool false => lit "false"
  | JNum n => number_toString n
  | JStr s => quote ++ s ++ quote
  | JArr items => lit "[" ++ join (lit ",") (map stringify items) ++ lit "]"
  | JObj props =>
      lit "{"
      ++ join (lit ",")
           (map (fun kv => quote ++ fst kv ++ quote ++ lit ":" ++ stringify (snd kv)) props)
      ++ lit "}"
  end.

#[export] Instance json_host : JsonHost := {|
  JSON_parse := fun s => assoc s parse_table;
  JSON_parse_error := fun s => quote ++ s ++ quote ++ lit " is not valid JSON";
  JSON_stringify := stringify;
|}.

Definition book (id title : String.string) : Book.t :=
  {| Book.id := lit id; Book.title := lit title; Book.author := None; Book.isbn := None;
     Book.tags := None; Book.percent_read := None; Book.assistant_id := None |}.

Definition highlight (id : String.string) (text_content : option jsstring) : Highlight.t :=
  {| Highlight.id := lit id; Highlight.book_id := None; Highlight.user_id := None;
     Highlight.cfi_range := None; Highlight.text_content := text_content;
     Highlight.page := None; Highlight.location := None; Highlight.color := None;
     Highlight.note := None; Highlight.created_at := None; Highlight.updated_at := None |}.

(** A plugin over a remote library of [books], each with [highlights]. *)
Definition plugin (perHighlight : bool) (books : list Book.t)
    (highlights : list Highlight.t) : Sync.BookrisePlugin :=
  {| Sync.settings :=
       {| Sync.bookriseApiKey := lit "key"; Sync.bookriseSyncFolder := lit "BookRise";
          Sync.createNotePerHighlight := perHighlight |};
     Sync.client :=
       Some {| Sync.listBooks := Ok (Some books);
               Sync.listHighlights := fun _ => Ok (Some highlights) |} |}.

Definition a_book : Book.t := book "b1" "B".
Definition h_one : Highlight.t := highlight "hl-00000001" None.
Definition h_two : Highlight.t := highlight "hl-00000002" None.
Definition h_text : Highlight.t := highlight "0123456789" (Some (lit "one two")).

(** A plugin whose client fails to list the highlights of book [b2]. *)
Definition flaky_plugin : Sync.BookrisePlugin :=
  {| Sync.settings := Sync.DEFAULT_SETTINGS;
     Sync.client :=
       Some {| Sync.listBooks := Ok (Some [book "b1" "One"; book "b2" "Two"; book "b3" "Three"]);
               Sync.listHighlights := fun id =>
                 if Js.eqb id (lit "b2")
                 then Throw (Error (lit "Error calling BookRise API: Status 500 - oops"))
                 else Ok (Some [h_text]) |} |}.

(** A client whose every request is answered with [status] and [text]. *)
Definition answering (status : nat) (text : jsstring) : Client.BookriseClient :=
  {| Client.token := lit "token";
     Client.requestUrlFn := fun _ => Ok {| Client.status := status; Client.text := text |};
     Client.fetch := fun _ => Throw (Error (lit "Failed to fetch")) |}.

(** The library of the examples: one book, [b1]. *)
Definition library : jsstring :=
  lit "[{" ++ quote ++ lit "id" ++ quote ++ lit ":" ++ quote ++ lit "b1" ++ quote ++ lit "}]".

(** The two content lines of the scenario of the specification. *)
Definition hello_lines : list jsstring :=
  [lit "data: {" ++ quote ++ lit "content" ++ quote ++ lit ":" ++ quote ++ lit "Hel"
   ++ quote ++ lit "}";
   lit "data: {" ++ quote ++ lit "content" ++ quote ++ lit ":" ++ quote ++ lit "lo"
   ++ quote ++ lit "}"].

(** A client that knows book [b1] and streams the scenario of the
    specification, to [fetch] in two reads and to [requestUrlFn] as one
    text. *)
Definition streaming : Client.BookriseClient :=
  {| Client.token := lit "token";
     Client.requestUrlFn := fun r =>
       if Js.eqb (Client.url r) (Client.baseUrl ++ lit "/chat")
       then Ok {| Client.status := 200;
                  Client.text := join nl (hello_lines ++ [lit "data: [DONE]"]) |}
       else Ok {| Client.status := 200; Client.text := library |};
     Client.fetch := fun _ =>
       Ok {| Client.fetch_status := 200;
             Client.fetch_text := [];
             Client.fetch_body :=
               Some ([join nl hello_lines ++ nl; lit "data: [DONE]" ++ nl],
                     Client.EndOfStream) |} |}.

Definition rnd : Sync.oracle := fun _ => lit "0.4fzyo82mvyr".
Definition rnd' : Sync.oracle := fun _ => lit "0.8k2j5x1qpta".

End Sample.

(** ** The vault operations of one book, as a list *)

(** [syncBookHighlights] touches the vault only through
    [ensureFolderExists] and [createOrUpdateFile]; once the highlights are
    fetched, which calls it makes, and in which order, is known. *)
Module Script.
Section Script.
Context `{JsHost}.
Import Sync.

Inductive op : Type :=
  | EnsureFolder (path : jsstring)
  | WriteFile (path content : jsstring).

Definition step (o : op) : M unit :=
  match o with
  | EnsureFolder path => ensureFolderExists path
  | WriteFile path content => createOrUpdateFile path content
  end.

Fixpoint exec (ops : list op) : M unit :=
  match ops with
  | [] => ret tt
  | o :: rest => bind (step o) (fun _ => exec rest)
  end.

Definition notePath (plugin : BookrisePlugin) (book : Book.t) (hl : Highlight.t) : jsstring :=
  replace_double_slash
    ((bookFolderPath plugin book ++ lit "/_Highlights") ++ lit "/" ++ noteFileName hl).

Definition noteContent (book : Book.t) (hl : Highlight.t) : jsstring :=
  generateHighlightNoteFrontmatter hl book (sanitizeFileName (Book.title book))
  ++ formatSingleHighlightContent hl.

Definition mainBookHeader (book : Book.t) : jsstring :=
  generateBookFrontmatter book ++ lit "# " ++ Book.title book ++ nl ++ nl.

(** The content of the main note, by mode. *)
Definition emptyContent (plugin : BookrisePlugin) (book : Book.t) : jsstring :=
  if createNotePerHighlight (settings plugin)
  then mainBookHeader book ++ lit "No highlights found for this book." ++ nl
  else mainBookHeader book ++ lit "# Highlights for " ++ Book.title book ++ nl ++ nl
       ++ lit "(No highlights found or synced for this book.)" ++ nl.

Definition indexContent (book : Book.t) (highlights : list Highlight.t) : jsstring :=
  (mainBookHeader book ++ highlightsIndexHeader)
  ++ join nl (map highlightLink highlights) ++ nl.

Definition aggregateContent (rnd : oracle) (book : Book.t)
    (highlights : list Highlight.t) : jsstring :=
  appendListItems rnd 0 highlights
    (mainBookHeader book ++ lit "# Highlights for " ++ Book.title book ++ nl ++ nl).

Definition script (plugin : BookrisePlugin) (rnd : oracle) (book : Book.t)
    (highlights : option (list Highlight.t)) : list op :=
  EnsureFolder (bookFolderPath plugin book)
  :: match highlights with
     | None | Some [] => [WriteFile (mainBookFilePath plugin book) (emptyContent plugin book)]
     | Some hls =>
         if createNotePerHighlight (settings plugin)
         then EnsureFolder (bookFolderPath plugin book ++ lit "/_Highlights")
              :: map (fun hl => WriteFile (notePath plugin book hl) (noteContent book hl)) hls
              ++ [WriteFile (mainBookFilePath plugin book) (indexContent book hls)]
         else [WriteFile (mainBookFilePath plugin book) (aggregateContent rnd book hls)]
     end.

(** The message of [ensureFolderExists] for a file in the way. *)
Definition not_a_folder (path : jsstring) : jsstring :=
  path ++ lit " exists but is a file, not a folder.".

(** The files a run wrote, with their bytes, in order. *)
Definition writes (evs : list event) : list (jsstring * jsstring) :=
  omap (fun e => match e with Wrote path content => Some (path, content) | Notice _ => None end)
    evs.

(** The files of the vault right inside the folder [dir]. *)
Definition files_in (dir : jsstring) (v : vault) : list jsstring :=
  omap (fun pe =>
          match snd pe with
          | TFile _ =>
              if startsWith (fst pe) (dir ++ lit "/")
                 && bool_decide (slash_free (drop (length dir + 1) (fst pe)))
              then Some (fst pe) else None
          | TFolder => None
          end)
    (map_to_list v).

(** Entries of one kind: two files, or two folders. *)
Definition same_kind (a b : entry) : Prop :=
  match a, b with
  | TFile _, TFile _ => True
  | TFolder, TFolder => True
  | _, _ => False
  end.

End Script.
End Script.

(** ** What the properties speak of *)

Module Observe.
Import Client.
Section Observe.
Context `{JsonHost}.
Local Open Scope client_scope.

(** The arguments of the calls of [onChunk], in order. *)
Definition chunks (effects : list effect) : list json :=
  omap (fun e => match e with Chunk c => Some c | _ => None end) effects.

(** The chunks as [+=] joins them. *)
Definition concat_chunks (cs : list json) : jsstring :=
  concat (map (fun c => default [] (Json.ToString c)) cs).

(** A network call to the chat endpoint. *)
Definition targets_chat (e : effect) : bool :=
  match e with
  | Requested r | Fetched r => Js.eqb (url r) (baseUrl ++ lit "/chat")
  | _ => false
  end.

(** The request [request] hands to [requestUrlFn]. *)
Definition request_param (this : BookriseClient) (endpoint : jsstring)
    (options : RequestOptions) : RequestUrlParam :=
  {| url := baseUrl ++ endpoint;
     method := Some (or_else (opt_method options) (lit "GET"));
     headers := [(lit "Authorization", lit "Bearer " ++ token this);
                 (lit "Content-Type", lit "application/json")]
                ++ opt_headers options;
     body := opt_body options |}.

(** The request of [listBooks]. *)
Definition books_request (this : BookriseClient) : RequestUrlParam :=
  request_param this (lit "/api/books") no_options.

(** The warning of [request] for an empty body. *)
Definition empty_response_warning (this : BookriseClient) (endpoint : jsstring)
    (status : nat) : effect :=
  Warned (lit "Empty response for status " ++ decimal status ++ lit " from "
          ++ baseUrl ++ endpoint).

(** What [request] does with the response it received. *)
Definition request_continue (this : BookriseClient) (endpoint : jsstring)
    (response : RequestUrlResponse) : Eff (option json) :=
  if negb (in_2xx (status response))
  then
    let* errorBody :=
      catch
        (match JSON_parse (text response) with
         | None => raise (SyntaxError (JSON_parse_error (text response)))
         | Some parsedError =>
             let* detail := lift (Json.get (lit "detail") parsedError) in
             match detail with
             | Some d => if Json.truthy d then pure d else pure (JStr (text response))
             | None => pure (JStr (text response))
             end
         end)
        (fun e => pure (JStr (text response))) in
    let* shown := interpolate errorBody in
    raise (Error (lit "Error calling BookRise API: Status " ++ decimal (status response)
                  ++ lit " - " ++ shown))
  else
    if Js.eqb (text response) [] && negb (status response =? 204)%nat
    then
      run perform (empty_response_warning this endpoint (status response))
      then pure None
    else if (status response =? 204)%nat
    then pure None
    else
      match JSON_parse (text response) with
      | Some parsed => pure (Some parsed)
      | None => raise (SyntaxError (JSON_parse_error (text response)))
      end.

(** A book of the list with another id than [bookId]. *)
Definition other_book (bookId : jsstring) (b : json) : Prop :=
  exists props, b = JObj props /\ Json.lookup (lit "id") props <> Some (JStr bookId).

(** A member of a parsed payload, [None] when the payload is no object
    or has no such member. *)
Definition field (key : jsstring) (parsed : json) : option json :=
  match parsed with
  | JObj props => Json.lookup key props
  | _ => None
  end.

(** The chunk of a parsed payload in the words of the specification: the
    [content] field, else the [answer] field, else the [delta] field,
    else the payload itself if it is a bare string; a field counts when
    it is there and truthy. *)
Definition chunk_by_priority (parsed : json) : option json :=
  match if_truthy (field (lit "content") parsed) with
  | Some c => Some c
  | None =>
      match if_truthy (field (lit "answer") parsed) with
      | Some a => Some a
      | None =>
          match if_truthy (field (lit "delta") parsed) with
          | Some d => Some d
          | None =>
              match parsed with
              | JStr _ => Some parsed
              | _ => None
              end
          end
      end
  end.

End Observe.

Section ObserveSync.
Context `{JsHost}.
Import Sync.

Definition returned {A} (r : outcome A * vault * list event) : bool :=
  match fst (fst r) with
  | Ok _ => true
  | Throw _ => false
  end.

(** For each book in turn, whether its own sync returns on the vault the
    books before it left. *)
Fixpoint book_outcomes (plugin : BookrisePlugin) (rnds : nat -> oracle) (k : nat)
    (books : list Book.t) (v : vault) : list bool :=
  match books with
  | [] => []
  | book :: rest =>
      let r := syncBookHighlights plugin (rnds k) book v in
      returned r :: book_outcomes plugin rnds (S k) rest (snd (fst r))
  end.

(** The events of the books in turn, each failed book followed by its
    notice. *)
Fixpoint book_events (plugin : BookrisePlugin) (rnds : nat -> oracle) (k : nat)
    (books : list Book.t) (v : vault) : list event :=
  match books with
  | [] => []
  | book :: rest =>
      let r := syncBookHighlights plugin (rnds k) book v in
      snd r
      ++ (if returned r then []
          else [Notice (lit "Error syncing " ++ Book.title book ++ lit ". Check console.")])
      ++ book_events plugin rnds (S k) rest (snd (fst r))
  end.

Definition count (b : bool) (l : list bool) : nat :=
  length (filter (fun x => x = b) l).

End ObserveSync.
End Observe.

(** ** What a list of vault operations writes and where *)

Module Trace.
Import Script.

(** The files the operations write when all of them return, in order. *)
Definition written (ops : list op) : list (jsstring * jsstring) :=
  omap (fun o => match o with
                 | WriteFile path content => Some (path, content)
                 | EnsureFolder _ => None
                 end) ops.

(** The paths the operations are about. *)
Definition paths (ops : list op) : list jsstring :=
  map (fun o => match o with EnsureFolder path | WriteFile path _ => path end) ops.

(** The content of the last write to [path] in a log of writes. *)
Fixpoint last_write (path : jsstring) (log : list (jsstring * jsstring)) : option jsstring :=
  match log with
  | [] => None
  | (p, content) :: rest =>
      match last_write path rest with
      | Some later => Some later
      | None => if Js.eqb p path then Some content else None
      end
  end.

End Trace.

(** ** The tags of a book note *)

Module Tags.
Section Tags.
Context `{JsHost}.
Import Sync.

(** [pluginAddedTags] of [generateBookFrontmatter] when it is read. *)
Definition pluginAddedTags (book : Book.t) : list jsstring :=
  if truthy (Book.author book)
  then [lit "BookRise"; author_tag (or_else (Book.author book) [])]
  else [lit "BookRise"].

(** [allTags] of [generateBookFrontmatter]. *)
Definition allTags (book : Book.t) : list jsstring :=
  dedupe Js.eqb (default [] (Book.tags book) ++ pluginAddedTags book).

(** The tags as the tags line shows them between its quotes:
    [t.replace(/:/g, '-')] of each of [allTags], in order. *)
Definition printedTags (book : Book.t) : list jsstring :=
  map colons_to_dashes (allTags book).

(** No colon. *)
Definition colon_free (s : jsstring) : Prop := Forall (fun c => c <> 58) s.

End Tags.
End Tags.

(** ** Lists without repetition under a comparison of the host *)

Module Chapters.

(** No item of the list is the same as an item before it: [same x y]
    compares an item [x] with a later item [y]. *)
Fixpoint apart {A} (same : A -> A -> bool) (l : list A) : Prop :=
  match l with
  | [] => True
  | x :: l' => Forall (fun y => same x y = false) l' /\ apart same l'
  end.

End Chapters.

(** ** [chat] of the first revision of [BookriseClient.ts] *)

(** The first revision has no streaming and does not look the book up:
    it posts the prompt to the chat address and answers an empty body
    with an answer of its own. *)
Module LegacyClient.
Import Client.
Section Chat.
Context `{JsonHost}.
Local Open Scope client_scope.

Definition chatUrl : jsstring := lit "https://app.bookrise.io/chat".

(** [body]: [context_ids] is set only for an array that is not empty. *)
Definition chat_body (bookId prompt : jsstring) (contextIds : option (list jsstring)) : json :=
  JObj ([(lit "book_id", JStr bookId); (lit "prompt", JStr prompt)]
        ++ match contextIds with
           | Some (c :: cs) => [(lit "context_ids", JArr (map JStr (c :: cs)))]
           | _ => []
           end).

Definition chat_request (this : BookriseClient) (body : json) : RequestUrlParam :=
  {| url := chatUrl;
     method := Some (lit "POST");
     headers := [(lit "Authorization", lit "Bearer " ++ token this);
                 (lit "Content-Type", lit "application/json")];
     body := Some (JSON_stringify body) |}.

Definition chat (this : BookriseClient) (bookId prompt : jsstring)
    (contextIds : option (list jsstring)) : Eff json :=
  if Js.eqb bookId [] || Js.eqb prompt []
  then raise (Error (lit "bookId and prompt are required for chat."))
  else
    let body := chat_body bookId prompt contextIds in
    run perform (Requested (chat_request this body)) then
    let* response := lift (requestUrlFn this (chat_request this body)) in
    if negb (in_2xx (status response))
    then
      let* errorBody :=
        catch
          (match JSON_parse (text response) with
           | None => raise (SyntaxError (JSON_parse_error (text response)))
           | Some parsedError =>
               let* detail := lift (Json.get (lit "detail") parsedError) in
               match detail with
               | Some d => if Json.truthy d then pure d else pure (JStr (text response))
               | None => pure (JStr (text response))
               end
           end)
          (fun e => pure (JStr (text response))) in
      let* shown := interpolate errorBody in
      raise (Error (lit "Error calling BookRise chat: Status " ++ decimal (status response)
                    ++ lit " - " ++ shown))
    else
      let responseText := text response in
      if Js.eqb responseText [] && negb (status response =? 204)%nat
      then
        run perform (Warned (lit "Empty response for chat status "
                             ++ decimal (status response) ++ lit " from " ++ chatUrl))
        then pure (JObj [(lit "answer", JStr (lit "Received empty response."))])
      else if (status response =? 204)%nat
      then pure (JObj [(lit "answer", JStr (lit "Chat session updated (No Content)."))])
      else
        match JSON_parse responseText with
        | Some parsed => pure parsed
        | None => raise (SyntaxError (JSON_parse_error responseText))
        end.

End Chat.
End LegacyClient.

(** ** The chat view of [main.ts] *)

(** The view keeps the list of books, the selected book and its elements
    on the page.  The elements of the message container are kept in the
    order of the page, each with the class and the text it was given; an
    element is told from the others by the number it got when it was
    made.  A handler is taken to run from start to end: what the user
    does while a call is awaited is not modelled. *)
Module ChatView.

(** An option of the book selector, with the text and the value it was
    made with. *)
Record OptionEl : Type := {
  option_text : jsstring;
  option_value : jsstring;
}.

(** [bookSelectEl.value], which the page computes from the options of
    the selector. *)
Class SelectHost := {
  select_value : list OptionEl -> jsstring;
}.

Section View.
Context `{JsonHost} `{SelectHost}.

(** The client as the view calls it: what [listBooks] and [chat] resolve
    to; [None] is the [null] of an empty body. *)
Record BookriseClient : Type := {
  listBooks : outcome (option (list Book.t));
  chat : jsstring -> jsstring -> outcome json;
}.

Record Element : Type := {
  el : nat;
  cls : jsstring;
  text : jsstring;
}.

Record View : Type := {
  books : option (list Book.t);
  selectedBookId : option jsstring;
  bookSelectEl : list OptionEl;
  bookSelectDisabled : bool;
  chatMessagesContainerEl : list Element;
  next_el : nat;
  messageInput_value : jsstring;
  messageInput_placeholder : jsstring;
  messageInput_disabled : bool;
  messageInput_focused : bool;
  sendButton_disabled : bool;
}.

(** What a handler shows besides the page: the notices, and the calls of
    [chat] with their arguments. *)
Inductive action : Type :=
  | Noticed (text : jsstring)
  | Asked (bookId message : jsstring).

(** The view with other elements in the message container. *)
Definition set_page (elements : list Element) (next : nat) (view : View) : View :=
  {| books := books view;
     selectedBookId := selectedBookId view;
     bookSelectEl := bookSelectEl view;
     bookSelectDisabled := bookSelectDisabled view;
     chatMessagesContainerEl := elements;
     next_el := next;
     messageInput_value := messageInput_value view;
     messageInput_placeholder := messageInput_placeholder view;
     messageInput_disabled := messageInput_disabled view;
     messageInput_focused := messageInput_focused view;
     sendButton_disabled := sendButton_disabled view |}.

(** The view with another state of the input and of the button. *)
Definition set_input (value : jsstring) (disabled focused button_disabled : bool)
    (view : View) : View :=
  {| books := books view;
     selectedBookId := selectedBookId view;
     bookSelectEl := bookSelectEl view;
     bookSelectDisabled := bookSelectDisabled view;
     chatMessagesContainerEl := chatMessagesContainerEl view;
     next_el := next_el view;
     messageInput_value := value;
     messageInput_placeholder := messageInput_placeholder view;
     messageInput_disabled := disabled;
     messageInput_focused := focused;
     sendButton_disabled := button_disabled |}.

(** [chatMessagesContainerEl.createDiv({ cls })]: a new element at the
    end, without text. *)
Definition createDiv (class : jsstring) (view : View) : View * nat :=
  (set_page
     (chatMessagesContainerEl view ++ [{| el := next_el view; cls := class; text := [] |}])
     (S (next_el view)) view,
   next_el view).

(** [element.setText(text)]. *)
Definition setText (element : nat) (new_text : jsstring) (view : View) : View :=
  set_page
    (map (fun m => if Nat.eqb (el m) element
                   then {| el := el m; cls := cls m; text := new_text |} else m)
       (chatMessagesContainerEl view))
    (next_el view) view.

(** [element.remove()]: nothing happens when it is no longer there. *)
Definition remove (element : nat) (view : View) : View :=
  set_page
    (filter (fun m => Nat.eqb (el m) element = false) (chatMessagesContainerEl view))
    (next_el view) view.

Definition displayUserMessage (message : jsstring) (view : View) : View :=
  let '(view, userMessageEl) := createDiv (lit "bookrise-user-message") view in
  setText userMessageEl (lit "You: " ++ message) view.

(** [displayAIMessage(message)]: the element is made before the text is
    put together, which throws for a value without a text. *)
Definition displayAIMessage (message : json) (view : View) : outcome unit * View :=
  let '(view, aiMessageEl) := createDiv (lit "bookrise-ai-message") view in
  match Json.ToString message with
  | Some shown => (Ok tt, setText aiMessageEl (lit "BookRise AI: " ++ shown) view)
  | None => (Throw (TypeError (lit "Cannot convert object to primitive value")), view)
  end.

(** The input and the button while the call is awaited, and in the
    [finally] block. *)
Definition waiting (view : View) : View :=
  set_input [] true (messageInput_focused view) true view.

Definition finally (view : View) : View :=
  set_input (messageInput_value view) false true false view.

(** The [catch] block of [handleSendMessage]. *)
Definition on_chat_error (thinkingMessageEl : nat) (view : View) : View * list action :=
  let view := remove thinkingMessageEl view in
  let view :=
    snd (displayAIMessage
           (JStr (lit "Sorry, I couldn't get a response. Please try again. Check console for details."))
           view) in
  (view, [Noticed (lit "Error sending chat message. See console.")]).

(** The [try] statement of [handleSendMessage], with its [catch] and
    [finally] blocks. *)
Definition try_chat (c : BookriseClient) (bookId message : jsstring)
    (thinkingMessageEl : nat) (view : View) : View * list action :=
  let '(view, actions) :=
    match chat c bookId message with
    | Ok response =>
        let view := remove thinkingMessageEl view in
        match (if Json.truthy response
               then Json.get (lit "answer") response else Ok None) with
        | Ok answer =>
            match Client.if_truthy answer with
            | Some answer =>
                match displayAIMessage answer view with
                | (Ok _, view) => (view, [])
                | (Throw _, view) => on_chat_error thinkingMessageEl view
                end
            | None =>
                (snd (displayAIMessage
                        (JStr (lit "Received an empty or unexpected response from BookRise AI."))
                        view),
                 [])
            end
        | Throw _ => on_chat_error thinkingMessageEl view
        end
    | Throw _ => on_chat_error thinkingMessageEl view
    end in
  (finally view, Asked bookId message :: actions).

Definition handleSendMessage (client : option BookriseClient) (view : View)
    : View * list action :=
  let message := trim (messageInput_value view) in
  if Js.eqb message [] then (view, [])
  else if negb (truthy (selectedBookId view))
  then (view, [Noticed (lit "Please select a book before sending a message.")])
  else
    match client with
    | None => (view, [Noticed (lit "BookRise client not ready. Check API key.")])
    | Some c =>
        let view := displayUserMessage message view in
        let view := waiting view in
        let '(view, thinkingMessageEl) :=
          createDiv (lit "bookrise-ai-message bookrise-thinking") view in
        let view := setText thinkingMessageEl (lit "BookRise AI: Thinking...") view in
        try_chat c (or_else (selectedBookId view) []) message thinkingMessageEl view
    end.

Definition set_select (options : list OptionEl) (disabled : bool)
    (selected : option jsstring) (placeholder : jsstring) (view : View) : View :=
  {| books := books view;
     selectedBookId := selected;
     bookSelectEl := options;
     bookSelectDisabled := disabled;
     chatMessagesContainerEl := chatMessagesContainerEl view;
     next_el := next_el view;
     messageInput_value := messageInput_value view;
     messageInput_placeholder := placeholder;
     messageInput_disabled := messageInput_disabled view;
     messageInput_focused := messageInput_focused view;
     sendButton_disabled := sendButton_disabled view |}.

Definition set_books (new_books : option (list Book.t)) (view : View) : View :=
  {| books := new_books;
     selectedBookId := selectedBookId view;
     bookSelectEl := bookSelectEl view;
     bookSelectDisabled := bookSelectDisabled view;
     chatMessagesContainerEl := chatMessagesContainerEl view;
     next_el := next_el view;
     messageInput_value := messageInput_value view;
     messageInput_placeholder := messageInput_placeholder view;
     messageInput_disabled := messageInput_disabled view;
     messageInput_focused := messageInput_focused view;
     sendButton_disabled := sendButton_disabled view |}.

(** [populateBookSelect]: the options are emptied first; reading the
    length of a null list throws. *)
Definition populateBookSelect (view : View) : outcome unit * View :=
  let view :=
    set_select [] (bookSelectDisabled view) (selectedBookId view)
      (messageInput_placeholder view) view in
  match books view with
  | None =>
      (Throw (TypeError (lit "Cannot read properties of null (reading 'length')")), view)
  | Some [] =>
      (Ok tt,
       set_select [{| option_text := lit "No books available"; option_value := [] |}]
         true None (messageInput_placeholder view) view)
  | Some (book :: rest) =>
      let options :=
        {| option_text := lit "-- Select a Book --"; option_value := [] |}
        :: map (fun b => {| option_text := Book.title b; option_value := Book.id b |})
             (book :: rest) in
      let value := select_value options in
      let selected := match value with [] => None | _ :: _ => Some value end in
      let placeholder :=
        match selected with
        | Some id =>
            lit "Ask about "
            ++ match find (fun b => Js.eqb (Book.id b) id) (book :: rest) with
               | Some b => Book.title b
               | None => lit "undefined"
               end
            ++ lit "..."
        | None => lit "Select a book to start chatting..."
        end in
      (Ok tt, set_select options false selected placeholder view)
  end.

Definition loadBooks (client : option BookriseClient) (view : View)
    : outcome unit * View * list action :=
  match client with
  | None =>
      let '(r, view) := populateBookSelect view in
      (r, view, [Noticed (lit "BookRise client not available. API key might be missing.")])
  | Some c =>
      let attempt :=
        match listBooks c with
        | Ok new_books => populateBookSelect (set_books new_books view)
        | Throw e => (Throw e, view)
        end in
      match attempt with
      | (Ok _, view) => (Ok tt, view, [])
      | (Throw _, view) =>
          let '(r, view) := populateBookSelect (set_books (Some []) view) in
          (r, view, [Noticed (lit "Could not load books for chat. See console for details.")])
      end
  end.


End View.
End ChatView.

(** ** More concrete clients, for the examples *)

Module Fixture.
#[local] Existing Instances Sample.host Sample.json_host.

(** A client that knows book [b1] and answers a chat request with
    [status] and [text]; [fetch] fails. *)
Definition chatting (status : nat) (text : jsstring) : Client.BookriseClient :=
  {| Client.token := lit "token";
     Client.requestUrlFn := fun r =>
       if Js.eqb (Client.url r) (Client.baseUrl ++ lit "/chat")
       then Ok {| Client.status := status; Client.text := text |}
       else Ok {| Client.status := 200; Client.text := Sample.library |};
     Client.fetch := fun _ => Throw (Error (lit "Failed to fetch")) |}.

(** A client that knows book [b1] and whose stream breaks after its
    first read. *)
Definition breaking : Client.BookriseClient :=
  {| Client.token := lit "token";
     Client.requestUrlFn := fun _ =>
       Ok {| Client.status := 200; Client.text := Sample.library |};
     Client.fetch := fun _ =>
       Ok {| Client.fetch_status := 200;
             Client.fetch_text := [];
             Client.fetch_body :=
               Some ([join nl Sample.hello_lines ++ nl],
                     Client.ReadFails (Error (lit "network error"))) |} |}.

(** Two lines that cite chapters: 3, 1 and 3 again with a content, then
    1 again, the string 2 and the number 2. *)
Definition citing_lines : list jsstring :=
  [lit "data: {" ++ quote ++ lit "content" ++ quote ++ lit ":" ++ quote ++ lit "Hel"
   ++ quote ++ lit "," ++ quote ++ lit "cited_chapters" ++ quote ++ lit ":[3,1,3]}";
   lit "data: {" ++ quote ++ lit "cited_chapters" ++ quote ++ lit ":[1," ++ quote
   ++ lit "2" ++ quote ++ lit ",2]}"].

(** A client that knows book [b1] and streams these two lines, to
    [fetch] in one read and to [requestUrlFn] as one text. *)
Definition citing : Client.BookriseClient :=
  {| Client.token := lit "token";
     Client.requestUrlFn := fun r =>
       if Js.eqb (Client.url r) (Client.baseUrl ++ lit "/chat")
       then Ok {| Client.status := 200; Client.text := join nl citing_lines |}
       else Ok {| Client.status := 200; Client.text := Sample.library |};
     Client.fetch := fun _ =>
       Ok {| Client.fetch_status := 200;
             Client.fetch_text := [];
             Client.fetch_body := Some ([join nl citing_lines ++ nl], Client.EndOfStream) |} |}.

End Fixture.

(** ** A concrete chat view, for the examples *)

Module Page.
#[local] Existing Instances Sample.host Sample.json_host.

(** The selector shows its first option until the user picks another. *)
#[export] Instance first_option : ChatView.SelectHost := {|
  ChatView.select_value := fun options =>
    match options with
    | first :: _ => ChatView.option_value first
    | [] => []
    end;
|}.

(** A client whose [chat] answers Hello and whose list has book [b1]. *)
Definition replying : ChatView.BookriseClient :=
  {| ChatView.listBooks := Ok (Some [Sample.a_book]);
     ChatView.chat := fun _ _ => Ok (JObj [(lit "answer", JStr (lit "Hello"))]) |}.

(** A client that gets an empty body for the list of books. *)
Definition silent : ChatView.BookriseClient :=
  {| ChatView.listBooks := Ok None;
     ChatView.chat := fun _ _ => Throw (Error (lit "Failed to get chat response: oops")) |}.

(** An empty page with book [selected] selected and [typed] in the
    input. *)
Definition page (selected : option jsstring) (typed : jsstring) : ChatView.View :=
  {| ChatView.books := Some [Sample.a_book];
     ChatView.selectedBookId := selected;
     ChatView.bookSelectEl := [];
     ChatView.bookSelectDisabled := false;
     ChatView.chatMessagesContainerEl := [];
     ChatView.next_el := 0;
     ChatView.messageInput_value := typed;
     ChatView.messageInput_placeholder := lit "Select a book and ask...";
     ChatView.messageInput_disabled := false;
     ChatView.messageInput_focused := false;
     ChatView.sendButton_disabled := false |}.

End Page.

(** * Properties *)

Import Js.

(** ** String functions on examples *)

Example split_words : split 32 (lit "a b  c") = [lit "a"; lit "b"; lit ""; lit "c"].
Proof. reflexivity. Qed.

Example split_empty : split 32 (lit "") = [lit ""].
Proof. reflexivity. Qed.

Example trim_both_ends : trim (lit "  a b ") = lit "a b".
Proof. reflexivity. Qed.

Example double_slash_one_pass : replace_double_slash (lit "a///b//c/") = lit "a//b/c/".
Proof. reflexivity. Qed.

Example split_lines_cr : split_lines [100; 13; 10; 101; 10; 13] = [[100]; [101]; [13]].
Proof. reflexivity. Qed.

Example strip_md_once : strip_md (lit "x.md.md") = lit "x.md".
Proof. reflexivity. Qed.

Example sanitize_title :
  Sync.sanitizeFileName (lit "Foo: Bar/Baz?") = lit "Foo- Bar-Baz-".
Proof. reflexivity. Qed.

(** ** [sanitizeFileName] *)

Section Sanitize.

Lemma replace_ws_runs_from_idem (r : N) (s : jsstring) (in_run : bool) :
  is_ws r = true ->
  replace_ws_runs_from in_run r (replace_ws_runs_from in_run r s)
  = replace_ws_runs_from in_run r s.
Proof.
  intros Hr. revert in_run.
  induction s as [|c s IH]; intros in_run; simpl; [reflexivity|].
  destruct (is_ws c) eqn:Hc.
  - destruct in_run; simpl.
    + apply IH.
    + rewrite Hr. f_equal. apply IH.
  - simpl. rewrite Hc. f_equal. apply IH.
Qed.

Lemma replace_ws_runs_from_Forall (P : N -> Prop) (r : N) (s : jsstring) (in_run : bool) :
  P r -> Forall P s -> Forall P (replace_ws_runs_from in_run r s).
Proof.
  intros Hr Hs. revert in_run.
  induction Hs as [|c s Hc Hs IH]; intros in_run; simpl; [constructor|].
  destruct (is_ws c); [destruct in_run|]; auto.
Qed.

Lemma replace_class_Forall (cls : N -> bool) (r : N) (s : jsstring) :
  cls r = false -> Forall (fun c => cls c = false) (replace_class cls r s).
Proof.
  intros Hr. unfold replace_class.
  induction s as [|c s IH]; simpl; constructor; auto.
  destruct (cls c) eqn:Hc; auto.
Qed.

Lemma replace_class_id (cls : N -> bool) (r : N) (s : jsstring) :
  Forall (fun c => cls c = false) s -> replace_class cls r s = s.
Proof.
  unfold replace_class.
  induction 1 as [|c s Hc Hs IH]; simpl; [reflexivity|].
  rewrite Hc, IH. reflexivity.
Qed.

(** A sanitized name holds none of the forbidden characters. *)
Lemma sanitizeFileName_clean (name : jsstring) :
  Forall (fun c => Sync.forbidden_in_file_name c = false) (Sync.sanitizeFileName name).
Proof.
  unfold Sync.sanitizeFileName, replace_ws_runs.
  apply replace_ws_runs_from_Forall; [reflexivity|].
  apply replace_class_Forall. reflexivity.
Qed.

(** C10: [sanitizeFileName] is idempotent: sanitizing a sanitized name
    changes nothing, for every string. *)
Theorem sanitizeFileName_idempotent (s : jsstring) :
  Sync.sanitizeFileName (Sync.sanitizeFileName s) = Sync.sanitizeFileName s.
Proof.
  unfold Sync.sanitizeFileName at 1.
  rewrite (replace_class_id _ _ _ (sanitizeFileName_clean s)).
  unfold Sync.sanitizeFileName, replace_ws_runs.
  apply replace_ws_runs_from_idem. reflexivity.
Qed.

End Sanitize.

(** ** The monad of the synchronizer *)

Section SyncMonad.

Lemma bind_assoc {A B C} (m : M A) (f : A -> M B) (g : B -> M C) (v : vault) :
  bind (bind m f) g v = bind m (fun a => bind (f a) g) v.
Proof.
  unfold bind. destruct (m v) as [[[a|e] v1] ev1]; [|reflexivity].
  destruct (f a v1) as [[[b|e] v2] ev2]; [|reflexivity].
  destruct (g b v2) as [[r v3] ev3]. rewrite app_assoc. reflexivity.
Qed.

Lemma bind_ret_l {A B} (a : A) (f : A -> M B) (v : vault) :
  bind (ret a) f v = f a v.
Proof. unfold bind, ret. destruct (f a v) as [[r v1] ev1]. reflexivity. Qed.

Lemma bind_ext {A B} (m : M A) (f g : A -> M B) (v : vault) :
  (forall a w, f a w = g a w) -> bind m f v = bind m g v.
Proof.
  intros Hfg. unfold bind. destruct (m v) as [[[a|e] v1] ev1]; [|reflexivity].
  rewrite Hfg. reflexivity.
Qed.

End SyncMonad.

(** ** The two vault operations *)

Section VaultOperations.
Import Sync Script.

Lemma ensureFolderExists_unfold (path : jsstring) (v : vault) :
  ensureFolderExists path v =
  match v !! path with
  | None => (Ok tt, <[path := TFolder]> v, [])
  | Some TFolder => (Ok tt, v, [])
  | Some (TFile _) =>
      if includes (not_a_folder path) (lit "Folder already exists")
      then (Ok tt, v, [Notice (lit "Error: " ++ not_a_folder path)])
      else (Throw (Error (not_a_folder path)), v, [Notice (lit "Error: " ++ not_a_folder path)])
  end.
Proof.
  unfold ensureFolderExists, try_catch, bind, Vault.getAbstractFileByPath,
    Vault.createFolder, not_a_folder.
  destruct (v !! path) as [[c|]|] eqn:Hp; simpl; rewrite ?Hp; try reflexivity.
  unfold emit, throw, ret. simpl.
  destruct (includes _ _); reflexivity.
Qed.

Lemma createOrUpdateFile_unfold (path content : jsstring) (v : vault) :
  createOrUpdateFile path content v =
  match v !! path with
  | Some TFolder => (Throw (Error (lit "File already exists.")), v, [])
  | _ => (Ok tt, <[path := TFile content]> v, [Wrote path content])
  end.
Proof.
  unfold createOrUpdateFile, bind, Vault.getAbstractFileByPath, Vault.modify, Vault.create.
  destruct (v !! path) as [[c|]|] eqn:Hp; simpl; rewrite ?Hp; reflexivity.
Qed.

End VaultOperations.

(** ** Running the operations of a book a second time *)

Section Replay.
Import Sync Script.

Lemma same_kind_refl (e : entry) : same_kind e e.
Proof. destruct e; exact I. Qed.

Lemma same_kind_trans (a b c : entry) : same_kind a b -> same_kind b c -> same_kind a c.
Proof. destruct a, b, c; simpl; tauto. Qed.

(** An operation that returns leaves every entry it found with its kind. *)
Lemma step_persist (o : op) (v v' : vault) (evs : list event) (q : jsstring) (e : entry) :
  step o v = (Ok tt, v', evs) -> v !! q = Some e ->
  exists e', v' !! q = Some e' /\ same_kind e e'.
Proof.
  intros Hstep Hq. destruct o as [p|p c]; simpl in Hstep.
  - rewrite ensureFolderExists_unfold in Hstep.
    destruct (v !! p) as [[x|]|] eqn:Hp.
    + destruct (includes _ _); inversion Hstep; subst.
      exists e. split; [assumption|apply same_kind_refl].
    + inversion Hstep; subst. exists e. split; [assumption|apply same_kind_refl].
    + inversion Hstep; subst.
      destruct (decide (p = q)) as [->|Hne]; [congruence|].
      exists e. rewrite lookup_insert_ne by assumption.
      split; [assumption|apply same_kind_refl].
  - rewrite createOrUpdateFile_unfold in Hstep.
    destruct (decide (p = q)) as [->|Hne].
    + rewrite Hq in Hstep. destruct e as [x|]; inversion Hstep; subst.
      exists (TFile c). rewrite lookup_insert_eq. split; [reflexivity|exact I].
    + assert (v' = <[p := TFile c]> v) as ->.
      { destruct (v !! p) as [[x|]|]; inversion Hstep; reflexivity. }
      exists e. rewrite lookup_insert_ne by assumption.
      split; [assumption|apply same_kind_refl].
Qed.

Lemma exec_cons_inv (o : op) (ops : list op) (v v1 : vault) (evs : list event) :
  exec (o :: ops) v = (Ok tt, v1, evs) ->
  exists v' ev1 ev2,
    step o v = (Ok tt, v', ev1) /\ exec ops v' = (Ok tt, v1, ev2) /\ evs = ev1 ++ ev2.
Proof.
  simpl. unfold bind. intros Hex.
  destruct (step o v) as [[[[]|e] v'] ev1] eqn:Hs; [|discriminate].
  destruct (exec ops v') as [[r v2] ev2] eqn:He. inversion Hex; subst.
  exists v', ev1, ev2. auto.
Qed.

Lemma exec_cons_intro (o : op) (ops : list op) (v v' v1 : vault) (ev1 ev2 : list event) :
  step o v = (Ok tt, v', ev1) -> exec ops v' = (Ok tt, v1, ev2) ->
  exec (o :: ops) v = (Ok tt, v1, ev1 ++ ev2).
Proof. intros H1 H2. simpl. unfold bind. rewrite H1, H2. reflexivity. Qed.

Lemma exec_persist (ops : list op) (v v1 : vault) (evs : list event) (q : jsstring) (e : entry) :
  exec ops v = (Ok tt, v1, evs) -> v !! q = Some e ->
  exists e', v1 !! q = Some e' /\ same_kind e e'.
Proof.
  revert v evs e. induction ops as [|o ops IH]; intros v evs e Hex Hq.
  - inversion Hex; subst. exists e. split; [assumption|apply same_kind_refl].
  - apply exec_cons_inv in Hex as (v' & ev1 & ev2 & Hstep & Hrest & ->).
    destruct (step_persist _ _ _ _ _ _ Hstep Hq) as (e' & Hq' & Hk).
    destruct (IH _ _ _ Hrest Hq') as (e'' & Hq'' & Hk').
    exists e''. split; [assumption|]. eapply same_kind_trans; eassumption.
Qed.

(** The second run against the first.  The first run is at [v] and will
    end in [v1]; the second is at [w], which holds what the first run
    has at the files [W] written so far, and what [v1] has elsewhere.
    Then the second run returns too, ends in [v1] and shows the same
    events. *)
Lemma exec_replay (ops : list op) :
  forall (v v1 : vault) (evs : list event),
    exec ops v = (Ok tt, v1, evs) ->
    forall (w : vault) (W : gset jsstring),
      (forall q, q ∈ W -> exists c, v !! q = Some (TFile c)) ->
      (forall q, q ∈ W -> w !! q = v !! q) ->
      (forall q, q ∉ W -> w !! q = v1 !! q) ->
      exec ops w = (Ok tt, v1, evs).
Proof.
  induction ops as [|o ops IH]; intros v v1 evs Hex w W HW Hin Hout.
  - inversion Hex; subst. simpl. unfold ret. f_equal. f_equal.
    apply map_eq. intros q. destruct (decide (q ∈ W)); auto.
  - apply exec_cons_inv in Hex as (v' & ev1 & ev2 & Hstep & Hrest & ->).
    destruct o as [p|p c]; simpl in Hstep.
    + (* a folder: the second run finds it as the first run left it *)
      rewrite ensureFolderExists_unfold in Hstep.
      assert (step (EnsureFolder p) w = (Ok tt, w, ev1)
              /\ (forall q, q ∈ W -> v' !! q = v !! q)) as [Hw Hv'].
      { simpl. rewrite ensureFolderExists_unfold.
        destruct (decide (p ∈ W)) as [HpW|HpW].
        - rewrite (Hin _ HpW). destruct (HW _ HpW) as [c Hc]. rewrite Hc in Hstep |- *.
          destruct (includes _ _); inversion Hstep; subst. auto.
        - rewrite (Hout _ HpW).
          destruct (v !! p) as [[x|]|] eqn:Hp.
          + destruct (includes _ _) eqn:Hinc; inversion Hstep; subst.
            destruct (exec_persist _ _ _ _ _ _ Hrest Hp) as ([y|] & -> & Hk);
              [|destruct Hk].
            auto.
          + inversion Hstep; subst.
            destruct (exec_persist _ _ _ _ _ _ Hrest Hp) as ([y|] & -> & Hk);
              [destruct Hk|]. auto.
          + inversion Hstep; subst.
            assert (<[p := TFolder]> v !! p = Some TFolder) as Hp'
              by apply lookup_insert_eq.
            destruct (exec_persist _ _ _ _ _ _ Hrest Hp') as ([y|] & -> & Hk);
              [destruct Hk|].
            split; [reflexivity|].
            intros q Hq. apply lookup_insert_ne. intros ->. contradiction. }
      apply exec_cons_intro with (v' := w); [assumption|].
      apply (IH v' v1 ev2 Hrest w W).
      * intros q Hq. rewrite (Hv' _ Hq). auto.
      * intros q Hq. rewrite (Hv' _ Hq). auto.
      * assumption.
    + (* a file: both runs write the same bytes *)
      rewrite createOrUpdateFile_unfold in Hstep.
      assert (v' = <[p := TFile c]> v /\ ev1 = [Wrote p c]) as [-> ->].
      { destruct (v !! p) as [[x|]|]; inversion Hstep; auto. }
      assert (exists x, v1 !! p = Some (TFile x)) as [x Hx].
      { assert (<[p := TFile c]> v !! p = Some (TFile c)) as Hp' by apply lookup_insert_eq.
        destruct (exec_persist _ _ _ _ _ _ Hrest Hp') as ([y|] & Hy & Hk); [|destruct Hk].
        eauto. }
      assert (step (WriteFile p c) w = (Ok tt, <[p := TFile c]> w, [Wrote p c])) as Hw.
      { simpl. rewrite createOrUpdateFile_unfold.
        destruct (decide (p ∈ W)) as [HpW|HpW].
        - rewrite (Hin _ HpW). destruct (HW _ HpW) as [y ->]. reflexivity.
        - rewrite (Hout _ HpW), Hx. reflexivity. }
      apply exec_cons_intro with (v' := <[p := TFile c]> w); [assumption|].
      apply (IH _ v1 ev2 Hrest _ (W ∪ {[p]})).
      * intros q Hq. destruct (decide (p = q)) as [Heq|Hne].
        -- subst q. exists c. apply lookup_insert_eq.
        -- rewrite lookup_insert_ne by assumption. apply HW.
           apply elem_of_union in Hq as [Hq|Hq]; [exact Hq|].
           apply elem_of_singleton in Hq. congruence.
      * intros q Hq. destruct (decide (p = q)) as [Heq|Hne].
        -- subst q. rewrite !lookup_insert_eq. reflexivity.
        -- rewrite !lookup_insert_ne by assumption. apply Hin.
           apply elem_of_union in Hq as [Hq|Hq]; [exact Hq|].
           apply elem_of_singleton in Hq. congruence.
      * intros q Hq. assert (p ≠ q) by set_solver. assert (q ∉ W) by set_solver.
        rewrite lookup_insert_ne by assumption. auto.
Qed.

(** Operations that returned once return again from where they ended,
    change nothing there and show the same events. *)
Lemma exec_twice (ops : list op) (v v1 : vault) (evs : list event) :
  exec ops v = (Ok tt, v1, evs) -> exec ops v1 = (Ok tt, v1, evs).
Proof.
  intros Hex. apply (exec_replay ops v v1 evs Hex v1 ∅); set_solver.
Qed.

(** An operation that throws leaves the vault as it found it. *)
Lemma step_throw_keeps (o : op) (v v1 : vault) (e : exn) (evs : list event) :
  step o v = (Throw e, v1, evs) -> v1 = v.
Proof.
  destruct o as [p|p c]; simpl.
  - rewrite ensureFolderExists_unfold.
    destruct (v !! p) as [[x|]|]; [destruct (includes _ _)| |];
      intros Hs; inversion Hs; reflexivity.
  - rewrite createOrUpdateFile_unfold.
    destruct (v !! p) as [[x|]|]; intros Hs; inversion Hs; reflexivity.
Qed.

(** Operations that throw ran up to the one that threw. *)
Lemma exec_throw_inv (ops : list op) (v v1 : vault) (e : exn) (evs : list event) :
  exec ops v = (Throw e, v1, evs) ->
  exists pre o post ev1 ev2,
    ops = pre ++ o :: post
    /\ exec pre v = (Ok tt, v1, ev1)
    /\ step o v1 = (Throw e, v1, ev2)
    /\ evs = ev1 ++ ev2.
Proof.
  revert v evs. induction ops as [|o ops IH]; intros v evs Hex; [discriminate|].
  simpl in Hex. unfold bind in Hex.
  destruct (step o v) as [[[[]|e'] v'] ev'] eqn:Hstep.
  - destruct (exec ops v') as [[r v2] ev2] eqn:Hrest. inversion Hex; subst.
    destruct (IH _ _ Hrest) as (pre & o' & post & ea & eb & -> & Hpre & Ho & ->).
    exists (o :: pre), o', post, (ev' ++ ea), eb. repeat split.
    + apply exec_cons_intro with (v' := v'); assumption.
    + assumption.
    + apply app_assoc.
  - inversion Hex; subst.
    pose proof (step_throw_keeps _ _ _ _ _ Hstep) as ->.
    exists [], o, ops, [], evs. auto.
Qed.

Lemma exec_app (ops1 ops2 : list op) (v : vault) :
  exec (ops1 ++ ops2) v = bind (exec ops1) (fun _ => exec ops2) v.
Proof.
  revert v. induction ops1 as [|o ops1 IH]; intros v; simpl.
  - rewrite bind_ret_l. reflexivity.
  - rewrite bind_assoc. apply bind_ext. intros _ w. apply IH.
Qed.

(** Whether they returned or threw, operations run again from where
    they ended do as before: the same outcome, the same events, and the
    vault unchanged. *)
Lemma exec_twice_any (ops : list op) (v v1 : vault) (r : outcome unit)
    (evs : list event) :
  exec ops v = (r, v1, evs) -> exec ops v1 = (r, v1, evs).
Proof.
  destruct r as [[]|e]; [apply exec_twice|].
  intros Hex.
  apply exec_throw_inv in Hex as (pre & o & post & ev1 & ev2 & -> & Hpre & Ho & ->).
  rewrite exec_app. unfold bind at 1. rewrite (exec_twice _ _ _ _ Hpre).
  simpl. unfold bind. rewrite Ho. reflexivity.
Qed.

End Replay.

(** ** [syncBookHighlights] runs the operations of its script *)

Section SyncAsScript.
Context `{JsHost}.
Import Sync Script.

Lemma writeHighlightNotes_exec (plugin : BookrisePlugin) (book : Book.t)
    (hls : list Highlight.t) (links : list jsstring) (k : list jsstring -> M unit)
    (v : vault) :
  bind (writeHighlightNotes book (bookFolderPath plugin book ++ lit "/_Highlights")
          (sanitizeFileName (Book.title book)) hls links) k v
  = bind (exec (map (fun hl => WriteFile (notePath plugin book hl) (noteContent book hl)) hls))
      (fun _ => k (links ++ map highlightLink hls)) v.
Proof.
  revert links v. induction hls as [|hl hls IH]; intros links v; simpl.
  - rewrite !bind_ret_l, app_nil_r. reflexivity.
  - rewrite !bind_assoc. apply bind_ext. intros _ w.
    rewrite IH. apply bind_ext. intros _ w'.
    rewrite <- app_assoc. reflexivity.
Qed.

Lemma bind_ret_r (m : M unit) (v : vault) : bind m (fun _ => ret tt) v = m v.
Proof.
  unfold bind, ret. destruct (m v) as [[[[]|e] v1] ev1]; [|reflexivity].
  rewrite app_nil_r. reflexivity.
Qed.

Lemma syncBookHighlights_exec (plugin : BookrisePlugin) (rnd : oracle) (book : Book.t)
    (c : BookriseClient) (highlights : option (list Highlight.t)) (v : vault) :
  client plugin = Some c ->
  listHighlights c (Book.id book) = Ok highlights ->
  syncBookHighlights plugin rnd book v = exec (script plugin rnd book highlights) v.
Proof.
  intros Hc Hl. unfold syncBookHighlights, script. rewrite Hc, Hl.
  cbn [exec step]. apply bind_ext. intros _ w.
  cbn [await]. rewrite bind_ret_l.
  destruct highlights as [[|hl hls]|].
  - cbn [exec step]. rewrite bind_ret_r. unfold emptyContent, mainBookHeader.
    destruct (createNotePerHighlight (settings plugin)); reflexivity.
  - destruct (createNotePerHighlight (settings plugin)).
    + cbn [exec step]. apply bind_ext. intros _ w'.
      rewrite writeHighlightNotes_exec.
      change (bind (step (WriteFile (notePath plugin book hl) (noteContent book hl)))
                (fun _ => exec (map (fun hl0 => WriteFile (notePath plugin book hl0)
                                                 (noteContent book hl0)) hls
                                ++ [WriteFile (mainBookFilePath plugin book)
                                      (indexContent book (hl :: hls))])) w')
        with (exec (map (fun hl0 => WriteFile (notePath plugin book hl0)
                                       (noteContent book hl0)) (hl :: hls)
                    ++ [WriteFile (mainBookFilePath plugin book)
                          (indexContent book (hl :: hls))]) w').
      rewrite exec_app. apply bind_ext. intros _ w''.
      cbn [exec step]. rewrite bind_ret_r. reflexivity.
    + cbn [exec step]. rewrite bind_ret_r. reflexivity.
  - cbn [exec step]. rewrite bind_ret_r. unfold emptyContent, mainBookHeader.
    destruct (createNotePerHighlight (settings plugin)); reflexivity.
Qed.

(** When the highlights cannot be fetched, the book folder is ensured
    and the error of the client is thrown. *)
Lemma syncBookHighlights_exec_throw (plugin : BookrisePlugin) (rnd : oracle) (book : Book.t)
    (c : BookriseClient) (e : exn) (v : vault) :
  client plugin = Some c ->
  listHighlights c (Book.id book) = Throw e ->
  syncBookHighlights plugin rnd book v
  = bind (exec [EnsureFolder (bookFolderPath plugin book)]) (fun _ => throw e) v.
Proof.
  intros Hc Hl. unfold syncBookHighlights. rewrite Hc, Hl.
  cbn [exec step]. rewrite bind_assoc. apply bind_ext. intros _ w.
  rewrite bind_ret_l. reflexivity.
Qed.

(** Only a highlight without an id draws a random block id. *)
Lemma formatSingleHighlightAsListItem_no_random (r1 r2 : jsstring) (hl : Highlight.t) :
  Highlight.id hl <> [] ->
  formatSingleHighlightAsListItem r1 hl = formatSingleHighlightAsListItem r2 hl.
Proof.
  intros Hid. unfold formatSingleHighlightAsListItem.
  destruct (Highlight.id hl); [contradiction|reflexivity].
Qed.

Lemma appendListItems_no_random (rnd1 rnd2 : oracle) (hls : list Highlight.t) :
  Forall (fun hl => Highlight.id hl <> []) hls ->
  forall (i : nat) (content : jsstring),
    appendListItems rnd1 i hls content = appendListItems rnd2 i hls content.
Proof.
  induction 1 as [|hl hls Hid _ IH]; intros i content; simpl; [reflexivity|].
  rewrite (formatSingleHighlightAsListItem_no_random (rnd1 i) (rnd2 i) hl Hid).
  apply IH.
Qed.

Lemma script_no_random (plugin : BookrisePlugin) (rnd1 rnd2 : oracle) (book : Book.t)
    (highlights : option (list Highlight.t)) :
  (forall hls, highlights = Some hls -> Forall (fun hl => Highlight.id hl <> []) hls) ->
  script plugin rnd1 book highlights = script plugin rnd2 book highlights.
Proof.
  intros Hids. unfold script. f_equal.
  destruct highlights as [[|hl hls]|]; try reflexivity.
  destruct (createNotePerHighlight (settings plugin)); [reflexivity|].
  unfold aggregateContent.
  rewrite (appendListItems_no_random rnd1 rnd2 (hl :: hls) (Hids _ eq_refl)).
  reflexivity.
Qed.

(** C1: when no highlight of the book lacks an id, a second run of the
    per-book sync in the same mode, on the vault the first run left and
    against the same remote highlights, does what the first did: it
    writes the same files with the same bytes, in the same order, ends
    as the first run ended, and leaves the vault as it found it,
    whatever random numbers the two runs draw. *)
Theorem syncBookHighlights_twice (plugin : BookrisePlugin) (rnd1 rnd2 : oracle)
    (book : Book.t) (v v1 : vault) (r : outcome unit) (evs : list event) :
  (forall c hls,
     client plugin = Some c -> listHighlights c (Book.id book) = Ok (Some hls) ->
     Forall (fun hl => Highlight.id hl <> []) hls) ->
  syncBookHighlights plugin rnd1 book v = (r, v1, evs) ->
  syncBookHighlights plugin rnd2 book v1 = (r, v1, evs).
Proof.
  intros Hids Hrun.
  destruct (client plugin) as [c|] eqn:Hc.
  - destruct (listHighlights c (Book.id book)) as [highlights|e] eqn:Hl.
    + rewrite (syncBookHighlights_exec plugin rnd1 book c highlights v Hc Hl) in Hrun.
      rewrite (syncBookHighlights_exec plugin rnd2 book c highlights v1 Hc Hl).
      rewrite (script_no_random plugin rnd2 rnd1 book highlights).
      * eapply exec_twice_any. eassumption.
      * intros hls ->. eapply Hids; [reflexivity|eassumption].
    + rewrite (syncBookHighlights_exec_throw plugin rnd1 book c e v Hc Hl) in Hrun.
      rewrite (syncBookHighlights_exec_throw plugin rnd2 book c e v1 Hc Hl).
      unfold bind in Hrun |- *.
      destruct (exec [EnsureFolder (bookFolderPath plugin book)] v)
        as [[[[]|e0] v0] ev0] eqn:Hensure.
      * cbn in Hrun. inversion Hrun; subst.
        rewrite (exec_twice_any _ _ _ _ _ Hensure). reflexivity.
      * inversion Hrun; subst.
        rewrite (exec_twice_any _ _ _ _ _ Hensure). reflexivity.
  - unfold syncBookHighlights in *. rewrite Hc in *.
    unfold ret in *. inversion Hrun; subst. reflexivity.
Qed.

End SyncAsScript.

(** ** Paths: what the replacement of double slashes keeps *)

Section Paths.

Lemma replace_double_slash_cons2 (c d : N) (s : jsstring) :
  replace_double_slash (c :: d :: s)
  = if (c =? 47) && (d =? 47) then 47 :: replace_double_slash s
    else c :: replace_double_slash (d :: s).
Proof. reflexivity. Qed.

Lemma replace_double_slash_cons (c : N) (s : jsstring) :
  c <> 47 -> replace_double_slash (c :: s) = c :: replace_double_slash s.
Proof.
  intros Hc. destruct s as [|d s]; [reflexivity|].
  rewrite replace_double_slash_cons2.
  destruct (N.eqb_spec c 47); [contradiction|reflexivity].
Qed.

Lemma replace_double_slash_slash_free (s : jsstring) :
  slash_free s -> replace_double_slash s = s.
Proof.
  induction 1 as [|c s Hc _ IH]; [reflexivity|].
  rewrite replace_double_slash_cons by assumption. rewrite IH. reflexivity.
Qed.

(** A slash followed by no second slash stays, with all that the pass
    makes of the rest. *)
Lemma replace_double_slash_slash (s : jsstring) :
  head s <> Some 47 ->
  replace_double_slash (47 :: s) = 47 :: replace_double_slash s.
Proof.
  intros Hs. destruct s as [|d s]; [reflexivity|].
  rewrite replace_double_slash_cons2. destruct (N.eqb_spec d 47) as [->|Hd].
  - exfalso. apply Hs. reflexivity.
  - reflexivity.
Qed.

Lemma replace_double_slash_suffix (a : jsstring) :
  exists b, forall s,
    head s <> Some 47 ->
    replace_double_slash (a ++ 47 :: s) = b ++ 47 :: replace_double_slash s.
Proof.
  assert ((exists b, forall s, head s <> Some 47 ->
             replace_double_slash (a ++ 47 :: s) = b ++ 47 :: replace_double_slash s)
          /\ forall c, exists b, forall s, head s <> Some 47 ->
                replace_double_slash (c :: a ++ 47 :: s)
                = b ++ 47 :: replace_double_slash s) as [Ha _];
    [|exact Ha].
  induction a as [|d a [IH1 IH2]].
  - split.
    + exists []. intros s Hs. apply replace_double_slash_slash. assumption.
    + intros c. destruct (N.eqb_spec c 47) as [->|Hc].
      * exists []. intros s Hs. simpl app. rewrite replace_double_slash_cons2. reflexivity.
      * exists [c]. intros s Hs. simpl app.
        rewrite replace_double_slash_cons by assumption.
        rewrite replace_double_slash_slash by assumption. reflexivity.
  - split; [apply IH2|].
    intros c. destruct ((c =? 47) && (d =? 47)) eqn:Hcd.
    + destruct IH1 as [b Hb]. exists (47 :: b). intros s Hs. simpl app.
      rewrite replace_double_slash_cons2, Hcd, (Hb s Hs). reflexivity.
    + destruct (IH2 d) as [b Hb]. exists (c :: b). intros s Hs. simpl app.
      rewrite replace_double_slash_cons2, Hcd. simpl app in Hb. rewrite (Hb s Hs).
      reflexivity.
Qed.

Lemma replace_double_slash_app_slash_free (s t : jsstring) :
  slash_free s -> replace_double_slash (s ++ t) = s ++ replace_double_slash t.
Proof.
  induction 1 as [|c s Hc _ IH]; [reflexivity|].
  simpl app. rewrite replace_double_slash_cons by assumption. rewrite IH. reflexivity.
Qed.

Lemma slash_free_app (s t : jsstring) : slash_free s -> slash_free t -> slash_free (s ++ t).
Proof. apply Forall_app_2. Qed.

Lemma sanitizeFileName_slash_free (name : jsstring) :
  slash_free (Sync.sanitizeFileName name).
Proof.
  eapply Forall_impl; [apply sanitizeFileName_clean|].
  intros c Hc ->. discriminate.
Qed.

End Paths.

(** ** The two modes on a book with two highlights *)

Section Modes.
Context `{JsHost}.
Import Sync Script.

Lemma slash_free_lit_decide (s : jsstring) :
  bool_decide (slash_free s) = true -> slash_free s.
Proof. apply bool_decide_eq_true_1. Qed.

Lemma slash_free_head (s : jsstring) : slash_free s -> head s <> Some 47.
Proof. destruct 1 as [|c s Hc _]; simpl; congruence. Qed.

Lemma noteFileName_slash_free (hl : Highlight.t) : slash_free (noteFileName hl).
Proof.
  unfold noteFileName, noteTitlePrefix, substring.
  repeat apply slash_free_app.
  - apply sanitizeFileName_slash_free.
  - apply slash_free_lit_decide. reflexivity.
  - apply Forall_take, Forall_drop, sanitizeFileName_slash_free.
  - apply slash_free_lit_decide. reflexivity.
Qed.

(** The main note of a book lies in one folder, and every highlight
    note in the [_Highlights] folder inside it. *)
Lemma paths_of_book (plugin : BookrisePlugin) (book : Book.t) :
  exists dir,
    mainBookFilePath plugin book
    = dir ++ lit "/" ++ sanitizeFileName (Book.title book) ++ lit ".md"
    /\ forall hl, notePath plugin book hl = dir ++ lit "/_Highlights/" ++ noteFileName hl.
Proof.
  destruct (replace_double_slash_suffix (bookFolderPath plugin book)) as [dir Hdir].
  exists dir. split.
  - unfold mainBookFilePath.
    change (lit "/" ++ sanitizeFileName (Book.title book) ++ lit ".md")
      with (47 :: (sanitizeFileName (Book.title book) ++ lit ".md")).
    assert (slash_free (sanitizeFileName (Book.title book) ++ lit ".md")) as Hfree.
    { apply slash_free_app; [apply sanitizeFileName_slash_free|].
      apply slash_free_lit_decide. reflexivity. }
    rewrite Hdir by (apply slash_free_head; assumption).
    rewrite replace_double_slash_slash_free by assumption. reflexivity.
  - intros hl. unfold notePath.
    pose proof (noteFileName_slash_free hl) as Hfree.
    change (lit "/_Highlights") with (47 :: lit "_Highlights").
    change (lit "/_Highlights/") with (47 :: lit "_Highlights" ++ [47]).
    change (lit "/" ++ noteFileName hl) with (47 :: noteFileName hl).
    rewrite <- (app_assoc (bookFolderPath plugin book) (47 :: lit "_Highlights")
                  (47 :: noteFileName hl)).
    change ((47 :: lit "_Highlights") ++ 47 :: noteFileName hl)
      with (47 :: (lit "_Highlights" ++ 47 :: noteFileName hl)).
    rewrite Hdir by (cbv; congruence).
    rewrite replace_double_slash_app_slash_free
      by (apply slash_free_lit_decide; reflexivity).
    rewrite replace_double_slash_slash by (apply slash_free_head; assumption).
    rewrite replace_double_slash_slash_free by assumption.
    simpl app. rewrite <- ?app_assoc. reflexivity.
Qed.

Lemma step_write_inv (p c : jsstring) (v v' : vault) (ev : list event) :
  step (WriteFile p c) v = (Ok tt, v', ev) ->
  v' = <[p := TFile c]> v /\ ev = [Wrote p c].
Proof.
  simpl. rewrite createOrUpdateFile_unfold.
  destruct (v !! p) as [[x|]|]; intros Hs; inversion Hs; auto.
Qed.

Lemma step_ensure_inv (p : jsstring) (v v' : vault) (ev : list event) :
  step (EnsureFolder p) v = (Ok tt, v', ev) -> writes ev = [].
Proof.
  simpl. rewrite ensureFolderExists_unfold.
  destruct (v !! p) as [[x|]|]; [destruct (includes _ _)| |];
    intros Hs; inversion Hs; reflexivity.
Qed.

Lemma writes_app (ev1 ev2 : list event) : writes (ev1 ++ ev2) = writes ev1 ++ writes ev2.
Proof. apply omap_app. Qed.

End Modes.

Section TwoHighlights.
Context `{JsHost}.
Import Sync Script.

Lemma exec_nil_inv (v v1 : vault) (evs : list event) :
  exec [] v = (Ok tt, v1, evs) -> v1 = v /\ evs = [].
Proof. simpl. unfold ret. intros Hex. inversion Hex. auto. Qed.

Lemma main_note_is_no_highlight_note (dir title name : jsstring) :
  slash_free title ->
  dir ++ lit "/" ++ title ++ lit ".md" <> dir ++ lit "/_Highlights/" ++ name.
Proof.
  intros Htitle Heq. apply app_inv_head in Heq.
  assert (slash_free (title ++ lit ".md")) as Hfree.
  { apply slash_free_app; [assumption|]. apply slash_free_lit_decide. reflexivity. }
  change (lit "/" ++ title ++ lit ".md") with (47 :: (title ++ lit ".md")) in Heq.
  change (lit "/_Highlights/" ++ name)
    with (47 :: (lit "_Highlights" ++ 47 :: name)) in Heq.
  assert (title ++ lit ".md" = lit "_Highlights" ++ 47 :: name) as Heq' by congruence.
  rewrite Heq' in Hfree.
  apply Forall_app in Hfree as [_ Hfree]. inversion Hfree; congruence.
Qed.

(** The two modes: for a book whose highlights are [h1; h2] and
    whose sync returns, the aggregate mode writes one file, the main
    note, whose body is the heading followed by the list item of [h1]
    and then the list item of [h2]; the per-highlight mode writes the
    note of [h1], the note of [h2] and then the main note, in this order,
    the two notes inside the [_Highlights] folder next to the main note,
    and the index of the main note has the link line of [h1] and then
    that of [h2].  The two notes are two files when their derived file
    names differ. *)
Theorem two_highlights_by_mode (plugin : BookrisePlugin) (rnd : oracle) (book : Book.t)
    (c : BookriseClient) (h1 h2 : Highlight.t) (v v1 : vault) (evs : list event) :
  client plugin = Some c ->
  listHighlights c (Book.id book) = Ok (Some [h1; h2]) ->
  syncBookHighlights plugin rnd book v = (Ok tt, v1, evs) ->
  if createNotePerHighlight (settings plugin)
  then
    let index :=
      mainBookHeader book ++ highlightsIndexHeader
      ++ highlightLink h1 ++ nl ++ highlightLink h2 ++ nl in
    writes evs = [(notePath plugin book h1, noteContent book h1);
                  (notePath plugin book h2, noteContent book h2);
                  (mainBookFilePath plugin book, index)]
    /\ (exists dir,
          mainBookFilePath plugin book
          = dir ++ lit "/" ++ sanitizeFileName (Book.title book) ++ lit ".md"
          /\ notePath plugin book h1 = dir ++ lit "/_Highlights/" ++ noteFileName h1
          /\ notePath plugin book h2 = dir ++ lit "/_Highlights/" ++ noteFileName h2)
    /\ v1 !! mainBookFilePath plugin book = Some (TFile index)
    /\ v1 !! notePath plugin book h2 = Some (TFile (noteContent book h2))
    /\ (noteFileName h1 <> noteFileName h2 ->
        notePath plugin book h1 <> notePath plugin book h2
        /\ v1 !! notePath plugin book h1 = Some (TFile (noteContent book h1)))
  else
    let body :=
      mainBookHeader book ++ lit "# Highlights for " ++ Book.title book ++ nl ++ nl
      ++ formatSingleHighlightAsListItem (rnd 0%nat) h1
      ++ formatSingleHighlightAsListItem (rnd 1%nat) h2 in
    writes evs = [(mainBookFilePath plugin book, body)]
    /\ v1 !! mainBookFilePath plugin book = Some (TFile body).
Proof.
  intros Hc Hl Hrun.
  rewrite (syncBookHighlights_exec plugin rnd book c (Some [h1; h2]) v Hc Hl) in Hrun.
  unfold script in Hrun.
  destruct (createNotePerHighlight (settings plugin)).
  - cbn [map app] in Hrun.
    apply exec_cons_inv in Hrun as (va & ea & evs1 & Ha & Hrun & ->).
    apply exec_cons_inv in Hrun as (vb & eb & evs2 & Hb & Hrun & ->).
    apply exec_cons_inv in Hrun as (vc & ec & evs3 & Hn1 & Hrun & ->).
    apply exec_cons_inv in Hrun as (vd & ed & evs4 & Hn2 & Hrun & ->).
    apply exec_cons_inv in Hrun as (ve & ee & evs5 & Hm & Hrun & ->).
    apply exec_nil_inv in Hrun as [-> ->].
    apply step_ensure_inv in Ha, Hb.
    apply step_write_inv in Hn1 as [-> ->].
    apply step_write_inv in Hn2 as [-> ->].
    apply step_write_inv in Hm as [-> ->].
    destruct (paths_of_book plugin book) as (dir & Hmain & Hnote).
    assert (mainBookFilePath plugin book <> notePath plugin book h1) as Hm1.
    { rewrite Hmain, Hnote. apply main_note_is_no_highlight_note.
      apply sanitizeFileName_slash_free. }
    assert (mainBookFilePath plugin book <> notePath plugin book h2) as Hm2.
    { rewrite Hmain, Hnote. apply main_note_is_no_highlight_note.
      apply sanitizeFileName_slash_free. }
    assert (indexContent book [h1; h2]
            = mainBookHeader book ++ highlightsIndexHeader
              ++ highlightLink h1 ++ nl ++ highlightLink h2 ++ nl) as ->.
    { unfold indexContent. cbn [map join]. rewrite <- !app_assoc. reflexivity. }
    cbv zeta. repeat split.
    + rewrite !writes_app, Ha, Hb. reflexivity.
    + exists dir. auto.
    + apply lookup_insert_eq.
    + rewrite lookup_insert_ne by assumption. apply lookup_insert_eq.
    + rewrite !Hnote. intros Heq. apply app_inv_head, app_inv_head in Heq. tauto.
    + assert (notePath plugin book h2 <> notePath plugin book h1) as Hne.
      { rewrite !Hnote. intros Heq. apply app_inv_head, app_inv_head in Heq.
        symmetry in Heq. tauto. }
      rewrite lookup_insert_ne by assumption.
      rewrite lookup_insert_ne by assumption. apply lookup_insert_eq.
  - apply exec_cons_inv in Hrun as (va & ea & evs1 & Ha & Hrun & ->).
    apply exec_cons_inv in Hrun as (vb & eb & evs2 & Hm & Hrun & ->).
    apply exec_nil_inv in Hrun as [-> ->].
    apply step_ensure_inv in Ha.
    apply step_write_inv in Hm as [-> ->].
    assert (aggregateContent rnd book [h1; h2]
            = mainBookHeader book ++ lit "# Highlights for " ++ Book.title book ++ nl ++ nl
              ++ formatSingleHighlightAsListItem (rnd 0%nat) h1
              ++ formatSingleHighlightAsListItem (rnd 1%nat) h2) as ->.
    { unfold aggregateContent. cbn [appendListItems]. rewrite <- !app_assoc. reflexivity. }
    cbv zeta. split.
    + rewrite !writes_app, Ha. reflexivity.
    + apply lookup_insert_eq.
Qed.

End TwoHighlights.

(** ** The two modes and the second run, on concrete books *)

Section SyncExamples.
Import Sync Script.

Lemma syncBookHighlights_twice_witness :
  let plugin := Sample.plugin false [Sample.a_book] [Sample.h_one; Sample.h_text] in
  let first := syncBookHighlights plugin Sample.rnd Sample.a_book ∅ in
  syncBookHighlights plugin Sample.rnd' Sample.a_book (snd (fst first))
  = (Ok tt, snd (fst first), snd first).
Proof.
  intros plugin first.
  apply (@syncBookHighlights_twice Sample.host plugin Sample.rnd Sample.rnd'
           Sample.a_book ∅).
  - intros c hls Hc Hl. vm_compute in Hc. inversion Hc; subst c.
    vm_compute in Hl. inversion Hl; subst hls.
    repeat constructor; discriminate.
  - vm_compute. reflexivity.
Defined.

Lemma two_highlights_by_mode_witness :
  let plugin := Sample.plugin true [Sample.a_book] [Sample.h_one; Sample.h_text] in
  let first := syncBookHighlights plugin Sample.rnd Sample.a_book ∅ in
  map fst (writes (snd first))
  = [lit "BookRise/B/_Highlights/Highlight (hl-00000).md";
     lit "BookRise/B/_Highlights/one two (01234567).md";
     lit "BookRise/B/B.md"].
Proof.
  intros plugin first.
  pose proof (@two_highlights_by_mode Sample.host plugin Sample.rnd Sample.a_book
                {| listBooks := Ok (Some [Sample.a_book]);
                   listHighlights := fun _ => Ok (Some [Sample.h_one; Sample.h_text]) |}
                Sample.h_one Sample.h_text ∅ (snd (fst first)) (snd first)
                eq_refl eq_refl) as Hmodes.
  assert (syncBookHighlights plugin Sample.rnd Sample.a_book ∅
          = (Ok tt, snd (fst first), snd first)) as Hrun by (vm_compute; reflexivity).
  specialize (Hmodes Hrun). cbv beta iota zeta delta [plugin Sample.plugin settings
    createNotePerHighlight] in Hmodes.
  destruct Hmodes as [Hwrites _]. rewrite Hwrites. vm_compute. reflexivity.
Defined.

(** C2: the per-highlight mode does not give every highlight a note of
    its own.  The file name of a note keeps the first eight characters
    of the id after the words of the highlight, so two highlights
    without text or note whose ids begin alike get one path: the sync
    returns, the note of the second highlight is written over the note
    of the first, and the [_Highlights] folder holds one note, not two. *)
Lemma two_highlights_one_note :
  let plugin := Sample.plugin true [Sample.a_book] [Sample.h_one; Sample.h_two] in
  let first := syncBookHighlights plugin Sample.rnd Sample.a_book ∅ in
  let note := lit "BookRise/B/_Highlights/Highlight (hl-00000).md" in
  fst (fst first) = Ok tt
  /\ Highlight.id Sample.h_one <> Highlight.id Sample.h_two
  /\ notePath plugin Sample.a_book Sample.h_one = note
  /\ notePath plugin Sample.a_book Sample.h_two = note
  /\ files_in (lit "BookRise/B/_Highlights") (snd (fst first)) = [note]
  /\ length (files_in (lit "BookRise/B/_Highlights") (snd (fst first))) <> 2%nat
  /\ snd (fst first) !! note = Some (TFile (noteContent Sample.a_book Sample.h_two))
  /\ noteContent Sample.a_book Sample.h_one <> noteContent Sample.a_book Sample.h_two.
Proof. vm_compute. repeat split; congruence. Qed.

End SyncExamples.

(** ** [syncAllHighlights]: one book's failure stays with that book *)

Section AllBooks.
Context `{JsHost}.
Import Sync Observe.

Lemma count_cons (b x : bool) (l : list bool) :
  count b (x :: l) = ((if bool_decide (x = b) then 1 else 0) + count b l)%nat.
Proof.
  unfold count. rewrite filter_cons.
  destruct (decide (x = b)) as [Hx|Hx].
  - rewrite bool_decide_eq_true_2 by assumption. reflexivity.
  - rewrite bool_decide_eq_false_2 by assumption. reflexivity.
Qed.

Lemma count_total (l : list bool) : (count true l + count false l = length l)%nat.
Proof.
  induction l as [|x l IH]; [reflexivity|].
  rewrite !count_cons. destruct x; simpl; lia.
Qed.

Lemma book_outcomes_length (plugin : BookrisePlugin) (rnds : nat -> oracle)
    (books : list Book.t) (k : nat) (v : vault) :
  length (book_outcomes plugin rnds k books v) = length books.
Proof.
  revert k v. induction books as [|book rest IH]; intros k v; simpl; [reflexivity|].
  rewrite IH. reflexivity.
Qed.

(** The loop returns for every list of books, having run the sync of
    each on the vault the books before it left, and its counters count
    the books whose sync returned and those whose sync threw. *)
Lemma syncBooks_counts (plugin : BookrisePlugin) (rnds : nat -> oracle)
    (books : list Book.t) (k successCount errorCount : nat) (v : vault) :
  exists v',
    syncBooks plugin rnds k books successCount errorCount v
    = (Ok ((successCount + count true (book_outcomes plugin rnds k books v))%nat,
           (errorCount + count false (book_outcomes plugin rnds k books v))%nat),
       v', book_events plugin rnds k books v).
Proof.
  revert k successCount errorCount v.
  induction books as [|book rest IH]; intros k s e v.
  - exists v. simpl. unfold ret, count. simpl. rewrite !Nat.add_0_r. reflexivity.
  - cbn [syncBooks book_outcomes book_events].
    unfold bind at 1, try_catch, bind at 1.
    destruct (syncBookHighlights plugin (rnds k) book v) as [[[[]|err] v1] ev1] eqn:Hbook;
      cbn [fst snd returned ret emit].
    + destruct (IH (S k) (S s) e v1) as [v' Hrest]. rewrite Hrest.
      exists v'. rewrite !count_cons. simpl.
      rewrite (app_nil_r ev1). repeat f_equal; lia.
    + destruct (IH (S k) s (S e) v1) as [v' Hrest]. unfold bind, emit, ret.
      cbn [fst snd]. rewrite Hrest.
      exists v'. rewrite !count_cons. simpl.
      rewrite <- ?app_assoc. simpl. repeat f_equal; lia.
Qed.

(** C8: in a run over a library of books, the sync of every book is
    run, on the vault the books before it left, whether or not an earlier
    book threw; a book whose sync throws is counted as failed and shown
    in a notice, the others are counted as synced; the run itself
    returns, and its last notice reports the two counts, which add up to
    the number of books. *)
Theorem syncAllHighlights_counts (plugin : BookrisePlugin) (rnds : nat -> oracle)
    (c : BookriseClient) (books : list Book.t) (v v0 : vault) (ev0 : list event) :
  client plugin = Some c ->
  listBooks c = Ok (Some books) ->
  books <> [] ->
  ensureFolderExists (bookriseSyncFolder (settings plugin)) v = (Ok tt, v0, ev0) ->
  let outcomes := book_outcomes plugin rnds 0 books v0 in
  length outcomes = length books
  /\ (count true outcomes + count false outcomes = length books)%nat
  /\ exists v',
       syncAllHighlights plugin rnds v
       = (Ok tt, v',
          [Notice (lit "Starting BookRise highlight sync...");
           Notice (lit "Found " ++ decimal (length books)
                   ++ lit " books. Fetching highlights...")]
          ++ ev0 ++ book_events plugin rnds 0 books v0
          ++ [Notice (summaryNotice (count true outcomes) (count false outcomes))]).
Proof.
  intros Hc Hl Hne Hroot outcomes. subst outcomes.
  split; [apply book_outcomes_length|].
  split; [rewrite count_total; apply book_outcomes_length|].
  destruct (syncBooks_counts plugin rnds books 0 0 0 v0) as [v' Hloop].
  exists v'. unfold syncAllHighlights. rewrite Hc, Hl.
  destruct books as [|book rest]; [contradiction|].
  unfold bind at 1, emit at 1, try_catch. cbn [await].
  unfold bind at 1, ret at 1.
  unfold bind at 1, emit at 1.
  unfold bind at 1. rewrite Hroot.
  unfold bind at 1. rewrite Hloop. cbn [fst snd emit].
  reflexivity.
Qed.

End AllBooks.

Section AllBooksExample.
Import Sync Observe.

Lemma syncAllHighlights_counts_witness :
  let rnds := fun _ : nat => Sample.rnd in
  let result := syncAllHighlights Sample.flaky_plugin rnds ∅ in
  book_outcomes Sample.flaky_plugin rnds 0
    [Sample.book "b1" "One"; Sample.book "b2" "Two"; Sample.book "b3" "Three"]
    (<[lit "BookRise" := TFolder]> ∅)
  = [true; false; true]
  /\ last (snd result)
     = Some (Notice (lit "BookRise highlight sync finished. Synced 2 books. Failed for 1 books.")).
Proof.
  intros rnds result.
  destruct (@syncAllHighlights_counts Sample.host Sample.flaky_plugin rnds
              _ _ ∅ (<[lit "BookRise" := TFolder]> ∅) []
              eq_refl eq_refl ltac:(discriminate) ltac:(vm_compute; reflexivity))
    as (Hlen & Hsum & v' & Hrun).
  split; [vm_compute; reflexivity|].
  subst result. rewrite Hrun. vm_compute. reflexivity.
Defined.

End AllBooksExample.

(** ** The response normalizer *)

Section Normalizer.
Context `{JsonHost}.
Import Client Observe.
Local Open Scope client_scope.

Lemma and_then_perform {A} (e : effect) (k : unit -> Eff A) :
  and_then (perform e) k = (fst (k tt), e :: snd (k tt)).
Proof. unfold and_then, perform. destruct (k tt). reflexivity. Qed.

Lemma and_then_lift_ok {A B} (a : A) (k : A -> Eff B) :
  and_then (lift (Ok a)) k = k a.
Proof. unfold and_then, lift. destruct (k a). reflexivity. Qed.

Lemma and_then_lift_throw {A B} (e : exn) (k : A -> Eff B) :
  and_then (lift (Throw e)) k = (Throw e, []).
Proof. reflexivity. Qed.

Lemma request_enter (this : BookriseClient) (endpoint : jsstring)
    (options : RequestOptions) (response : RequestUrlResponse) :
  requestUrlFn this (request_param this endpoint options) = Ok response ->
  request this endpoint options
  = (fst (request_continue this endpoint response),
     Requested (request_param this endpoint options)
     :: snd (request_continue this endpoint response)).
Proof.
  intros Hresponse. unfold request. fold (request_param this endpoint options).
  rewrite and_then_perform, Hresponse, and_then_lift_ok. reflexivity.
Qed.

Lemma request_fails (this : BookriseClient) (endpoint : jsstring)
    (options : RequestOptions) (e : exn) :
  requestUrlFn this (request_param this endpoint options) = Throw e ->
  request this endpoint options
  = (Throw e, [Requested (request_param this endpoint options)]).
Proof.
  intros Hresponse. unfold request. fold (request_param this endpoint options).
  rewrite and_then_perform, Hresponse, and_then_lift_throw. reflexivity.
Qed.

(** C6: a response with status 204 is [null] whatever its body; one with
    another status of [200,300) and an empty body is [null], with a
    warning and no error; one with another status of [200,300) and a
    body that is not empty is the body as [JSON.parse] reads it.  What is
    left is a body that [JSON.parse] rejects: its error is thrown. *)
Theorem request_normalizes (this : BookriseClient) (endpoint : jsstring)
    (options : RequestOptions) (response : RequestUrlResponse) :
  requestUrlFn this (request_param this endpoint options) = Ok response ->
  (status response = 204%nat ->
   request this endpoint options
   = (Ok None, [Requested (request_param this endpoint options)]))
  /\ (in_2xx (status response) = true -> status response <> 204%nat ->
      text response = [] ->
      request this endpoint options
      = (Ok None, [Requested (request_param this endpoint options);
                   empty_response_warning this endpoint (status response)]))
  /\ (forall parsed,
        in_2xx (status response) = true -> status response <> 204%nat ->
        text response <> [] ->
        JSON_parse (text response) = Some parsed ->
        request this endpoint options
        = (Ok (Some parsed), [Requested (request_param this endpoint options)]))
  /\ (in_2xx (status response) = true -> status response <> 204%nat ->
      text response <> [] ->
      JSON_parse (text response) = None ->
      request this endpoint options
      = (Throw (SyntaxError (JSON_parse_error (text response))),
         [Requested (request_param this endpoint options)])).
Proof.
  intros Hresponse.
  split; [|split; [|split]].
  - intros H204. rewrite (request_enter _ _ _ _ Hresponse). unfold request_continue.
    rewrite H204. change (in_2xx 204) with true. cbn [negb].
    rewrite Nat.eqb_refl. destruct (Js.eqb (text response) []); reflexivity.
  - intros H2xx H204 Hempty. rewrite (request_enter _ _ _ _ Hresponse). unfold request_continue.
    rewrite H2xx, Hempty. cbn [negb].
    apply Nat.eqb_neq in H204. rewrite H204.
    unfold Js.eqb. rewrite bool_decide_eq_true_2 by reflexivity. reflexivity.
  - intros parsed H2xx H204 Hbody Hparse.
    rewrite (request_enter _ _ _ _ Hresponse). unfold request_continue.
    rewrite H2xx. cbn [negb].
    apply Nat.eqb_neq in H204. rewrite H204.
    unfold Js.eqb. rewrite bool_decide_eq_false_2 by assumption. cbn [andb].
    rewrite Hparse. reflexivity.
  - intros H2xx H204 Hbody Hparse.
    rewrite (request_enter _ _ _ _ Hresponse). unfold request_continue.
    rewrite H2xx. cbn [negb].
    apply Nat.eqb_neq in H204. rewrite H204.
    unfold Js.eqb. rewrite bool_decide_eq_false_2 by assumption. cbn [andb].
    rewrite Hparse. reflexivity.
Qed.

End Normalizer.

Section NormalizerExamples.
Import Client Observe.
#[local] Existing Instances Sample.host Sample.json_host.

Lemma request_normalizes_witness :
  request (Sample.answering 200 (quote ++ quote)) (lit "/api/books") no_options
  = (Ok (Some (JStr [])),
     [Requested (request_param (Sample.answering 200 (quote ++ quote)) (lit "/api/books")
                   no_options)]).
Proof.
  destruct (@request_normalizes Sample.host Sample.json_host
              (Sample.answering 200 (quote ++ quote)) (lit "/api/books") no_options
              {| status := 200; text := quote ++ quote |} eq_refl) as (_ & _ & Hbody & _).
  rewrite (Hbody (JStr [])); [reflexivity|reflexivity|discriminate|discriminate|reflexivity].
Defined.

(** The status is tested before the body is read: a response with status
    204 and the body [{}], which parses, is [null]. *)
Lemma no_content_body_is_dropped :
  let this := Sample.answering 204 (lit "{}") in
  in_2xx 204 = true
  /\ lit "{}" <> []
  /\ JSON_parse (lit "{}") = Some (JObj [])
  /\ fst (request this (lit "/api/books") no_options) = Ok None
  /\ fst (request this (lit "/api/books") no_options) <> Ok (Some (JObj [])).
Proof. vm_compute. repeat split; congruence. Qed.

End NormalizerExamples.

(** ** [chat] with an unknown book *)

Section UnknownBook.
Context `{JsonHost}.
Import Client Observe.
Local Open Scope client_scope.

Lemma and_then_raise_throws {A B C} (m : Eff A) (g : A -> Eff B) (h : A -> B -> exn)
    (r : C) :
  fst (and_then m (fun x => and_then (g x) (fun y => raise (h x y)))) <> Ok r.
Proof.
  destruct m as [[a|e] ev]; cbn; [|discriminate].
  destruct (g a) as [[b|e] ev']; cbn; discriminate.
Qed.

(** A request that returned a value made one network call and gave no
    warning. *)
Lemma request_value_effects (this : BookriseClient) (endpoint : jsstring)
    (options : RequestOptions) (value : json) (evs : list effect) :
  request this endpoint options = (Ok (Some value), evs) ->
  evs = [Requested (request_param this endpoint options)].
Proof.
  destruct (requestUrlFn this (request_param this endpoint options)) as [response|e]
    eqn:Hresponse.
  - rewrite (request_enter _ _ _ _ Hresponse). unfold request_continue.
    destruct (negb (in_2xx (status response))).
    + intros Hreq. inversion Hreq as [[Hfst Hsnd]]. exfalso.
      revert Hfst. apply and_then_raise_throws.
    + destruct (Js.eqb (text response) [] && negb (status response =? 204)%nat);
        [cbn; discriminate|].
      destruct (status response =? 204)%nat; [cbn; discriminate|].
      destruct (JSON_parse (text response)); cbn; intros Hreq; inversion Hreq; reflexivity.
  - rewrite (request_fails _ _ _ _ Hresponse). discriminate.
Qed.

Lemma find_by_id_absent (bookId : jsstring) (items : list json) :
  Forall (other_book bookId) items -> find_by_id bookId items = Ok None.
Proof.
  induction 1 as [|b items (props & -> & Hid) _ IH]; [reflexivity|].
  cbn [find_by_id Json.get].
  destruct (Json.lookup (lit "id") props) as [[| | |s| |]|]; try exact IH.
  unfold Js.eqb. destruct (bool_decide (s = bookId)) eqn:Hs; [|exact IH].
  apply bool_decide_eq_true_1 in Hs. subst s. congruence.
Qed.

(** C7, as the code has it: when [bookId] and [prompt] are not empty
    and the list [listBooks()] fetches has only books with other ids,
    [chat] throws the error of the unknown book, in both revisions and
    with or without [onChunk], and the one network call made is the
    request of the list: none goes to the chat endpoint. *)
Theorem chat_unknown_book (this : BookriseClient) (bookId prompt : jsstring)
    (contextIds : option (list jsstring)) (onChunk : bool) (items : list json)
    (evs : list effect) :
  bookId <> [] ->
  prompt <> [] ->
  listBooks this = (Ok (Some (JArr items)), evs) ->
  Forall (other_book bookId) items ->
  let failure : Eff json :=
    (Throw (Error (lit "Book with ID " ++ bookId ++ lit " not found")),
     [Requested (books_request this)]) in
  FetchClient.chat this bookId prompt contextIds onChunk = failure
  /\ RequestUrlClient.chat this bookId prompt contextIds onChunk = failure
  /\ Forall (fun e => targets_chat e = false) (snd failure).
Proof.
  intros Hid Hprompt Hbooks Habsent failure. subst failure.
  pose proof (request_value_effects _ _ _ _ _ Hbooks) as ->.
  assert (Js.eqb bookId [] || Js.eqb prompt [] = false) as Hargs.
  { unfold Js.eqb. rewrite !bool_decide_eq_false_2 by assumption. reflexivity. }
  repeat split.
  - unfold FetchClient.chat, FetchClient.chat_try. rewrite Hargs.
    unfold and_then at 1. rewrite Hbooks. cbn [find_book lift].
    rewrite (find_by_id_absent _ _ Habsent). reflexivity.
  - unfold RequestUrlClient.chat, RequestUrlClient.chat_try. rewrite Hargs.
    unfold and_then at 1. rewrite Hbooks. cbn [find_book lift].
    rewrite (find_by_id_absent _ _ Habsent). reflexivity.
  - cbn [snd]. repeat constructor.
Qed.

End UnknownBook.

Section UnknownBookExamples.
Import Client Observe.
#[local] Existing Instances Sample.host Sample.json_host.

Lemma chat_unknown_book_witness :
  FetchClient.chat (Sample.answering 200 Sample.library) (lit "missing-id") (lit "hello")
    None true
  = (Throw (Error (lit "Book with ID missing-id not found")),
     [Requested (books_request (Sample.answering 200 Sample.library))]).
Proof.
  destruct (@chat_unknown_book Sample.host Sample.json_host
              (Sample.answering 200 Sample.library) (lit "missing-id") (lit "hello")
              None true [JObj [(lit "id", JStr (lit "b1"))]]
              [Requested (books_request (Sample.answering 200 Sample.library))])
    as (Hfetch & _ & _).
  - discriminate.
  - discriminate.
  - vm_compute. reflexivity.
  - constructor; [|constructor].
    exists [(lit "id", JStr (lit "b1"))]. split; [reflexivity|]. vm_compute. discriminate.
  - exact Hfetch.
Defined.

(** C7 as stated fails: the empty [bookId] is in no list of books, yet
    [chat] throws the error of the missing arguments, not that of the
    unknown book, in both revisions. *)
Lemma chat_empty_book_id :
  let this := Sample.answering 200 Sample.library in
  listBooks this
  = (Ok (Some (JArr [JObj [(lit "id", JStr (lit "b1"))]])), [Requested (books_request this)])
  /\ FetchClient.chat this [] (lit "hello") None true
     = (Throw (Error (lit "bookId and prompt are required for chat.")), [])
  /\ RequestUrlClient.chat this [] (lit "hello") None true
     = (Throw (Error (lit "bookId and prompt are required for chat.")), [])
  /\ Error (lit "bookId and prompt are required for chat.")
     <> Error (lit "Book with ID " ++ [] ++ lit " not found").
Proof. vm_compute. repeat split; congruence. Qed.

End UnknownBookExamples.

(** ** One data line of the stream *)

Section DataLine.
Context `{JsonHost}.
Import Client Observe.
Local Open Scope client_scope.

Lemma chunks_app (ev1 ev2 : list effect) : chunks (ev1 ++ ev2) = chunks ev1 ++ chunks ev2.
Proof. apply omap_app. Qed.

Lemma concat_chunks_app (cs1 cs2 : list json) :
  concat_chunks (cs1 ++ cs2) = concat_chunks cs1 ++ concat_chunks cs2.
Proof. unfold concat_chunks. rewrite map_app, concat_app. reflexivity. Qed.

Lemma get_not_null (key : jsstring) (parsed : json) :
  parsed <> JNull -> Json.get key parsed = Ok (field key parsed).
Proof. destruct parsed; try reflexivity. congruence. Qed.

Lemma if_truthy_truthy (value : option json) (c : json) :
  if_truthy value = Some c -> Json.truthy c = true.
Proof.
  destruct value as [v|]; [|discriminate]. simpl.
  destruct (Json.truthy v) eqn:Hv; [|discriminate]. congruence.
Qed.

(** A chunk taken from a field is truthy; one that is not is the bare
    empty string. *)
Lemma chunk_by_priority_falsy (parsed c : json) :
  chunk_by_priority parsed = Some c -> Json.truthy c = false -> c = JStr [].
Proof.
  unfold chunk_by_priority.
  destruct (if_truthy (field (lit "content") parsed)) as [x|] eqn:Hc.
  { intros [= <-] Hf. rewrite (if_truthy_truthy _ _ Hc) in Hf. discriminate. }
  destruct (if_truthy (field (lit "answer") parsed)) as [x|] eqn:Ha.
  { intros [= <-] Hf. rewrite (if_truthy_truthy _ _ Ha) in Hf. discriminate. }
  destruct (if_truthy (field (lit "delta") parsed)) as [x|] eqn:Hd.
  { intros [= <-] Hf. rewrite (if_truthy_truthy _ _ Hd) in Hf. discriminate. }
  destruct parsed; try discriminate.
  intros [= <-]. simpl. unfold Js.eqb. case_bool_decide; [congruence|discriminate].
Qed.

Lemma null_or_not (parsed : json) : parsed = JNull \/ parsed <> JNull.
Proof. destruct parsed; auto; right; discriminate. Qed.

Lemma string_or_not (parsed : json) :
  (exists s, parsed = JStr s) \/ ~ (exists s, parsed = JStr s).
Proof. destruct parsed; eauto; right; intros [s Hs]; discriminate. Qed.

(** *** The revision reading from [fetch] *)

Lemma fetch_append_and_call (st : FetchClient.StreamState) (c : json) :
  FetchClient.append_and_call st c =
  match Json.ToString c with
  | Some shown =>
      (Ok {| FetchClient.fullAnswer := FetchClient.fullAnswer st ++ shown;
             FetchClient.citedChapters := FetchClient.citedChapters st |},
       [Chunk c])
  | None => (Throw (TypeError (lit "Cannot convert object to primitive value")), [])
  end.
Proof.
  unfold FetchClient.append_and_call, interpolate.
  destruct (Json.ToString c); reflexivity.
Qed.

(** The [try] block on a payload that parses: it throws before any
    effect, or returns without a chunk, or returns with the one chunk the
    priority order names. *)
Lemma fetch_try_block_cases (st : FetchClient.StreamState) (data : jsstring) (parsed : json) :
  JSON_parse data = Some parsed ->
  (exists e, FetchClient.try_block st data = (Throw e, [])
             /\ (parsed = JNull
                 \/ exists c, chunk_by_priority parsed = Some c /\ Json.ToString c = None))
  \/ (exists st', FetchClient.try_block st data = (Ok st', [])
                  /\ FetchClient.fullAnswer st' = FetchClient.fullAnswer st
                  /\ chunk_by_priority parsed = None)
  \/ (exists st' c shown,
        FetchClient.try_block st data = (Ok st', [Chunk c])
        /\ chunk_by_priority parsed = Some c
        /\ Json.ToString c = Some shown
        /\ FetchClient.fullAnswer st' = FetchClient.fullAnswer st ++ shown).
Proof.
  intros Hparse. unfold FetchClient.try_block. rewrite Hparse.
  destruct (null_or_not parsed) as [->|Hnull].
  { left. eexists. split; [reflexivity|]. left. reflexivity. }
  rewrite !(get_not_null _ _ Hnull), !and_then_lift_ok.
  assert (forall st1 : FetchClient.StreamState,
            exists st', (match field (lit "cited_chapters") parsed with
                         | Some (JArr items) =>
                             pure {| FetchClient.fullAnswer := FetchClient.fullAnswer st1;
                                     FetchClient.citedChapters :=
                                       FetchClient.citedChapters st1 ++ items |}
                         | _ => pure st1
                         end) = (Ok st', [])
                        /\ FetchClient.fullAnswer st' = FetchClient.fullAnswer st1) as Hcited.
  { intros st1. destruct (field (lit "cited_chapters") parsed) as [[| | | |items|]|];
      eexists; split; reflexivity. }
  assert (forall c, chunk_by_priority parsed = Some c ->
            (exists e, and_then (FetchClient.append_and_call st c)
                         (fun st0 => let* cited := lift (Ok (field (lit "cited_chapters") parsed)) in
                                     match cited with
                                     | Some (JArr items) =>
                                         pure {| FetchClient.fullAnswer :=
                                                   FetchClient.fullAnswer st0;
                                                 FetchClient.citedChapters :=
                                                   FetchClient.citedChapters st0 ++ items |}
                                     | _ => pure st0
                                     end) = (Throw e, [])
                       /\ Json.ToString c = None)
            \/ (exists st' shown,
                  and_then (FetchClient.append_and_call st c)
                    (fun st0 => let* cited := lift (Ok (field (lit "cited_chapters") parsed)) in
                                match cited with
                                | Some (JArr items) =>
                                    pure {| FetchClient.fullAnswer :=
                                              FetchClient.fullAnswer st0;
                                            FetchClient.citedChapters :=
                                              FetchClient.citedChapters st0 ++ items |}
                                | _ => pure st0
                                end) = (Ok st', [Chunk c])
                  /\ Json.ToString c = Some shown
                  /\ FetchClient.fullAnswer st' = FetchClient.fullAnswer st ++ shown)) as Hemit.
  { intros c _. rewrite fetch_append_and_call.
    destruct (Json.ToString c) as [shown|].
    - right. unfold and_then at 1.
      rewrite and_then_lift_ok.
      destruct (Hcited {| FetchClient.fullAnswer := FetchClient.fullAnswer st ++ shown;
                          FetchClient.citedChapters := FetchClient.citedChapters st |})
        as (st' & -> & Hanswer).
      exists st', shown. auto.
    - left. eexists. split; reflexivity. }
  unfold chunk_by_priority in *.
  destruct (if_truthy (field (lit "content") parsed)) as [c|];
    [|destruct (if_truthy (field (lit "answer") parsed)) as [c|];
      [|destruct (if_truthy (field (lit "delta") parsed)) as [c|];
        [|destruct (string_or_not parsed) as [[s ->]|Hstr]]]].
  1-4: destruct (Hemit _ eq_refl) as [(e & -> & Hs)|(st' & shown & -> & Hs & Ha)];
    [left; exists e; split; [reflexivity|right; eauto]
    |right; right; exists st'; eauto 10].
  right. left.
  assert (match parsed with
          | JStr _ => FetchClient.append_and_call st parsed
          | _ => pure st
          end = pure st
          /\ match parsed with JStr _ => Some parsed | _ => None end = None) as [-> ->].
  { destruct parsed; auto. exfalso. apply Hstr. eauto. }
  unfold and_then at 1, pure at 1.
  rewrite and_then_lift_ok.
  destruct (Hcited st) as (st' & -> & Hanswer). exists st'. auto.
Qed.

End DataLine.

Section DataLineLater.
Context `{JsonHost}.
Import Client Observe.
Local Open Scope client_scope.

(** *** The revision reading the text of the response *)

Lemma emitChunk_unfold (st : RequestUrlClient.StreamState) (c : json) :
  RequestUrlClient.emitChunk st c =
  if Json.truthy c
  then match Json.ToString c with
       | Some shown =>
           (Ok {| RequestUrlClient.fullAnswer := RequestUrlClient.fullAnswer st ++ shown;
                  RequestUrlClient.citedChapters := RequestUrlClient.citedChapters st |},
            [Chunk c])
       | None => (Throw (TypeError (lit "Cannot convert object to primitive value")), [])
       end
  else (Ok st, []).
Proof.
  unfold RequestUrlClient.emitChunk, interpolate.
  destruct (Json.truthy c); [|reflexivity].
  destruct (Json.ToString c); reflexivity.
Qed.

(** The [try] block on a payload that parses: it throws before any
    effect, or returns without a chunk, or returns with the one chunk the
    priority order names. *)
Lemma later_try_block_cases (st : RequestUrlClient.StreamState) (data : jsstring)
    (parsed : json) :
  JSON_parse data = Some parsed ->
  (exists e, RequestUrlClient.try_block st data = (Throw e, [])
             /\ (parsed = JNull
                 \/ exists c, chunk_by_priority parsed = Some c /\ Json.truthy c = true
                              /\ Json.ToString c = None))
  \/ (exists st', RequestUrlClient.try_block st data = (Ok st', [])
                  /\ RequestUrlClient.fullAnswer st' = RequestUrlClient.fullAnswer st
                  /\ (chunk_by_priority parsed = None
                      \/ chunk_by_priority parsed = Some (JStr [])))
  \/ (exists st' c shown,
        RequestUrlClient.try_block st data = (Ok st', [Chunk c])
        /\ chunk_by_priority parsed = Some c
        /\ Json.truthy c = true
        /\ Json.ToString c = Some shown
        /\ RequestUrlClient.fullAnswer st' = RequestUrlClient.fullAnswer st ++ shown).
Proof.
  intros Hparse. unfold RequestUrlClient.try_block. rewrite Hparse.
  destruct (null_or_not parsed) as [->|Hnull].
  { left. eexists. split; [reflexivity|]. left. reflexivity. }
  rewrite !(get_not_null _ _ Hnull), !and_then_lift_ok.
  assert (forall st1 : RequestUrlClient.StreamState,
            exists st', (match field (lit "cited_chapters") parsed with
                         | Some (JArr items) =>
                             pure {| RequestUrlClient.fullAnswer :=
                                       RequestUrlClient.fullAnswer st1;
                                     RequestUrlClient.citedChapters :=
                                       RequestUrlClient.add_chapters
                                         (RequestUrlClient.citedChapters st1) items |}
                         | _ => pure st1
                         end) = (Ok st', [])
                        /\ RequestUrlClient.fullAnswer st' = RequestUrlClient.fullAnswer st1)
    as Hcited.
  { intros st1. destruct (field (lit "cited_chapters") parsed) as [[| | | |items|]|];
      eexists; split; reflexivity. }
  set (finish := fun st0 : RequestUrlClient.StreamState =>
                   let* cited := lift (Ok (field (lit "cited_chapters") parsed)) in
                   match cited with
                   | Some (JArr items) =>
                       pure {| RequestUrlClient.fullAnswer := RequestUrlClient.fullAnswer st0;
                               RequestUrlClient.citedChapters :=
                                 RequestUrlClient.add_chapters
                                   (RequestUrlClient.citedChapters st0) items |}
                   | _ => pure st0
                   end).
  assert (forall st1, exists st', finish st1 = (Ok st', [])
                                  /\ RequestUrlClient.fullAnswer st'
                                     = RequestUrlClient.fullAnswer st1) as Hfinish.
  { intros st1. unfold finish. rewrite and_then_lift_ok. apply Hcited. }
  assert (forall c, chunk_by_priority parsed = Some c ->
            (exists e, and_then (RequestUrlClient.emitChunk st c) finish = (Throw e, [])
                       /\ Json.truthy c = true /\ Json.ToString c = None)
            \/ (exists st', and_then (RequestUrlClient.emitChunk st c) finish = (Ok st', [])
                            /\ RequestUrlClient.fullAnswer st' = RequestUrlClient.fullAnswer st
                            /\ c = JStr [])
            \/ (exists st' shown,
                  and_then (RequestUrlClient.emitChunk st c) finish = (Ok st', [Chunk c])
                  /\ Json.truthy c = true
                  /\ Json.ToString c = Some shown
                  /\ RequestUrlClient.fullAnswer st'
                     = RequestUrlClient.fullAnswer st ++ shown)) as Hemit.
  { intros c Hc. rewrite emitChunk_unfold.
    destruct (Json.truthy c) eqn:Htruthy.
    - destruct (Json.ToString c) as [shown|].
      + right. right. unfold and_then at 1.
        destruct (Hfinish {| RequestUrlClient.fullAnswer :=
                               RequestUrlClient.fullAnswer st ++ shown;
                             RequestUrlClient.citedChapters :=
                               RequestUrlClient.citedChapters st |})
          as (st' & -> & Hanswer).
        exists st', shown. auto.
      + left. eexists. repeat split; reflexivity.
    - right. left. unfold and_then at 1.
      destruct (Hfinish st) as (st' & -> & Hanswer). exists st'.
      repeat split; [assumption|]. eapply chunk_by_priority_falsy; eassumption. }
  unfold chunk_by_priority in *.
  destruct (if_truthy (field (lit "content") parsed)) as [c|];
    [|destruct (if_truthy (field (lit "answer") parsed)) as [c|];
      [|destruct (if_truthy (field (lit "delta") parsed)) as [c|];
        [|destruct (string_or_not parsed) as [[s ->]|Hstr]]]].
  1-4: destruct (Hemit _ eq_refl)
    as [(e & -> & Ht & Hs)|[(st' & -> & Ha & ->)|(st' & shown & -> & Ht & Hs & Ha)]];
    [left; exists e; split; [reflexivity|right; eauto]
    |right; left; exists st'; auto
    |right; right; exists st'; eauto 10].
  right. left.
  assert (match parsed with
          | JStr _ => RequestUrlClient.emitChunk st parsed
          | _ => pure st
          end = pure st
          /\ match parsed with JStr _ => Some parsed | _ => None end = None) as [-> ->].
  { destruct parsed; auto. exfalso. apply Hstr. eauto. }
  unfold and_then at 1, pure at 1.
  destruct (Hfinish st) as (st' & -> & Hanswer). exists st'. auto.
Qed.

End DataLineLater.

(** ** The [DONE] sentinel *)

Section Sentinel.
Context `{JsonHost}.
Import Client Observe.
Local Open Scope client_scope.

Lemma and_then_pure_l {A B} (a : A) (k : A -> Eff B) : and_then (pure a) k = k a.
Proof. unfold and_then, pure. destruct (k a). reflexivity. Qed.

Lemma fetch_process_lines_skip (line : jsstring) :
  (forall st, FetchClient.process_line st line = (Ok st, [])) ->
  forall before after st,
    FetchClient.process_lines st (before ++ line :: after)
    = FetchClient.process_lines st (before ++ after).
Proof.
  intros Hskip before after. induction before as [|l before IH]; intros st; simpl.
  - rewrite Hskip. apply (and_then_pure_l st).
  - destruct (FetchClient.process_line st l) as [[st'|e] ev]; [|reflexivity].
    unfold and_then. rewrite IH. reflexivity.
Qed.

Lemma later_process_lines_skip (rawLine : jsstring) :
  (forall st, RequestUrlClient.process_line st rawLine = (Ok st, [])) ->
  forall before after st,
    RequestUrlClient.process_lines st (before ++ rawLine :: after)
    = RequestUrlClient.process_lines st (before ++ after).
Proof.
  intros Hskip before after. induction before as [|l before IH]; intros st; simpl.
  - rewrite Hskip. apply (and_then_pure_l st).
  - destruct (RequestUrlClient.process_line st l) as [[st'|e] ev]; [|reflexivity].
    unfold and_then. rewrite IH. reflexivity.
Qed.

(** C3: a data line whose payload is [DONE] leaves the answer and the
    cited chapters as they are and calls [onChunk] not at all, in both
    revisions; the lines of a stream are processed as if the line were
    not there. *)
Theorem done_sentinel_is_silent :
  (forall (st : FetchClient.StreamState) (line : jsstring) (before after : list jsstring),
     startsWith line (lit "data: ") = true ->
     slice 6 line = lit "[DONE]" ->
     FetchClient.process_line st line = (Ok st, [])
     /\ FetchClient.process_lines st (before ++ line :: after)
        = FetchClient.process_lines st (before ++ after))
  /\ (forall (st : RequestUrlClient.StreamState) (rawLine : jsstring)
        (before after : list jsstring),
        startsWith (trim rawLine) (lit "data:") = true ->
        trim (slice 5 (trim rawLine)) = lit "[DONE]" ->
        RequestUrlClient.process_line st rawLine = (Ok st, [])
        /\ RequestUrlClient.process_lines st (before ++ rawLine :: after)
           = RequestUrlClient.process_lines st (before ++ after)).
Proof.
  split.
  - intros st line before after Hdata Hdone.
    assert (forall st, FetchClient.process_line st line = (Ok st, [])) as Hskip.
    { intros st0. unfold FetchClient.process_line. rewrite Hdata, Hdone. reflexivity. }
    split; [apply Hskip|]. apply fetch_process_lines_skip. assumption.
  - intros st rawLine before after Hdata Hdone.
    assert (forall st, RequestUrlClient.process_line st rawLine = (Ok st, [])) as Hskip.
    { intros st0. unfold RequestUrlClient.process_line. rewrite Hdata, Hdone. reflexivity. }
    split; [apply Hskip|]. apply later_process_lines_skip. assumption.
Qed.

End Sentinel.

Section SentinelExample.
Import Client Observe.
#[local] Existing Instances Sample.host Sample.json_host.

Lemma done_sentinel_is_silent_witness :
  let start := {| FetchClient.fullAnswer := []; FetchClient.citedChapters := [] |} in
  let start' := {| RequestUrlClient.fullAnswer := []; RequestUrlClient.citedChapters := [] |} in
  FetchClient.process_lines start (Sample.hello_lines ++ [lit "data: [DONE]"])
  = (Ok {| FetchClient.fullAnswer := lit "Hello"; FetchClient.citedChapters := [] |},
     [Chunk (JStr (lit "Hel")); Chunk (JStr (lit "lo"))])
  /\ RequestUrlClient.process_lines start' (Sample.hello_lines ++ [lit "  data:[DONE] "])
     = (Ok {| RequestUrlClient.fullAnswer := lit "Hello";
              RequestUrlClient.citedChapters := [] |},
        [Chunk (JStr (lit "Hel")); Chunk (JStr (lit "lo"))]).
Proof.
  intros start start'.
  destruct (@done_sentinel_is_silent Sample.host Sample.json_host) as [Hfetch Hlater].
  destruct (Hfetch start (lit "data: [DONE]") Sample.hello_lines [] eq_refl eq_refl) as [_ ->].
  destruct (Hlater start' (lit "  data:[DONE] ") Sample.hello_lines [] eq_refl eq_refl) as [_ ->].
  split; vm_compute; reflexivity.
Defined.

End SentinelExample.

(** ** What one line emits *)

Section LineChunks.
Context `{JsonHost}.
Import Client Observe.
Local Open Scope client_scope.

Lemma concat_chunks_one (c : json) (shown : jsstring) :
  Json.ToString c = Some shown -> concat_chunks [c] = shown.
Proof. intros Hs. unfold concat_chunks. simpl. rewrite Hs. apply app_nil_r. Qed.

(** Every line is processed to the end: the answer grows by the chunks
    of the line, of which there is at most one, and each has a text. *)
Lemma fetch_process_line_total (st : FetchClient.StreamState) (line : jsstring) :
  exists st' evs,
    FetchClient.process_line st line = (Ok st', evs)
    /\ FetchClient.fullAnswer st' = FetchClient.fullAnswer st ++ concat_chunks (chunks evs)
    /\ (length (chunks evs) <= 1)%nat
    /\ Forall (fun c => is_Some (Json.ToString c)) (chunks evs).
Proof.
  assert (forall evs, chunks evs = [] ->
            exists st' evs',
              (Ok st, evs) = (Ok st', evs')
              /\ FetchClient.fullAnswer st'
                 = FetchClient.fullAnswer st ++ concat_chunks (chunks evs')
              /\ (length (chunks evs') <= 1)%nat
              /\ Forall (fun c => is_Some (Json.ToString c)) (chunks evs')) as Hsilent.
  { intros evs Hnone. exists st, evs. rewrite Hnone, app_nil_r.
    repeat split; [simpl; lia|constructor]. }
  unfold FetchClient.process_line.
  destruct (startsWith line (lit "data: ")); [|apply (Hsilent []); reflexivity].
  destruct (Js.eqb (slice 6 line) (lit "[DONE]")); [apply (Hsilent []); reflexivity|].
  destruct (JSON_parse (slice 6 line)) as [parsed|] eqn:Hparse.
  - destruct (fetch_try_block_cases st _ _ Hparse)
      as [(e & -> & _)|[(st' & -> & Ha & _)|(st' & c & shown & -> & _ & Hs & Ha)]].
    + apply (Hsilent [Warned (lit "Failed to parse chunk:")]). reflexivity.
    + exists st', []. rewrite app_nil_r.
      repeat split; [assumption|simpl; lia|constructor].
    + exists st', [Chunk c]. change (chunks [Chunk c]) with [c].
      rewrite (concat_chunks_one _ _ Hs).
      repeat split; [assumption|simpl; lia|]. repeat constructor. rewrite Hs. eauto.
  - unfold FetchClient.try_block. rewrite Hparse.
    apply (Hsilent [Warned (lit "Failed to parse chunk:")]). reflexivity.
Qed.

Lemma later_emit_raw (st : RequestUrlClient.StreamState) (data : jsstring) :
  data <> [] ->
  RequestUrlClient.emitChunk st (JStr data)
  = (Ok {| RequestUrlClient.fullAnswer := RequestUrlClient.fullAnswer st ++ data;
           RequestUrlClient.citedChapters := RequestUrlClient.citedChapters st |},
     [Chunk (JStr data)]).
Proof.
  intros Hdata. rewrite emitChunk_unfold. cbn [Json.truthy Json.ToString].
  unfold Js.eqb. rewrite bool_decide_eq_false_2 by assumption. reflexivity.
Qed.

(** The same for the later revision, where moreover every chunk is
    truthy. *)
Lemma later_process_line_total (st : RequestUrlClient.StreamState) (rawLine : jsstring) :
  exists st' evs,
    RequestUrlClient.process_line st rawLine = (Ok st', evs)
    /\ RequestUrlClient.fullAnswer st'
       = RequestUrlClient.fullAnswer st ++ concat_chunks (chunks evs)
    /\ (length (chunks evs) <= 1)%nat
    /\ Forall (fun c => Json.truthy c = true /\ is_Some (Json.ToString c)) (chunks evs).
Proof.
  assert (exists st' evs',
            (Ok st, @nil effect) = (Ok st', evs')
            /\ RequestUrlClient.fullAnswer st'
               = RequestUrlClient.fullAnswer st ++ concat_chunks (chunks evs')
            /\ (length (chunks evs') <= 1)%nat
            /\ Forall (fun c => Json.truthy c = true /\ is_Some (Json.ToString c))
                 (chunks evs')) as Hsilent.
  { exists st, []. rewrite app_nil_r. repeat split; [simpl; lia|constructor]. }
  unfold RequestUrlClient.process_line.
  destruct (startsWith (trim rawLine) (lit "data:")); [|exact Hsilent].
  cbn [negb].
  destruct (Js.eqb (trim (slice 5 (trim rawLine))) []) eqn:Hempty; [exact Hsilent|].
  destruct (Js.eqb (trim (slice 5 (trim rawLine))) (lit "[DONE]")); [exact Hsilent|].
  cbn [orb].
  apply bool_decide_eq_false_1 in Hempty.
  assert (Json.truthy (JStr (trim (slice 5 (trim rawLine)))) = true) as Hraw.
  { simpl. unfold Js.eqb. rewrite bool_decide_eq_false_2 by assumption. reflexivity. }
  assert (exists st' evs,
            catch (raise (A := RequestUrlClient.StreamState)
                     (SyntaxError (JSON_parse_error (trim (slice 5 (trim rawLine))))))
              (fun _ =>
                 run perform (Warned (lit "Failed to parse chat stream chunk:")) then
                 RequestUrlClient.emitChunk st (JStr (trim (slice 5 (trim rawLine)))))
            = (Ok st', evs)
            /\ RequestUrlClient.fullAnswer st'
               = RequestUrlClient.fullAnswer st ++ concat_chunks (chunks evs)
            /\ (length (chunks evs) <= 1)%nat
            /\ Forall (fun c => Json.truthy c = true /\ is_Some (Json.ToString c))
                 (chunks evs)) as Hfallback.
  { unfold catch, raise. rewrite and_then_perform, (later_emit_raw _ _ Hempty).
    eexists _, _. split; [reflexivity|]. cbn [snd fst app].
    change (chunks (Warned (lit "Failed to parse chat stream chunk:")
                    :: [Chunk (JStr (trim (slice 5 (trim rawLine))))]))
      with [JStr (trim (slice 5 (trim rawLine)))].
    rewrite (concat_chunks_one (JStr _) _ eq_refl).
    repeat split; [simpl; lia|]. repeat constructor; [assumption|]. simpl. eauto. }
  destruct (JSON_parse (trim (slice 5 (trim rawLine)))) as [parsed|] eqn:Hparse.
  - destruct (later_try_block_cases st _ _ Hparse)
      as [(e & -> & _)|[(st' & -> & Ha & _)|(st' & c & shown & -> & _ & Ht & Hs & Ha)]].
    + exact Hfallback.
    + exists st', []. rewrite app_nil_r. repeat split; [assumption|simpl; lia|constructor].
    + exists st', [Chunk c]. change (chunks [Chunk c]) with [c].
      rewrite (concat_chunks_one _ _ Hs).
      repeat split; [assumption|simpl; lia|].
      repeat constructor; [assumption|]. rewrite Hs. eauto.
  - unfold RequestUrlClient.try_block. rewrite Hparse. exact Hfallback.
Qed.

End LineChunks.

Section Priority.
Context `{JsonHost}.
Import Client Observe.
Local Open Scope client_scope.

(** X30: for a data line whose payload parses, in both revisions, the
    line calls [onChunk] at most once, whatever fields the payload has; and
    when the priority order [content], [answer], [delta], bare string
    names a chunk (a field counting when it is truthy) that has a text,
    the one call passes that chunk and the answer grows by its text.  In
    the later revision a bare empty string is no chunk. *)
Theorem one_chunk_by_priority :
  (forall (st : FetchClient.StreamState) (line : jsstring) (parsed : json),
     startsWith line (lit "data: ") = true ->
     slice 6 line <> lit "[DONE]" ->
     JSON_parse (slice 6 line) = Some parsed ->
     (length (chunks (snd (FetchClient.process_line st line))) <= 1)%nat
     /\ forall c shown,
          chunk_by_priority parsed = Some c ->
          Json.ToString c = Some shown ->
          exists st',
            FetchClient.process_line st line = (Ok st', [Chunk c])
            /\ FetchClient.fullAnswer st' = FetchClient.fullAnswer st ++ shown)
  /\ (forall (st : RequestUrlClient.StreamState) (rawLine : jsstring) (parsed : json),
        startsWith (trim rawLine) (lit "data:") = true ->
        trim (slice 5 (trim rawLine)) <> [] ->
        trim (slice 5 (trim rawLine)) <> lit "[DONE]" ->
        JSON_parse (trim (slice 5 (trim rawLine))) = Some parsed ->
        (length (chunks (snd (RequestUrlClient.process_line st rawLine))) <= 1)%nat
        /\ forall c shown,
             chunk_by_priority parsed = Some c ->
             c <> JStr [] ->
             Json.ToString c = Some shown ->
             exists st',
               RequestUrlClient.process_line st rawLine = (Ok st', [Chunk c])
               /\ RequestUrlClient.fullAnswer st' = RequestUrlClient.fullAnswer st ++ shown).
Proof.
  split.
  - intros st line parsed Hdata Hdone Hparse. split.
    + destruct (fetch_process_line_total st line) as (st' & evs & -> & _ & Hlen & _).
      exact Hlen.
    + intros c shown Hc Hs. unfold FetchClient.process_line. rewrite Hdata.
      unfold Js.eqb. rewrite bool_decide_eq_false_2 by assumption.
      destruct (fetch_try_block_cases st _ _ Hparse)
        as [(e & _ & [->|(c' & Hc' & Hs')])
           |[(st' & _ & _ & Hnone)|(st' & c' & shown' & -> & Hc' & Hs' & Ha)]];
        try congruence.
      * discriminate.
      * assert (c' = c) as -> by congruence. assert (shown' = shown) as -> by congruence.
        exists st'. auto.
  - intros st rawLine parsed Hdata Hempty Hdone Hparse. split.
    + destruct (later_process_line_total st rawLine) as (st' & evs & -> & _ & Hlen & _).
      exact Hlen.
    + intros c shown Hc Hne Hs. unfold RequestUrlClient.process_line. rewrite Hdata.
      unfold Js.eqb. rewrite !bool_decide_eq_false_2 by assumption. cbn [negb orb].
      destruct (later_try_block_cases st _ _ Hparse)
        as [(e & _ & [->|(c' & Hc' & _ & Hs')])
           |[(st' & _ & _ & [Hnone|Hnone])
            |(st' & c' & shown' & -> & Hc' & _ & Hs' & Ha)]];
        try congruence.
      * discriminate.
      * assert (c' = c) as -> by congruence. assert (shown' = shown) as -> by congruence.
        exists st'. auto.
Qed.

End Priority.

Section PriorityExamples.
Import Client Observe.
#[local] Existing Instances Sample.host Sample.json_host.

Example one_chunk_by_priority_on_two_fields :
  let line := lit "data: {" ++ quote ++ lit "content" ++ quote ++ lit ":" ++ quote ++ lit "a"
              ++ quote ++ lit "," ++ quote ++ lit "answer" ++ quote ++ lit ":" ++ quote
              ++ lit "b" ++ quote ++ lit "}" in
  chunks (snd (FetchClient.process_line
                 {| FetchClient.fullAnswer := []; FetchClient.citedChapters := [] |} line))
  = [JStr (lit "a")]
  /\ chunks (snd (RequestUrlClient.process_line
                    {| RequestUrlClient.fullAnswer := [];
                       RequestUrlClient.citedChapters := [] |} line))
     = [JStr (lit "a")].
Proof.
  intros line.
  destruct (@one_chunk_by_priority Sample.host Sample.json_host) as [Hfetch Hlater].
  split.
  - destruct (Hfetch {| FetchClient.fullAnswer := []; FetchClient.citedChapters := [] |}
                line (JObj [(lit "content", JStr (lit "a")); (lit "answer", JStr (lit "b"))])
                eq_refl ltac:(vm_compute; discriminate) eq_refl) as [_ Hchunk].
    destruct (Hchunk (JStr (lit "a")) (lit "a") eq_refl eq_refl) as (st' & -> & _).
    reflexivity.
  - destruct (Hlater {| RequestUrlClient.fullAnswer := [];
                        RequestUrlClient.citedChapters := [] |}
                line (JObj [(lit "content", JStr (lit "a")); (lit "answer", JStr (lit "b"))])
                eq_refl ltac:(vm_compute; discriminate) ltac:(vm_compute; discriminate)
                eq_refl) as [_ Hchunk].
    destruct (Hchunk (JStr (lit "a")) (lit "a") eq_refl ltac:(vm_compute; discriminate)
                eq_refl) as (st' & -> & _).
    reflexivity.
Defined.

(** C4 fails on the later revision: the payload [null] parses and the
    priority order names no chunk for it, yet the line calls [onChunk],
    with the raw text of the payload: reading [content] of [null] throws
    inside the [try] block, and the [catch] written for payloads that do
    not parse emits the payload.  The revision reading from [fetch] only
    warns. *)
Lemma later_emits_raw_null :
  let st := {| RequestUrlClient.fullAnswer := lit "Hel";
               RequestUrlClient.citedChapters := [] |} in
  let st' := {| FetchClient.fullAnswer := lit "Hel"; FetchClient.citedChapters := [] |} in
  JSON_parse (lit "null") = Some JNull
  /\ chunk_by_priority JNull = None
  /\ RequestUrlClient.process_line st (lit "data: null")
     = (Ok {| RequestUrlClient.fullAnswer := lit "Helnull";
              RequestUrlClient.citedChapters := [] |},
        [Warned (lit "Failed to parse chat stream chunk:"); Chunk (JStr (lit "null"))])
  /\ FetchClient.process_line st' (lit "data: null")
     = (Ok st', [Warned (lit "Failed to parse chunk:")]).
Proof. vm_compute. repeat split. Qed.

(** C9 fails on the revision reading from [fetch]: the bare empty
    string is a payload that parses, no field of it is truthy, and the
    branch for a bare string calls [onChunk] with it. *)
Lemma fetch_emits_empty_chunk :
  let st := {| FetchClient.fullAnswer := lit "Hel"; FetchClient.citedChapters := [] |} in
  FetchClient.process_line st (lit "data: " ++ quote ++ quote)
  = (Ok st, [Chunk (JStr [])]).
Proof. vm_compute. reflexivity. Qed.

End PriorityExamples.

(** ** The whole stream *)

Section Stream.
Context `{JsonHost}.
Import Client Observe.
Local Open Scope client_scope.


Lemma and_then_ok_inv {A B} (m : Eff A) (k : A -> Eff B) (r : B) (evs : list effect) :
  and_then m k = (Ok r, evs) ->
  exists a ev1 ev2, m = (Ok a, ev1) /\ k a = (Ok r, ev2) /\ evs = ev1 ++ ev2.
Proof.
  unfold and_then. destruct m as [[a|e] ev1]; [|discriminate].
  destruct (k a) as [r' ev2] eqn:Hk. intros Heq. inversion Heq; subst.
  exists a, ev1, ev2. auto.
Qed.

Lemma catch_rethrow_ok_inv {A} (m : Eff A) (wrap : exn -> exn) (r : A) (evs : list effect) :
  catch m (fun error => raise (wrap error)) = (Ok r, evs) -> m = (Ok r, evs).
Proof. unfold catch. destruct m as [[a|e] ev1]; [auto|discriminate]. Qed.

(** [request] calls no [onChunk]. *)
Lemma request_no_chunks (this : BookriseClient) (endpoint : jsstring)
    (options : RequestOptions) :
  chunks (snd (request this endpoint options)) = [].
Proof.
  destruct (requestUrlFn this (request_param this endpoint options)) as [response|e]
    eqn:Hresponse.
  - rewrite (request_enter _ _ _ _ Hresponse). cbn [snd].
    change (chunks (Requested (request_param this endpoint options)
                    :: snd (request_continue this endpoint response)))
      with (chunks (snd (request_continue this endpoint response))).
    unfold request_continue.
    destruct (negb (in_2xx (status response))).
    + assert (exists errorBody,
                catch
                  match JSON_parse (text response) with
                  | Some parsedError =>
                      let* detail := lift (Json.get (lit "detail") parsedError) in
                      match detail with
                      | Some d =>
                          if Json.truthy d then pure d else pure (JStr (text response))
                      | None => pure (JStr (text response))
                      end
                  | None => raise (SyntaxError (JSON_parse_error (text response)))
                  end (fun _ => pure (JStr (text response)))
                = pure errorBody) as [errorBody ->].
      { destruct (JSON_parse (text response)) as [parsedError|]; [|eexists; reflexivity].
        destruct (Json.get (lit "detail") parsedError) as [[d|]|e'];
          rewrite ?and_then_lift_ok; [destruct (Json.truthy d)| |]; eexists; reflexivity. }
      rewrite and_then_pure_l. unfold interpolate.
      destruct (Json.ToString errorBody); reflexivity.
    + destruct (Js.eqb (text response) [] && negb (status response =? 204)%nat);
        [reflexivity|].
      destruct (status response =? 204)%nat; [reflexivity|].
      destruct (JSON_parse (text response)); reflexivity.
  - rewrite (request_fails _ _ _ _ Hresponse). reflexivity.
Qed.

Lemma fetch_process_lines_total (lines : list jsstring) (st : FetchClient.StreamState) :
  exists st' evs,
    FetchClient.process_lines st lines = (Ok st', evs)
    /\ FetchClient.fullAnswer st' = FetchClient.fullAnswer st ++ concat_chunks (chunks evs)
    /\ Forall (fun c => is_Some (Json.ToString c)) (chunks evs).
Proof.
  revert st. induction lines as [|line lines IH]; intros st.
  - exists st, []. rewrite app_nil_r. repeat split. constructor.
  - cbn [FetchClient.process_lines].
    destruct (fetch_process_line_total st line) as (st1 & ev1 & -> & Ha1 & _ & Hs1).
    destruct (IH st1) as (st2 & ev2 & Hrest & Ha2 & Hs2).
    exists st2, (ev1 ++ ev2). unfold and_then. rewrite Hrest. split; [reflexivity|].
    rewrite Ha2, Ha1, chunks_app, concat_chunks_app, app_assoc.
    split; [reflexivity|]. apply Forall_app. auto.
Qed.

Lemma fetch_read_loop_total (reads : list jsstring) (st : FetchClient.StreamState) :
  exists st' evs,
    FetchClient.read_loop st reads = (Ok st', evs)
    /\ FetchClient.fullAnswer st' = FetchClient.fullAnswer st ++ concat_chunks (chunks evs)
    /\ Forall (fun c => is_Some (Json.ToString c)) (chunks evs).
Proof.
  revert st. induction reads as [|chunk reads IH]; intros st.
  - exists st, []. rewrite app_nil_r. repeat split. constructor.
  - cbn [FetchClient.read_loop].
    destruct (fetch_process_lines_total (split 10 chunk) st)
      as (st1 & ev1 & -> & Ha1 & Hs1).
    destruct (IH st1) as (st2 & ev2 & Hrest & Ha2 & Hs2).
    exists st2, (ev1 ++ ev2). unfold and_then. rewrite Hrest. split; [reflexivity|].
    rewrite Ha2, Ha1, chunks_app, concat_chunks_app, app_assoc.
    split; [reflexivity|]. apply Forall_app. auto.
Qed.

Lemma later_process_lines_total (lines : list jsstring) (st : RequestUrlClient.StreamState) :
  exists st' evs,
    RequestUrlClient.process_lines st lines = (Ok st', evs)
    /\ RequestUrlClient.fullAnswer st'
       = RequestUrlClient.fullAnswer st ++ concat_chunks (chunks evs)
    /\ Forall (fun c => Json.truthy c = true /\ is_Some (Json.ToString c)) (chunks evs).
Proof.
  revert st. induction lines as [|line lines IH]; intros st.
  - exists st, []. rewrite app_nil_r. repeat split. constructor.
  - cbn [RequestUrlClient.process_lines].
    destruct (later_process_line_total st line) as (st1 & ev1 & -> & Ha1 & _ & Ht1).
    destruct (IH st1) as (st2 & ev2 & Hrest & Ha2 & Ht2).
    exists st2, (ev1 ++ ev2). unfold and_then. rewrite Hrest. split; [reflexivity|].
    rewrite Ha2, Ha1, chunks_app, concat_chunks_app, app_assoc.
    split; [reflexivity|]. apply Forall_app. auto.
Qed.

Lemma answer_of_ChatResponse (answer : jsstring) (ids chapters : list json) :
  Json.get (lit "answer") (ChatResponse answer ids chapters) = Ok (Some (JStr answer)).
Proof. reflexivity. Qed.

End Stream.

Section Answer.
Context `{JsonHost}.
Import Client Observe.
Local Open Scope client_scope.

(** What [chat] shows before the stream is read holds no chunk. *)
Lemma listBooks_no_chunks (this : BookriseClient) (books : option json) (evs : list effect) :
  listBooks this = (Ok books, evs) -> chunks evs = [].
Proof.
  intros Hbooks. pose proof (request_no_chunks this (lit "/api/books") no_options) as Hno.
  unfold listBooks in Hbooks. rewrite Hbooks in Hno. exact Hno.
Qed.

(** C5: when a streamed [chat] returns, the stream having been read to
    its end, the [answer] of the response is the concatenation, in the
    order of the calls, of the chunks passed to [onChunk], each of which
    has a text (what [+=] appends of it, the chunk itself when it is a
    string), in both revisions. *)
Theorem answer_is_concatenation :
  (forall (this : BookriseClient) (bookId prompt : jsstring)
     (contextIds : option (list jsstring)) (response : json) (effects : list effect),
     FetchClient.chat this bookId prompt contextIds true = (Ok response, effects) ->
     Json.get (lit "answer") response
     = Ok (Some (JStr (concat_chunks (chunks effects))))
     /\ Forall (fun c => is_Some (Json.ToString c)) (chunks effects))
  /\ (forall (this : BookriseClient) (bookId prompt : jsstring)
        (contextIds : option (list jsstring)) (response : json) (effects : list effect),
        RequestUrlClient.chat this bookId prompt contextIds true = (Ok response, effects) ->
        Json.get (lit "answer") response
        = Ok (Some (JStr (concat_chunks (chunks effects))))
        /\ Forall (fun c => is_Some (Json.ToString c)) (chunks effects)).
Proof.
  split.
  - intros this bookId prompt contextIds response effects Hchat.
    unfold FetchClient.chat, FetchClient.chat_try in Hchat.
    destruct (Js.eqb bookId [] || Js.eqb prompt []); [discriminate|].
    apply and_then_ok_inv in Hchat as (books & ev0 & ev1 & Hbooks & Hchat & ->).
    apply and_then_ok_inv in Hchat as (book & ev2 & ev3 & Hbook & Hchat & ->).
    unfold lift in Hbook. inversion Hbook; subst ev2. clear Hbook.
    destruct (if_truthy book); [|discriminate].
    apply catch_rethrow_ok_inv in Hchat.
    rewrite and_then_perform in Hchat.
    destruct (fetch this (stream_request this (chat_body bookId prompt contextIds)))
      as [fetched|e]; [|discriminate].
    rewrite and_then_lift_ok in Hchat.
    destruct (negb (in_2xx (fetch_status fetched))); [discriminate|].
    destruct (fetch_body fetched) as [[reads ending]|]; [|discriminate].
    destruct (fetch_read_loop_total reads
                {| FetchClient.fullAnswer := []; FetchClient.citedChapters := [] |})
      as (st' & evs & Hloop & Hanswer & Htexts).
    rewrite Hloop in Hchat. unfold and_then in Hchat.
    destruct ending; [|discriminate].
    cbn in Hchat. inversion Hchat; subst. clear Hchat.
    rewrite answer_of_ChatResponse, Hanswer.
    rewrite !chunks_app, (listBooks_no_chunks _ _ _ Hbooks).
    change (chunks (Fetched (stream_request this (chat_body bookId prompt contextIds))
                    :: evs ++ []))
      with (chunks (evs ++ [])).
    rewrite app_nil_r. split; [reflexivity|exact Htexts].
  - intros this bookId prompt contextIds response effects Hchat.
    unfold RequestUrlClient.chat, RequestUrlClient.chat_try in Hchat.
    destruct (Js.eqb bookId [] || Js.eqb prompt []); [discriminate|].
    apply and_then_ok_inv in Hchat as (books & ev0 & ev1 & Hbooks & Hchat & ->).
    apply and_then_ok_inv in Hchat as (book & ev2 & ev3 & Hbook & Hchat & ->).
    unfold lift in Hbook. inversion Hbook; subst ev2. clear Hbook.
    destruct (if_truthy book); [|discriminate].
    apply catch_rethrow_ok_inv in Hchat.
    rewrite and_then_perform in Hchat.
    destruct (requestUrlFn this (stream_request this (chat_body bookId prompt contextIds)))
      as [received|e]; [|discriminate].
    rewrite and_then_lift_ok in Hchat.
    destruct (negb (in_2xx (status received))); [discriminate|].
    destruct (Js.eqb (text received) []); [discriminate|].
    destruct (later_process_lines_total (split_lines (text received))
                {| RequestUrlClient.fullAnswer := [];
                   RequestUrlClient.citedChapters := [] |})
      as (st' & evs & Hloop & Hanswer & Htexts).
    rewrite Hloop in Hchat. unfold and_then in Hchat.
    cbn in Hchat. inversion Hchat; subst. clear Hchat.
    rewrite answer_of_ChatResponse, Hanswer.
    rewrite !chunks_app, (listBooks_no_chunks _ _ _ Hbooks).
    change (chunks (Requested (stream_request this (chat_body bookId prompt contextIds))
                    :: evs ++ []))
      with (chunks (evs ++ [])).
    rewrite app_nil_r. split; [reflexivity|].
    eapply Forall_impl; [exact Htexts|]. intros c [_ Hc]. exact Hc.
Qed.

End Answer.

Section AnswerExamples.
Import Client Observe.
#[local] Existing Instances Sample.host Sample.json_host.

Lemma answer_is_concatenation_witness :
  let fetched := FetchClient.chat Sample.streaming (lit "b1") (lit "hello") None true in
  let received := RequestUrlClient.chat Sample.streaming (lit "b1") (lit "hello") None true in
  (fst fetched = Ok (ChatResponse (lit "Hello") [] [])
   /\ chunks (snd fetched) = [JStr (lit "Hel"); JStr (lit "lo")])
  /\ (fst received = Ok (ChatResponse (lit "Hello") [] [])
      /\ chunks (snd received) = [JStr (lit "Hel"); JStr (lit "lo")]).
Proof.
  intros fetched received.
  destruct (@answer_is_concatenation Sample.host Sample.json_host) as [Hfetch Hlater].
  assert (fetched = (Ok (ChatResponse (lit "Hello") [] []), snd fetched)) as Hf
      by (vm_compute; reflexivity).
  assert (received = (Ok (ChatResponse (lit "Hello") [] []), snd received)) as Hr
      by (vm_compute; reflexivity).
  pose proof (Hfetch Sample.streaming (lit "b1") (lit "hello") None _ _ Hf) as [Hanswer _].
  pose proof (Hlater Sample.streaming (lit "b1") (lit "hello") None _ _ Hr) as [Hanswer' _].
  split; split; vm_compute; reflexivity.
Defined.

End AnswerExamples.

(** ** The chunks of the later revision *)

Section Truthy.
Context `{JsonHost}.
Import Client Observe.

(** X29: behind the guard of [emitChunk], every chunk the lines of a
    stream pass to [onChunk] in the later revision is truthy, and so not
    the empty string. *)
Lemma later_chunks_are_truthy (st : RequestUrlClient.StreamState) (lines : list jsstring) :
  Forall (fun c => Json.truthy c = true /\ c <> JStr [])
    (chunks (snd (RequestUrlClient.process_lines st lines))).
Proof.
  destruct (later_process_lines_total lines st) as (st' & evs & -> & _ & Htruthy).
  cbn [snd]. eapply Forall_impl; [exact Htruthy|].
  intros c [Hc _]. split; [assumption|]. intros ->. discriminate.
Qed.

End Truthy.

(** * Further properties *)

(** ** What the vault operations keep *)

Section VaultEntries.
Import Sync Script.

Lemma startsWith_app (s t p : jsstring) :
  startsWith s p = true -> startsWith (s ++ t) p = true.
Proof.
  revert s. induction p as [|a p IH]; intros s; [intros _; destruct s; [destruct t|]; reflexivity|].
  destruct s as [|b s]; simpl; [discriminate|].
  intros Hs. apply andb_true_iff in Hs as [Hab Hs].
  rewrite Hab. simpl. apply IH, Hs.
Qed.

Lemma includes_app (s t p : jsstring) :
  includes s p = true -> includes (s ++ t) p = true.
Proof.
  induction s as [|c s IH].
  - destruct p; [intros _; destruct t; reflexivity|discriminate].
  - change (startsWith (c :: s) p || includes s p = true
            -> startsWith ((c :: s) ++ t) p || includes (s ++ t) p = true).
    intros Hs. apply orb_true_iff in Hs as [Hs|Hs].
    + rewrite (startsWith_app _ _ _ Hs). reflexivity.
    + rewrite (IH Hs). apply orb_true_r.
Qed.

(** X1: [ensureFolderExists] changes no entry that is there: it touches
    only its own path, and only when nothing is at it; when it returns
    without a notice a folder is at the path; and a second call on the
    vault it left ends as the first did and changes nothing. *)
Theorem ensureFolderExists_keeps_entries (path : jsstring) (v v1 : vault)
    (r : outcome unit) (evs : list event) :
  ensureFolderExists path v = (r, v1, evs) ->
  (forall q, q <> path -> v1 !! q = v !! q)
  /\ (forall e, v !! path = Some e -> v1 !! path = Some e)
  /\ (r = Ok tt -> evs = [] -> v1 !! path = Some TFolder)
  /\ ensureFolderExists path v1 = (r, v1, evs).
Proof.
  rewrite ensureFolderExists_unfold.
  destruct (v !! path) as [[c|]|] eqn:Hp.
  - destruct (includes (not_a_folder path) (lit "Folder already exists")) eqn:Hi;
      intros [= <- <- <-];
      (split; [reflexivity|]; split; [intros e He; congruence|]; split; [discriminate|]);
      rewrite ensureFolderExists_unfold, Hp, Hi; reflexivity.
  - intros [= <- <- <-].
    split; [reflexivity|]. split; [intros e He; congruence|]. split; [intros _ _; exact Hp|].
    rewrite ensureFolderExists_unfold, Hp. reflexivity.
  - intros [= <- <- <-].
    split; [intros q Hq; apply lookup_insert_ne; congruence|].
    split; [discriminate|]. split; [intros _ _; apply lookup_insert_eq|].
    rewrite ensureFolderExists_unfold, lookup_insert_eq. reflexivity.
Qed.

Lemma ensureFolderExists_keeps_entries_witness :
  ensureFolderExists (lit "BookRise") (<[lit "BookRise" := TFolder]> ∅)
  = (Ok tt, <[lit "BookRise" := TFolder]> ∅, []).
Proof.
  destruct (ensureFolderExists_keeps_entries (lit "BookRise") ∅
              (<[lit "BookRise" := TFolder]> ∅) (Ok tt) [])
    as (_ & _ & _ & Hagain); [vm_compute; reflexivity|].
  exact Hagain.
Defined.

(** X2: a file in the way of a folder is never replaced: the vault stays
    as it is and the notice is shown.  The error is thrown only when its
    message does not hold the words Folder already exists; for a path
    that holds them the call returns as if the folder were there. *)
Theorem ensureFolderExists_file_in_the_way (path content : jsstring) (v : vault) :
  v !! path = Some (TFile content) ->
  let message := path ++ lit " exists but is a file, not a folder." in
  (includes message (lit "Folder already exists") = false ->
   ensureFolderExists path v
   = (Throw (Error message), v, [Notice (lit "Error: " ++ message)]))
  /\ (includes path (lit "Folder already exists") = true ->
      ensureFolderExists path v = (Ok tt, v, [Notice (lit "Error: " ++ message)])).
Proof.
  intros Hp message. rewrite ensureFolderExists_unfold, Hp.
  fold message. change (not_a_folder path) with message.
  split; intros Hi.
  - rewrite Hi. reflexivity.
  - unfold message at 1. rewrite (includes_app _ _ _ Hi). reflexivity.
Qed.

Lemma ensureFolderExists_file_in_the_way_witness :
  let path := lit "Notes/Folder already exists" in
  ensureFolderExists path (<[path := TFile (lit "text")]> ∅)
  = (Ok tt, <[path := TFile (lit "text")]> ∅,
     [Notice (lit "Error: Notes/Folder already exists exists but is a file, not a folder.")]).
Proof.
  intros path.
  destruct (ensureFolderExists_file_in_the_way path (lit "text")
              (<[path := TFile (lit "text")]> ∅)) as [_ Hreturns];
    [apply lookup_insert_eq|].
  apply Hreturns. vm_compute. reflexivity.
Defined.

(** X3: when [createOrUpdateFile] returns, the path holds a file with
    exactly the content given, no other path changed, and one write is
    logged; no folder was at the path; and a later call with other
    content replaces the content, as if the first call had not been. *)
Theorem createOrUpdateFile_last_write_wins (path c1 c2 : jsstring) (v v1 : vault)
    (evs : list event) :
  createOrUpdateFile path c1 v = (Ok tt, v1, evs) ->
  v !! path <> Some TFolder
  /\ v1 !! path = Some (TFile c1)
  /\ (forall q, q <> path -> v1 !! q = v !! q)
  /\ evs = [Wrote path c1]
  /\ createOrUpdateFile path c2 v1 = (Ok tt, <[path := TFile c2]> v, [Wrote path c2]).
Proof.
  rewrite createOrUpdateFile_unfold.
  assert (forall w : vault,
            createOrUpdateFile path c2 (<[path := TFile c1]> w)
            = (Ok tt, <[path := TFile c2]> w, [Wrote path c2])) as Hnext.
  { intros w. rewrite createOrUpdateFile_unfold, lookup_insert_eq, insert_insert_eq.
    reflexivity. }
  destruct (v !! path) as [[c|]|] eqn:Hp; [| discriminate |];
    intros [= <- <-];
    (split; [congruence|]; split; [apply lookup_insert_eq|];
     split; [intros q Hq; apply lookup_insert_ne; congruence|];
     split; [reflexivity|apply Hnext]).
Qed.

Lemma createOrUpdateFile_last_write_wins_witness :
  createOrUpdateFile (lit "B.md") (lit "new") (<[lit "B.md" := TFile (lit "old")]> ∅)
  = (Ok tt, <[lit "B.md" := TFile (lit "new")]> ∅, [Wrote (lit "B.md") (lit "new")]).
Proof.
  destruct (createOrUpdateFile_last_write_wins (lit "B.md") (lit "old") (lit "new") ∅
              (<[lit "B.md" := TFile (lit "old")]> ∅) [Wrote (lit "B.md") (lit "old")])
    as (_ & _ & _ & _ & Hnext); [vm_compute; reflexivity|].
  exact Hnext.
Defined.

End VaultEntries.

(** ** What a sync of one book keeps and what it writes *)

Section SyncEntries.
Context `{JsHost}.
Import Sync Script Trace.

Lemma step_keeps (o : op) (v v1 : vault) (r : outcome unit) (evs : list event)
    (q : jsstring) (e : entry) :
  step o v = (r, v1, evs) -> v !! q = Some e ->
  exists e', v1 !! q = Some e' /\ same_kind e e'
             /\ (q ∉ map fst (writes evs) -> e' = e).
Proof.
  intros Hstep Hq.
  assert (forall w : vault, w = v -> exists e', w !! q = Some e' /\ same_kind e e'
                                     /\ (q ∉ map fst (writes evs) -> e' = e)) as Hsame.
  { intros w ->. exists e. split; [exact Hq|]. split; [apply same_kind_refl|reflexivity]. }
  destruct o as [p|p c]; simpl in Hstep.
  - rewrite ensureFolderExists_unfold in Hstep.
    destruct (v !! p) as [[c|]|] eqn:Hp.
    + destruct (includes _ _); injection Hstep as <- <- <-; apply Hsame; reflexivity.
    + injection Hstep as <- <- <-. apply Hsame; reflexivity.
    + injection Hstep as <- <- <-. exists e.
      rewrite lookup_insert_ne by congruence.
      split; [exact Hq|]. split; [apply same_kind_refl|reflexivity].
  - rewrite createOrUpdateFile_unfold in Hstep.
    assert (forall w : vault, w = <[p := TFile c]> v -> evs = [Wrote p c] ->
              (q = p -> exists c0, e = TFile c0) ->
              exists e', w !! q = Some e' /\ same_kind e e'
                         /\ (q ∉ map fst (writes evs) -> e' = e)) as Hwrite.
    { intros w -> -> Hfile. destruct (decide (q = p)) as [->|Hne].
      - destruct (Hfile eq_refl) as [c0 ->]. exists (TFile c).
        rewrite lookup_insert_eq. split; [reflexivity|]. split; [exact I|].
        intros Hnot. exfalso. apply Hnot. simpl. apply list_elem_of_here.
      - exists e. rewrite lookup_insert_ne by congruence.
        split; [exact Hq|]. split; [apply same_kind_refl|reflexivity]. }
    destruct (v !! p) as [[c0|]|] eqn:Hp.
    + injection Hstep as <- <- <-. apply Hwrite; [reflexivity..|].
      intros ->. exists c0. congruence.
    + injection Hstep as <- <- <-. apply Hsame; reflexivity.
    + injection Hstep as <- <- <-. apply Hwrite; [reflexivity..|].
      intros ->. congruence.
Qed.

Lemma exec_keeps (ops : list op) :
  forall (v v1 : vault) (r : outcome unit) (evs : list event) (q : jsstring) (e : entry),
    exec ops v = (r, v1, evs) -> v !! q = Some e ->
    exists e', v1 !! q = Some e' /\ same_kind e e'
               /\ (q ∉ map fst (writes evs) -> e' = e).
Proof.
  induction ops as [|o ops IH]; intros v v1 r evs q e.
  - intros [= <- <- <-] Hq. exists e.
    split; [exact Hq|]. split; [apply same_kind_refl|reflexivity].
  - cbn [exec]. unfold bind.
    destruct (step o v) as [[[[]|e0] v'] ev1] eqn:Hs.
    + destruct (exec ops v') as [[r2 v2] ev2] eqn:He. intros [= <- <- <-] Hq.
      destruct (step_keeps _ _ _ _ _ _ _ Hs Hq) as (e1 & H1 & K1 & W1).
      destruct (IH _ _ _ _ _ _ He H1) as (e2 & H2 & K2 & W2).
      exists e2. split; [exact H2|]. split; [eapply same_kind_trans; eassumption|].
      intros Hnot. rewrite writes_app, map_app in Hnot.
      apply not_elem_of_app in Hnot as [Hn1 Hn2].
      rewrite (W2 Hn2). apply W1, Hn1.
    + intros [= <- <- <-] Hq. exact (step_keeps _ _ _ _ _ _ _ Hs Hq).
Qed.

Lemma step_touches (o : op) (v v1 : vault) (r : outcome unit) (evs : list event)
    (q : jsstring) :
  step o v = (r, v1, evs) -> q ∉ paths [o] -> v1 !! q = v !! q.
Proof.
  intros Hstep Hq.
  assert (q <> match o with EnsureFolder p | WriteFile p _ => p end) as Hne.
  { intros ->. apply Hq. apply list_elem_of_here. }
  destruct o as [p|p c]; simpl in Hstep.
  - rewrite ensureFolderExists_unfold in Hstep.
    destruct (v !! p) as [[c|]|]; [destruct (includes _ _)| |];
      injection Hstep as <- <- <-; try reflexivity.
    apply lookup_insert_ne. congruence.
  - rewrite createOrUpdateFile_unfold in Hstep.
    destruct (v !! p) as [[c0|]|]; injection Hstep as <- <- <-; try reflexivity;
      apply lookup_insert_ne; congruence.
Qed.

Lemma exec_touches (ops : list op) :
  forall (v v1 : vault) (r : outcome unit) (evs : list event) (q : jsstring),
    exec ops v = (r, v1, evs) -> q ∉ paths ops -> v1 !! q = v !! q.
Proof.
  induction ops as [|o ops IH]; intros v v1 r evs q.
  - intros [= <- <- <-] _. reflexivity.
  - cbn [exec]. unfold bind. intros Hrun Hq.
    change (paths (o :: ops)) with (paths [o] ++ paths ops) in Hq.
    apply not_elem_of_app in Hq as [Hq1 Hq2].
    destruct (step o v) as [[[[]|e0] v'] ev1] eqn:Hs.
    + destruct (exec ops v') as [[r2 v2] ev2] eqn:He. injection Hrun as <- <- <-.
      rewrite (IH _ _ _ _ _ He Hq2). exact (step_touches _ _ _ _ _ _ Hs Hq1).
    + injection Hrun as <- <- <-. exact (step_touches _ _ _ _ _ _ Hs Hq1).
Qed.

Lemma exec_writes (ops : list op) :
  forall (v v1 : vault) (evs : list event),
    exec ops v = (Ok tt, v1, evs) -> writes evs = written ops.
Proof.
  induction ops as [|o ops IH]; intros v v1 evs Hrun.
  - apply exec_nil_inv in Hrun as [_ ->]. reflexivity.
  - apply exec_cons_inv in Hrun as (v' & ev1 & ev2 & Hs & He & ->).
    rewrite writes_app, (IH _ _ _ He).
    destruct o as [p|p c].
    + rewrite (step_ensure_inv _ _ _ _ Hs). reflexivity.
    + apply step_write_inv in Hs as [_ ->]. reflexivity.
Qed.

Lemma exec_last_write (ops : list op) (p c : jsstring) (v v1 : vault) (evs : list event) :
  exec (ops ++ [WriteFile p c]) v = (Ok tt, v1, evs) -> v1 !! p = Some (TFile c).
Proof.
  rewrite exec_app. unfold bind.
  destruct (exec ops v) as [[[[]|e0] v'] ev1]; [|discriminate].
  destruct (exec [WriteFile p c] v') as [[r2 v2] ev2] eqn:He.
  intros [= -> -> <-].
  apply exec_cons_inv in He as (w & ev3 & ev4 & Hs & Hnil & _).
  apply exec_nil_inv in Hnil as [-> _].
  apply step_write_inv in Hs as [-> _]. apply lookup_insert_eq.
Qed.

(** X4: a sync of one book, however it ends, removes nothing from the
    vault and turns no file into a folder or folder into a file; and an
    entry whose path is not among the files the run reports as written
    is exactly what it was. *)
Theorem syncBookHighlights_keeps_entries (plugin : BookrisePlugin) (rnd : oracle)
    (book : Book.t) (v v1 : vault) (r : outcome unit) (evs : list event) :
  syncBookHighlights plugin rnd book v = (r, v1, evs) ->
  forall q e, v !! q = Some e ->
    exists e', v1 !! q = Some e' /\ same_kind e e'
               /\ (q ∉ map fst (writes evs) -> e' = e).
Proof.
  intros Hrun q e Hq.
  destruct (client plugin) as [c|] eqn:Hc.
  - destruct (listHighlights c (Book.id book)) as [hls|err] eqn:Hl.
    + rewrite (syncBookHighlights_exec plugin rnd book c hls v Hc Hl) in Hrun.
      exact (exec_keeps _ _ _ _ _ _ _ Hrun Hq).
    + rewrite (syncBookHighlights_exec_throw plugin rnd book c err v Hc Hl) in Hrun.
      unfold bind in Hrun.
      destruct (exec [EnsureFolder (bookFolderPath plugin book)] v)
        as [[[[]|e0] v'] ev1] eqn:He.
      * unfold throw in Hrun. injection Hrun as <- <- <-. rewrite app_nil_r.
        exact (exec_keeps _ _ _ _ _ _ _ He Hq).
      * injection Hrun as <- <- <-. exact (exec_keeps _ _ _ _ _ _ _ He Hq).
  - unfold syncBookHighlights in Hrun. rewrite Hc in Hrun.
    injection Hrun as <- <- <-. exists e.
    split; [exact Hq|]. split; [apply same_kind_refl|reflexivity].
Qed.

(** X5: when the highlights of the book cannot be fetched, the sync of
    the book throws and writes no file; the vault changes at most at the
    path of the book folder, which is created before the fetch: where
    nothing was at that path the empty folder stays behind and the error
    thrown is the one of the fetch. *)
Theorem syncBookHighlights_fetch_fails (plugin : BookrisePlugin) (rnd : oracle)
    (book : Book.t) (c : BookriseClient) (err : exn) (v v1 : vault) (r : outcome unit)
    (evs : list event) :
  client plugin = Some c ->
  listHighlights c (Book.id book) = Throw err ->
  syncBookHighlights plugin rnd book v = (r, v1, evs) ->
  (exists e, r = Throw e)
  /\ writes evs = []
  /\ (forall q, q <> bookFolderPath plugin book -> v1 !! q = v !! q)
  /\ (v !! bookFolderPath plugin book = None ->
      r = Throw err /\ v1 = <[bookFolderPath plugin book := TFolder]> v /\ evs = []).
Proof.
  intros Hc Hl.
  rewrite (syncBookHighlights_exec_throw plugin rnd book c err v Hc Hl).
  cbn [exec step]. unfold bind, ret, throw.
  rewrite ensureFolderExists_unfold.
  destruct (v !! bookFolderPath plugin book) as [[c0|]|] eqn:Hp;
    [destruct (includes _ _)| |]; intros [= <- <- <-];
    (split; [eexists; reflexivity|]); (split; [reflexivity|]);
    (split; [|try discriminate]); try reflexivity.
  - intros q Hq. apply lookup_insert_ne. congruence.
  - intros _. repeat split.
Qed.

Lemma script_shape (plugin : BookrisePlugin) (rnd : oracle) (book : Book.t)
    (highlights : option (list Highlight.t)) :
  exists pre content,
    script plugin rnd book highlights
    = (EnsureFolder (bookFolderPath plugin book) :: pre)
      ++ [WriteFile (mainBookFilePath plugin book) content]
    /\ match highlights with
       | None | Some [] => pre = [] /\ content = emptyContent plugin book
       | Some hls =>
           if createNotePerHighlight (settings plugin)
           then pre = EnsureFolder (bookFolderPath plugin book ++ lit "/_Highlights")
                      :: map (fun hl => WriteFile (notePath plugin book hl)
                                          (noteContent book hl)) hls
                /\ content = indexContent book hls
           else pre = [] /\ content = aggregateContent rnd book hls
       end.
Proof.
  unfold script.
  destruct highlights as [[|hl hls]|]; [eexists [], _; split; [reflexivity|split; reflexivity]| |
                                        eexists [], _; split; [reflexivity|split; reflexivity]].
  destruct (createNotePerHighlight (settings plugin)).
  - eexists _, _. split; [|split; reflexivity]. reflexivity.
  - eexists [], _. split; [reflexivity|split; reflexivity].
Qed.

Lemma written_notes (plugin : BookrisePlugin) (book : Book.t) (hls : list Highlight.t) :
  written (map (fun hl => WriteFile (notePath plugin book hl) (noteContent book hl)) hls)
  = map (fun hl => (notePath plugin book hl, noteContent book hl)) hls.
Proof. induction hls as [|hl hls IH]; [reflexivity|]. simpl. f_equal. exact IH. Qed.

(** X6: for a book without highlights (the fetch gave null or the empty
    list) a sync that returns writes one file, the main note of the book,
    with the placeholder text of the mode; besides that note and the book
    folder no path of the vault changes, so no folder for notes is made. *)
Theorem syncBookHighlights_no_highlights (plugin : BookrisePlugin) (rnd : oracle)
    (book : Book.t) (c : BookriseClient) (highlights : option (list Highlight.t))
    (v v1 : vault) (evs : list event) :
  client plugin = Some c ->
  listHighlights c (Book.id book) = Ok highlights ->
  highlights = None \/ highlights = Some [] ->
  syncBookHighlights plugin rnd book v = (Ok tt, v1, evs) ->
  writes evs = [(mainBookFilePath plugin book, emptyContent plugin book)]
  /\ v1 !! mainBookFilePath plugin book = Some (TFile (emptyContent plugin book))
  /\ (forall q, q <> bookFolderPath plugin book -> q <> mainBookFilePath plugin book ->
      v1 !! q = v !! q).
Proof.
  intros Hc Hl Hnone.
  rewrite (syncBookHighlights_exec plugin rnd book c highlights v Hc Hl).
  assert (script plugin rnd book highlights
          = [EnsureFolder (bookFolderPath plugin book)]
            ++ [WriteFile (mainBookFilePath plugin book) (emptyContent plugin book)])
    as ->.
  { destruct Hnone as [-> | ->]; reflexivity. }
  intros Hrun. split; [exact (exec_writes _ _ _ _ Hrun)|].
  split; [exact (exec_last_write _ _ _ _ _ _ Hrun)|].
  intros q Hq1 Hq2. apply (exec_touches _ _ _ _ _ _ Hrun).
  simpl. intros Hin. apply elem_of_cons in Hin as [->|Hin]; [congruence|].
  apply elem_of_cons in Hin as [->|Hin]; [congruence|]. inversion Hin.
Qed.

(** X7: for a book with highlights, a sync that returns writes, in the
    per-highlight mode, one note for each highlight in the order of the
    list and then the main note with the index of all of them, and in the
    aggregate mode the main note alone with the item of every highlight;
    the main note is then in the vault with that content. *)
Theorem syncBookHighlights_writes (plugin : BookrisePlugin) (rnd : oracle)
    (book : Book.t) (c : BookriseClient) (hls : list Highlight.t)
    (v v1 : vault) (evs : list event) :
  client plugin = Some c ->
  listHighlights c (Book.id book) = Ok (Some hls) ->
  hls <> [] ->
  syncBookHighlights plugin rnd book v = (Ok tt, v1, evs) ->
  let content :=
    if createNotePerHighlight (settings plugin)
    then indexContent book hls else aggregateContent rnd book hls in
  writes evs
  = (if createNotePerHighlight (settings plugin)
     then map (fun hl => (notePath plugin book hl, noteContent book hl)) hls
     else [])
    ++ [(mainBookFilePath plugin book, content)]
  /\ (length (writes evs)
      = if createNotePerHighlight (settings plugin) then S (length hls) else 1%nat)
  /\ v1 !! mainBookFilePath plugin book = Some (TFile content).
Proof.
  intros Hc Hl Hne.
  rewrite (syncBookHighlights_exec plugin rnd book c (Some hls) v Hc Hl).
  destruct (script_shape plugin rnd book (Some hls)) as (pre & content & -> & Hshape).
  destruct hls as [|hl hls]; [congruence|].
  intros Hrun content'.
  pose proof (exec_writes _ _ _ _ Hrun) as Hw.
  pose proof (exec_last_write _ _ _ _ _ _ Hrun) as Hmain.
  unfold written in Hw. rewrite omap_app in Hw. fold (written (EnsureFolder (bookFolderPath plugin book) :: pre)) in Hw.
  subst content'.
  destruct (createNotePerHighlight (settings plugin)); destruct Hshape as [-> ->].
  - change (written (EnsureFolder (bookFolderPath plugin book)
                     :: EnsureFolder (bookFolderPath plugin book ++ lit "/_Highlights")
                     :: map (fun hl0 => WriteFile (notePath plugin book hl0)
                                          (noteContent book hl0)) (hl :: hls)))
      with (written (map (fun hl0 => WriteFile (notePath plugin book hl0)
                                       (noteContent book hl0)) (hl :: hls))) in Hw.
    rewrite written_notes in Hw.
    split; [exact Hw|]. split; [|exact Hmain].
    rewrite Hw, length_app, length_map. simpl. lia.
  - split; [exact Hw|]. split; [|exact Hmain]. rewrite Hw. reflexivity.
Qed.

Lemma last_write_app (path : jsstring) (log1 log2 : list (jsstring * jsstring)) :
  last_write path (log1 ++ log2)
  = match last_write path log2 with
    | Some later => Some later
    | None => last_write path log1
    end.
Proof.
  induction log1 as [|[p c] log1 IH]; cbn [app last_write].
  - destruct (last_write path log2); reflexivity.
  - rewrite IH. destruct (last_write path log2); reflexivity.
Qed.

Lemma last_write_none (path : jsstring) (log : list (jsstring * jsstring)) :
  last_write path log = None -> path ∉ map fst log.
Proof.
  induction log as [|[p c] log IH]; cbn [last_write map fst].
  - intros _ Hin. inversion Hin.
  - destruct (last_write path log); [discriminate|].
    destruct (Js.eqb p path) eqn:Hp; [discriminate|]. intros _.
    apply not_elem_of_cons. split; [|apply IH; reflexivity].
    apply bool_decide_eq_false_1 in Hp. congruence.
Qed.

Lemma step_last_write (o : op) (v v1 : vault) (r : outcome unit) (evs : list event)
    (path content : jsstring) :
  step o v = (r, v1, evs) -> last_write path (writes evs) = Some content ->
  v1 !! path = Some (TFile content).
Proof.
  destruct o as [p|p c]; simpl.
  - rewrite ensureFolderExists_unfold.
    destruct (v !! p) as [[c|]|]; [destruct (includes _ _)| |];
      intros [= <- <- <-]; discriminate.
  - rewrite createOrUpdateFile_unfold.
    assert (last_write path (writes [Wrote p c]) = Some content ->
            <[p := TFile c]> v !! path = Some (TFile content)) as Hwritten.
    { change (writes [Wrote p c]) with [(p, c)]. cbn [last_write].
      destruct (Js.eqb p path) eqn:Hp; [|discriminate].
      intros [= <-]. apply bool_decide_eq_true_1 in Hp. subst path.
      apply lookup_insert_eq. }
    destruct (v !! p) as [[c0|]|]; intros [= <- <- <-];
      [exact Hwritten|discriminate|exact Hwritten].
Qed.

Lemma exec_last_write_wins (ops : list op) :
  forall (v v1 : vault) (r : outcome unit) (evs : list event) (path content : jsstring),
    exec ops v = (r, v1, evs) -> last_write path (writes evs) = Some content ->
    v1 !! path = Some (TFile content).
Proof.
  induction ops as [|o ops IH]; intros v v1 r evs path content.
  - intros [= <- <- <-]. discriminate.
  - cbn [exec]. unfold bind.
    destruct (step o v) as [[[[]|e0] v'] ev1] eqn:Hs.
    + destruct (exec ops v') as [[r2 v2] ev2] eqn:He. intros [= <- <- <-].
      rewrite writes_app, last_write_app.
      destruct (last_write path (writes ev2)) as [later|] eqn:Hlater.
      * intros [= <-]. exact (IH _ _ _ _ _ _ He Hlater).
      * intros Hfirst. pose proof (step_last_write _ _ _ _ _ _ _ Hs Hfirst) as Hwritten.
        destruct (exec_keeps _ _ _ _ _ _ _ He Hwritten) as (e' & -> & _ & Hsame).
        rewrite (Hsame (last_write_none _ _ Hlater)). reflexivity.
    + intros [= <- <- <-]. exact (step_last_write _ _ _ _ _ _ _ Hs).
Qed.

(** X10: after a sync of one book, however it ends, every file the run
    reports as written holds the content of the last write to its path:
    when two highlights get the same note path, the note of the later
    one is what stays. *)
Theorem syncBookHighlights_last_write_wins (plugin : BookrisePlugin) (rnd : oracle)
    (book : Book.t) (v v1 : vault) (r : outcome unit) (evs : list event) :
  syncBookHighlights plugin rnd book v = (r, v1, evs) ->
  forall path content,
    last_write path (writes evs) = Some content -> v1 !! path = Some (TFile content).
Proof.
  intros Hrun path content Hlast.
  destruct (client plugin) as [c|] eqn:Hc.
  - destruct (listHighlights c (Book.id book)) as [hls|err] eqn:Hl.
    + rewrite (syncBookHighlights_exec plugin rnd book c hls v Hc Hl) in Hrun.
      exact (exec_last_write_wins _ _ _ _ _ _ _ Hrun Hlast).
    + rewrite (syncBookHighlights_exec_throw plugin rnd book c err v Hc Hl) in Hrun.
      unfold bind in Hrun.
      destruct (exec [EnsureFolder (bookFolderPath plugin book)] v)
        as [[[[]|e0] v'] ev1] eqn:He.
      * unfold throw in Hrun. injection Hrun as <- <- <-. rewrite app_nil_r in Hlast.
        exact (exec_last_write_wins _ _ _ _ _ _ _ He Hlast).
      * injection Hrun as <- <- <-. exact (exec_last_write_wins _ _ _ _ _ _ _ He Hlast).
  - unfold syncBookHighlights in Hrun. rewrite Hc in Hrun.
    injection Hrun as <- <- <-. discriminate.
Qed.

End SyncEntries.

Section SyncEntriesExamples.
Import Sync Script Trace.

Lemma run_eta {A} (x : outcome A * vault * list event) :
  x = (fst (fst x), snd (fst x), snd x).
Proof. destruct x as [[r v] evs]. reflexivity. Qed.

Lemma syncBookHighlights_keeps_entries_witness :
  let plugin := Sample.plugin true [Sample.a_book] [Sample.h_one] in
  let v : vault := <[lit "Inbox.md" := TFile (lit "mine")]> ∅ in
  snd (fst (syncBookHighlights plugin Sample.rnd Sample.a_book v)) !! lit "Inbox.md"
  = Some (TFile (lit "mine")).
Proof.
  intros plugin v.
  destruct (@syncBookHighlights_keeps_entries Sample.host plugin Sample.rnd Sample.a_book v
              _ _ _ (run_eta _)
              (lit "Inbox.md") (TFile (lit "mine")) (lookup_insert_eq _ _ _))
    as (e' & Hlook & _ & Hsame).
  rewrite Hlook. f_equal. apply Hsame.
  apply (bool_decide_unpack _). vm_compute. reflexivity.
Defined.

Lemma syncBookHighlights_fetch_fails_witness :
  syncBookHighlights Sample.flaky_plugin Sample.rnd (Sample.book "b2" "Two") (∅ : vault)
  = (Throw (Error (lit "Error calling BookRise API: Status 500 - oops")),
     <[lit "BookRise/Two" := TFolder]> (∅ : vault), []).
Proof.
  destruct (@syncBookHighlights_fetch_fails Sample.host Sample.flaky_plugin Sample.rnd
              (Sample.book "b2" "Two") _
              (Error (lit "Error calling BookRise API: Status 500 - oops")) (∅ : vault)
              _ _ _ eq_refl eq_refl (run_eta _))
    as (_ & _ & _ & Hnew).
  destruct (Hnew (lookup_empty _)) as (Hr & Hv & He).
  rewrite (run_eta (syncBookHighlights _ _ _ _)), Hr, Hv, He. reflexivity.
Defined.

Lemma syncBookHighlights_no_highlights_witness :
  let plugin := Sample.plugin true [Sample.a_book] [] in
  map fst (writes (snd (syncBookHighlights plugin Sample.rnd Sample.a_book (∅ : vault))))
  = [lit "BookRise/B/B.md"].
Proof.
  intros plugin.
  pose proof (run_eta (syncBookHighlights plugin Sample.rnd Sample.a_book (∅ : vault)))
    as Hrun.
  assert (fst (fst (syncBookHighlights plugin Sample.rnd Sample.a_book (∅ : vault)))
          = Ok tt) as Hok by (vm_compute; reflexivity).
  rewrite Hok in Hrun.
  destruct (@syncBookHighlights_no_highlights Sample.host plugin Sample.rnd Sample.a_book
              _ (Some []) (∅ : vault) _ _ eq_refl eq_refl (or_intror eq_refl) Hrun)
    as (Hw & _ & _).
  rewrite Hw. vm_compute. reflexivity.
Defined.

Lemma syncBookHighlights_writes_witness :
  let plugin := Sample.plugin true [Sample.a_book] [Sample.h_text; Sample.h_one] in
  length (writes (snd (syncBookHighlights plugin Sample.rnd Sample.a_book (∅ : vault))))
  = 3%nat.
Proof.
  intros plugin.
  pose proof (run_eta (syncBookHighlights plugin Sample.rnd Sample.a_book (∅ : vault)))
    as Hrun.
  assert (fst (fst (syncBookHighlights plugin Sample.rnd Sample.a_book (∅ : vault)))
          = Ok tt) as Hok by (vm_compute; reflexivity).
  rewrite Hok in Hrun.
  destruct (@syncBookHighlights_writes Sample.host plugin Sample.rnd Sample.a_book
              _ [Sample.h_text; Sample.h_one] (∅ : vault) _ _
              eq_refl eq_refl ltac:(discriminate) Hrun)
    as (_ & Hlen & _).
  rewrite Hlen. reflexivity.
Defined.

Lemma syncBookHighlights_last_write_wins_witness :
  let plugin := Sample.plugin true [Sample.a_book] [Sample.h_one; Sample.h_two] in
  snd (fst (syncBookHighlights plugin Sample.rnd Sample.a_book (∅ : vault)))
  !! lit "BookRise/B/_Highlights/Highlight (hl-00000).md"
  = Some (TFile (noteContent Sample.a_book Sample.h_two)).
Proof.
  intros plugin.
  apply (@syncBookHighlights_last_write_wins Sample.host plugin Sample.rnd Sample.a_book
           (∅ : vault) _ _ _ (run_eta _)).
  vm_compute. reflexivity.
Defined.

End SyncEntriesExamples.

(** ** [syncAllHighlights] always ends with a notice *)

Section AllBooksReturn.
Context `{JsHost}.
Import Sync Observe.

(** X8: [syncAllHighlights] never throws: whatever the client answers
    and whatever the vault holds, it returns, and the last thing it does
    is to show a notice. *)
Theorem syncAllHighlights_always_returns (plugin : BookrisePlugin) (rnds : nat -> oracle)
    (v : vault) :
  exists v1 evs text,
    syncAllHighlights plugin rnds v = (Ok tt, v1, evs ++ [Notice text]).
Proof.
  unfold syncAllHighlights.
  destruct (client plugin) as [c|]; [|eexists v, [], _; reflexivity].
  unfold bind at 1. unfold emit at 1. unfold try_catch.
  destruct (listBooks c) as [[[|b books]|]|e]; cbn [await].
  - rewrite bind_ret_l. eexists v, [_], _. reflexivity.
  - rewrite bind_ret_l. unfold bind at 1. unfold emit at 1.
    unfold bind at 1.
    destruct (ensureFolderExists (bookriseSyncFolder (settings plugin)) v)
      as [[[[]|e] v0] ev0].
    + unfold bind.
      destruct (syncBooks_counts plugin rnds (b :: books) 0 0 0 v0) as [v' ->].
      unfold emit. eexists v', _, _.
      rewrite !app_assoc. reflexivity.
    + unfold emit. eexists v0, _, _. rewrite !app_assoc. reflexivity.
  - rewrite bind_ret_l. eexists v, [_], _. reflexivity.
  - unfold bind, throw, emit. eexists v, [_], _. reflexivity.
Qed.

(** X9: when there is nothing to sync, the vault is left as it is: for a
    book list that is null or empty the user is told that no books were
    found; for a book list that cannot be fetched, that the sync failed;
    and when a file is in the way of the sync folder no book is synced,
    and the user sees the notice about the file and then the notice that
    the sync failed. *)
Theorem syncAllHighlights_nothing_to_sync (plugin : BookrisePlugin)
    (rnds : nat -> oracle) (c : BookriseClient) (v : vault) :
  client plugin = Some c ->
  let starting := Notice (lit "Starting BookRise highlight sync...") in
  let failed :=
    Notice (lit "Error syncing BookRise highlights. Check console for details.") in
  let in_the_way :=
    bookriseSyncFolder (settings plugin) ++ lit " exists but is a file, not a folder." in
  (listBooks c = Ok None \/ listBooks c = Ok (Some []) ->
   syncAllHighlights plugin rnds v
   = (Ok tt, v, [starting; Notice (lit "No books found in your BookRise library.")]))
  /\ (forall e, listBooks c = Throw e ->
      syncAllHighlights plugin rnds v = (Ok tt, v, [starting; failed]))
  /\ (forall books content,
        listBooks c = Ok (Some books) ->
        books <> [] ->
        v !! bookriseSyncFolder (settings plugin) = Some (TFile content) ->
        includes in_the_way (lit "Folder already exists") = false ->
        syncAllHighlights plugin rnds v
        = (Ok tt, v,
           [starting;
            Notice (lit "Found " ++ decimal (length books)
                    ++ lit " books. Fetching highlights...");
            Notice (lit "Error: " ++ in_the_way);
            failed])).
Proof.
  intros Hc starting failed in_the_way. unfold syncAllHighlights. rewrite Hc.
  split; [|split].
  - intros [Hl|Hl]; rewrite Hl; reflexivity.
  - intros e Hl. rewrite Hl. reflexivity.
  - intros books content Hl Hne Hroot Hi. rewrite Hl.
    destruct books as [|b books]; [congruence|].
    unfold bind at 1. unfold emit at 1. unfold try_catch. cbn [await].
    rewrite bind_ret_l. unfold bind at 1. unfold emit at 1. unfold bind at 1.
    rewrite ensureFolderExists_unfold, Hroot.
    change (Script.not_a_folder (bookriseSyncFolder (settings plugin))) with in_the_way.
    rewrite Hi. reflexivity.
Qed.

End AllBooksReturn.

Section AllBooksReturnExamples.
Import Sync Observe.

Lemma syncAllHighlights_nothing_to_sync_witness :
  let v : vault := <[lit "BookRise" := TFile (lit "text")]> ∅ in
  let result := syncAllHighlights (Sample.plugin false [Sample.a_book] [Sample.h_one])
                  (fun _ => Sample.rnd) v in
  snd (fst result) = v /\ length (snd result) = 4%nat.
Proof.
  intros v result. subst result.
  destruct (@syncAllHighlights_nothing_to_sync Sample.host
              (Sample.plugin false [Sample.a_book] [Sample.h_one]) (fun _ => Sample.rnd)
              _ v eq_refl) as (_ & _ & Hfile).
  rewrite (Hfile [Sample.a_book] (lit "text") eq_refl ltac:(discriminate)
             (lookup_insert_eq _ _ _) ltac:(vm_compute; reflexivity)).
  split; reflexivity.
Defined.

End AllBooksReturnExamples.

(** ** File names *)

Section FileNames.
Context `{JsHost}.
Import Sync Script.

Lemma replace_ws_runs_from_length (r : N) (s : jsstring) (in_run : bool) :
  (length (replace_ws_runs_from in_run r s) <= length s)%nat.
Proof.
  revert in_run. induction s as [|c s IH]; intros in_run; simpl; [lia|].
  destruct (is_ws c); [destruct in_run|]; simpl;
    [specialize (IH true)|specialize (IH true)|specialize (IH false)]; lia.
Qed.

Lemma replace_ws_runs_from_spaces (s : jsstring) (in_run : bool) :
  Forall (fun c => is_ws c = true -> c = 32) (replace_ws_runs_from in_run 32 s).
Proof.
  revert in_run. induction s as [|c s IH]; intros in_run; simpl; [constructor|].
  destruct (is_ws c) eqn:Hc; [destruct in_run|]; auto.
  constructor; [congruence|auto].
Qed.

Lemma replace_ws_runs_from_apart (s : jsstring) :
  forall (in_run : bool) (i : nat) (c d : N),
    (in_run = true -> forall c0, head (replace_ws_runs_from in_run 32 s) = Some c0 ->
                                 is_ws c0 = false)
    /\ (replace_ws_runs_from in_run 32 s !! i = Some c ->
        replace_ws_runs_from in_run 32 s !! S i = Some d ->
        is_ws c = true -> is_ws d = false).
Proof.
  induction s as [|a s IH]; intros in_run i c d; simpl.
  - split; [intros _ c0; discriminate|intros Hc; discriminate].
  - destruct (is_ws a) eqn:Ha.
    + destruct in_run.
      * apply IH.
      * split; [discriminate|].
        destruct i as [|i]; simpl.
        -- intros _ Hd _.
           destruct (IH true 0%nat c d) as [Hhead _]. apply (Hhead eq_refl).
           destruct (replace_ws_runs_from true 32 s); [discriminate|].
           simpl in *. congruence.
        -- apply IH.
    + split; [intros _ c0 [= <-]; exact Ha|].
      destruct i as [|i]; simpl.
      * intros [= <-] _ Hc. congruence.
      * apply (IH false).
Qed.

(** X11: a sanitized name is never longer than the name; it holds none
    of the characters slash, backslash, colon, star, question mark,
    double quote, angle brackets and bar; its only white space is the
    space; and no two white-space characters follow each other in it. *)
Theorem sanitizeFileName_safe (name : jsstring) :
  (length (sanitizeFileName name) <= length name)%nat
  /\ Forall (fun c => forbidden_in_file_name c = false /\ (is_ws c = true -> c = 32))
       (sanitizeFileName name)
  /\ (forall (i : nat) (c d : N),
        sanitizeFileName name !! i = Some c ->
        sanitizeFileName name !! S i = Some d ->
        is_ws c = true -> is_ws d = false).
Proof.
  split; [|split].
  - unfold sanitizeFileName, replace_ws_runs.
    etransitivity; [apply replace_ws_runs_from_length|].
    unfold replace_class. rewrite length_map. lia.
  - apply Forall_and. split; [apply sanitizeFileName_clean|].
    apply replace_ws_runs_from_spaces.
  - intros i c d. unfold sanitizeFileName, replace_ws_runs.
    apply replace_ws_runs_from_apart.
Qed.

Lemma startsWith_prefix (p s : jsstring) : startsWith (p ++ s) p = true.
Proof.
  induction p as [|a p IH]; [destruct s; reflexivity|].
  simpl. rewrite N.eqb_refl. exact IH.
Qed.

Lemma strip_md_suffix (s : jsstring) : strip_md (s ++ lit ".md") = s.
Proof.
  unfold strip_md, endsWith. rewrite rev_app_distr, startsWith_prefix.
  rewrite length_app. change (length (lit ".md")) with 3%nat.
  replace (length s + 3 - 3)%nat with (length s) by lia.
  rewrite take_app_length. reflexivity.
Qed.

(** X12: the link of a highlight in the index of the main note names the
    note of the highlight: next to the main note, the target of the link
    followed by [.md] is the path the note is written to, and the target
    holds no slash beyond the one after the folder of the notes. *)
Theorem highlightLink_names_the_note (plugin : BookrisePlugin) (book : Book.t) :
  exists dir,
    mainBookFilePath plugin book
    = dir ++ lit "/" ++ sanitizeFileName (Book.title book) ++ lit ".md"
    /\ forall hl, exists name,
         notePath plugin book hl = dir ++ lit "/_Highlights/" ++ name ++ lit ".md"
         /\ highlightLink hl
            = lit "- [[_Highlights/" ++ name ++ lit "|" ++ noteTitlePrefix hl ++ lit " ("
              ++ or_else (Highlight.color hl) (lit "highlight") ++ lit ")]]"
         /\ slash_free name.
Proof.
  destruct (paths_of_book plugin book) as (dir & Hmain & Hnotes).
  exists dir. split; [exact Hmain|]. intros hl.
  pose (name := noteTitlePrefix hl ++ lit " ("
                ++ substring 0 8 (sanitizeFileName (Highlight.id hl)) ++ lit ")").
  assert (noteFileName hl = name ++ lit ".md") as Hname.
  { unfold noteFileName, name. rewrite <- !app_assoc. reflexivity. }
  exists name. split; [|split].
  - rewrite Hnotes, Hname. reflexivity.
  - unfold highlightLink. rewrite Hname, strip_md_suffix. reflexivity.
  - pose proof (noteFileName_slash_free hl) as Hfree.
    rewrite Hname in Hfree. unfold slash_free in *.
    apply Forall_app in Hfree as [Hfree _]. exact Hfree.
Qed.

End FileNames.

(** ** The tags of the main note *)

Section BookTags.
Context `{JsHost}.
Import Sync Tags.

Lemma elem_of_dedupe (l : list jsstring) (t : jsstring) :
  t ∈ dedupe Js.eqb l <-> t ∈ l.
Proof.
  induction l as [|x l IH]; [reflexivity|].
  cbn [dedupe]. rewrite !elem_of_cons, list_elem_of_filter, IH.
  split.
  - intros [->|[_ Hin]]; auto.
  - intros [->|Hin]; [auto|].
    destruct (decide (t = x)) as [->|Hne]; [auto|].
    right. split; [|exact Hin].
    unfold Js.eqb. rewrite bool_decide_eq_false_2 by congruence. reflexivity.
Qed.

Lemma NoDup_dedupe (l : list jsstring) : NoDup (dedupe Js.eqb l).
Proof.
  induction l as [|x l IH]; [constructor|].
  cbn [dedupe]. constructor.
  - rewrite list_elem_of_filter. intros [Hx _].
    unfold Js.eqb in Hx. rewrite bool_decide_eq_true_2 in Hx by reflexivity.
    discriminate.
  - apply NoDup_filter, IH.
Qed.

Lemma colons_to_dashes_colon_free (s : jsstring) : colon_free (colons_to_dashes s).
Proof.
  unfold colon_free, colons_to_dashes, replace_class. apply Forall_map, Forall_forall.
  intros c _. cbn beta. destruct (c =? 58) eqn:Hc; [discriminate|].
  apply N.eqb_neq. exact Hc.
Qed.

Lemma colons_to_dashes_id (s : jsstring) : colon_free s -> colons_to_dashes s = s.
Proof.
  unfold colon_free, colons_to_dashes, replace_class.
  induction 1 as [|c s Hc _ IH]; [reflexivity|].
  cbn [map]. rewrite IH. apply N.eqb_neq in Hc. rewrite Hc. reflexivity.
Qed.

Lemma author_tag_colon_free (author : jsstring) : colon_free (author_tag author).
Proof.
  unfold colon_free, author_tag, replace_class. apply Forall_app. split.
  - repeat constructor; discriminate.
  - apply Forall_map, Forall_forall. intros c _. cbn beta.
    destruct (not_tag_char c) eqn:Hc; [discriminate|].
    intros ->. discriminate.
Qed.

Lemma pluginAddedTags_colon_free (book : Book.t) :
  Forall colon_free (pluginAddedTags book).
Proof.
  assert (colon_free (lit "BookRise")) as Hname by (repeat constructor; discriminate).
  unfold pluginAddedTags. destruct (truthy (Book.author book)).
  - constructor; [exact Hname|]. constructor; [apply author_tag_colon_free|constructor].
  - constructor; [exact Hname|constructor].
Qed.

Lemma NoDup_map_same {A B} (f : A -> B) (l : list A) (x y : A) :
  NoDup (map f l) -> x ∈ l -> y ∈ l -> f x = f y -> x = y.
Proof.
  induction l as [|a l IH]; [intros _ Hx; inversion Hx|].
  cbn [map]. rewrite NoDup_cons, !elem_of_cons.
  intros [Ha Hl] [->|Hx] [->|Hy] Hf; [reflexivity| | |auto].
  - exfalso. apply Ha. rewrite Hf. apply list_elem_of_fmap_2. exact Hy.
  - exfalso. apply Ha. rewrite <- Hf. apply list_elem_of_fmap_2. exact Hx.
Qed.

(** X13: the front matter of the main note always has its line of tags,
    right before the source line that ends it.  The line shows the tags
    of the book and the tags the plugin adds with every colon made a
    dash, and the tag BookRise is always among them.  Equal tags are
    dropped before the colons are replaced, not after: when no tag of
    the book has a colon the line shows every tag once, but two tags
    that differ in a colon and a dash only are shown as one tag twice. *)
Theorem generateBookFrontmatter_tags (book : Book.t) :
  (exists before,
     generateBookFrontmatter book
     = before ++ lit "tags: ["
       ++ join (lit ", ") (map (fun t => quote ++ t ++ quote) (printedTags book))
       ++ lit "]" ++ nl ++ lit "source: BookRise" ++ nl ++ lit "---" ++ nl ++ nl)
  /\ lit "BookRise" ∈ printedTags book
  /\ (forall t, t ∈ printedTags book
                <-> exists s, (s ∈ default [] (Book.tags book) \/ s ∈ pluginAddedTags book)
                              /\ t = colons_to_dashes s)
  /\ Forall colon_free (printedTags book)
  /\ NoDup (allTags book)
  /\ (Forall colon_free (default [] (Book.tags book)) ->
      printedTags book = allTags book /\ NoDup (printedTags book))
  /\ (forall s t, s ∈ allTags book -> t ∈ allTags book -> s <> t ->
                  colons_to_dashes s = colons_to_dashes t ->
                  ~ NoDup (printedTags book)).
Proof.
  assert (lit "BookRise" ∈ pluginAddedTags book) as Hplugin.
  { unfold pluginAddedTags. destruct (truthy (Book.author book)); apply list_elem_of_here. }
  assert (forall t, t ∈ allTags book
                    <-> t ∈ default [] (Book.tags book) \/ t ∈ pluginAddedTags book)
    as Hall.
  { intros t. unfold allTags. rewrite elem_of_dedupe, elem_of_app. reflexivity. }
  assert (forall t, t ∈ printedTags book
                    <-> exists s, (s ∈ default [] (Book.tags book)
                                   \/ s ∈ pluginAddedTags book)
                                  /\ t = colons_to_dashes s) as Hprinted.
  { intros t. unfold printedTags. change (map colons_to_dashes (allTags book))
      with (colons_to_dashes <$> allTags book). rewrite list_elem_of_fmap.
    split; intros (s & H1 & H2).
    - exists s. split; [apply Hall; exact H2|exact H1].
    - exists s. split; [exact H2|apply Hall; exact H1]. }
  split; [|split; [|split; [exact Hprinted|split; [|split; [apply NoDup_dedupe|split]]]]].
  - assert ((0 <? length (allTags book))%nat = true) as Hlen.
    { apply Nat.ltb_lt.
      assert (lit "BookRise" ∈ allTags book) as Hin by (apply Hall; auto).
      destruct (allTags book); [inversion Hin|simpl; lia]. }
    assert (tag_array (allTags book)
            = lit "[" ++ join (lit ", ")
                           (map (fun t => quote ++ t ++ quote) (printedTags book))
              ++ lit "]") as Harray.
    { unfold tag_array, printedTags. rewrite map_map. reflexivity. }
    rewrite <- (app_assoc (lit "tags: ") (lit "[")) in |- *.
    unfold allTags, pluginAddedTags in Hlen, Harray. unfold generateBookFrontmatter.
    destruct (truthy (Book.author book)); cbv beta iota zeta; rewrite Hlen, Harray;
      match goal with
      | |- exists _, ((?fm ++ _) ++ _) ++ _ = _ => exists fm; generalize fm
      end;
      intros fm; unfold printedTags, allTags, pluginAddedTags;
      rewrite <- !app_assoc; reflexivity.
  - apply Hprinted. exists (lit "BookRise"). split; [auto|reflexivity].
  - unfold printedTags. apply Forall_map, Forall_forall. intros t _.
    apply colons_to_dashes_colon_free.
  - intros Hbook.
    assert (printedTags book = allTags book) as Hsame.
    { unfold printedTags. rewrite <- (map_id (allTags book)) at 2.
      apply map_ext_in. intros t Hin. apply colons_to_dashes_id.
      apply list_elem_of_In, Hall in Hin. destruct Hin as [Hin|Hin].
      - revert Hin. apply Forall_forall. exact Hbook.
      - revert Hin. apply Forall_forall. apply pluginAddedTags_colon_free. }
    split; [exact Hsame|]. rewrite Hsame. apply NoDup_dedupe.
  - intros s t Hs Ht Hne Hsame Hnodup. apply Hne.
    exact (NoDup_map_same colons_to_dashes (allTags book) s t Hnodup Hs Ht Hsame).
Qed.

End BookTags.

Section BookTagsExamples.
Import Sync Tags.
#[local] Existing Instances Sample.host.

Lemma generateBookFrontmatter_tags_witness :
  let book :=
    {| Book.id := lit "b1"; Book.title := lit "B"; Book.author := None; Book.isbn := None;
       Book.tags := Some [lit "a:b"; lit "a-b"]; Book.percent_read := None;
       Book.assistant_id := None |} in
  printedTags book = [lit "a-b"; lit "a-b"; lit "BookRise"]
  /\ ~ NoDup (printedTags book).
Proof.
  intros book. split; [reflexivity|].
  destruct (generateBookFrontmatter_tags book) as (_ & _ & _ & _ & _ & _ & Htwice).
  apply (Htwice (lit "a:b") (lit "a-b")).
  - apply list_elem_of_here.
  - apply list_elem_of_further, list_elem_of_here.
  - discriminate.
  - reflexivity.
Defined.

End BookTagsExamples.

(** ** [request]: the error path and the calls it makes *)

Section RequestErrors.
Context `{JsonHost}.
Import Client Observe.
Local Open Scope client_scope.

Lemma error_body_cases (response : RequestUrlResponse) :
  catch
    match JSON_parse (text response) with
    | Some parsedError =>
        let* detail := lift (Json.get (lit "detail") parsedError) in
        match detail with
        | Some d => if Json.truthy d then pure d else pure (JStr (text response))
        | None => pure (JStr (text response))
        end
    | None => raise (SyntaxError (JSON_parse_error (text response)))
    end (fun _ => pure (JStr (text response)))
  = pure match JSON_parse (text response) with
         | Some parsed =>
             match if_truthy (field (lit "detail") parsed) with
             | Some d => d
             | None => JStr (text response)
             end
         | None => JStr (text response)
         end.
Proof.
  destruct (JSON_parse (text response)) as [parsed|]; [|reflexivity].
  destruct (null_or_not parsed) as [->|Hnot]; [reflexivity|].
  rewrite (get_not_null _ _ Hnot), and_then_lift_ok.
  unfold if_truthy. destruct (field (lit "detail") parsed) as [d|]; [|reflexivity].
  destruct (Json.truthy d); reflexivity.
Qed.

Lemma request_continue_non_2xx (this : BookriseClient) (endpoint : jsstring)
    (response : RequestUrlResponse) :
  in_2xx (status response) = false ->
  request_continue this endpoint response
  = let* shown :=
      interpolate match JSON_parse (text response) with
                  | Some parsed =>
                      match if_truthy (field (lit "detail") parsed) with
                      | Some d => d
                      | None => JStr (text response)
                      end
                  | None => JStr (text response)
                  end in
    raise (Error (lit "Error calling BookRise API: Status " ++ decimal (status response)
                  ++ lit " - " ++ shown)).
Proof.
  intros Hstatus. unfold request_continue. rewrite Hstatus. cbn [negb].
  rewrite error_body_cases, and_then_pure_l. reflexivity.
Qed.

(** X14: for a status outside 200 to 299 [request] never returns: after
    its one network call it throws.  The error names the status and then
    the [detail] member of the body when the body is JSON with a truthy
    [detail], and the raw text of the body otherwise, also when the body
    is no JSON, or is the JSON value null. *)
Theorem request_rejects_non_2xx (this : BookriseClient) (endpoint : jsstring)
    (options : RequestOptions) (response : RequestUrlResponse) :
  requestUrlFn this (request_param this endpoint options) = Ok response ->
  in_2xx (status response) = false ->
  let failure (shown : jsstring) : Eff (option json) :=
    (Throw (Error (lit "Error calling BookRise API: Status " ++ decimal (status response)
                   ++ lit " - " ++ shown)),
     [Requested (request_param this endpoint options)]) in
  (exists e, request this endpoint options
             = (Throw e, [Requested (request_param this endpoint options)]))
  /\ (forall parsed d shown,
        JSON_parse (text response) = Some parsed ->
        if_truthy (field (lit "detail") parsed) = Some d ->
        Json.ToString d = Some shown ->
        request this endpoint options = failure shown)
  /\ ((forall parsed, JSON_parse (text response) = Some parsed ->
                      if_truthy (field (lit "detail") parsed) = None) ->
      request this endpoint options = failure (text response)).
Proof.
  intros Hresponse Hstatus failure. subst failure. cbv beta.
  rewrite (request_enter _ _ _ _ Hresponse), (request_continue_non_2xx _ _ _ Hstatus).
  split; [|split].
  - unfold interpolate.
    destruct (Json.ToString _); eexists; reflexivity.
  - intros parsed d shown Hparsed Hdetail Hshown.
    rewrite Hparsed, Hdetail. unfold interpolate. rewrite Hshown. reflexivity.
  - intros Hnone. destruct (JSON_parse (text response)) as [parsed|]; [|reflexivity].
    rewrite (Hnone parsed eq_refl). reflexivity.
Qed.

(** X15: every call of [request] makes exactly one network call, the
    first thing it does, with the bearer token, to the base address
    followed by the endpoint; the only other thing it may show is the
    warning about an empty body, and then it returns null. *)
Theorem request_one_call (this : BookriseClient) (endpoint : jsstring)
    (options : RequestOptions) :
  exists rest,
    snd (request this endpoint options)
    = Requested {| url := lit "https://app.bookrise.io" ++ endpoint;
                   method := Some (or_else (opt_method options) (lit "GET"));
                   headers := [(lit "Authorization", lit "Bearer " ++ token this);
                               (lit "Content-Type", lit "application/json")]
                              ++ opt_headers options;
                   body := opt_body options |} :: rest
    /\ (rest = []
        \/ exists status,
             rest = [Warned (lit "Empty response for status " ++ decimal status
                             ++ lit " from " ++ lit "https://app.bookrise.io" ++ endpoint)]
             /\ fst (request this endpoint options) = Ok None).
Proof.
  change {| url := lit "https://app.bookrise.io" ++ endpoint;
            method := Some (or_else (opt_method options) (lit "GET"));
            headers := [(lit "Authorization", lit "Bearer " ++ token this);
                        (lit "Content-Type", lit "application/json")]
                       ++ opt_headers options;
            body := opt_body options |}
    with (request_param this endpoint options).
  destruct (requestUrlFn this (request_param this endpoint options)) as [response|e]
    eqn:Hresponse.
  - rewrite (request_enter _ _ _ _ Hresponse). cbn [fst snd].
    eexists. split; [reflexivity|].
    destruct (in_2xx (status response)) eqn:Hstatus.
    + unfold request_continue. rewrite Hstatus. cbn [negb].
      destruct (Js.eqb (text response) [] && negb (status response =? 204)%nat).
      * right. exists (status response). split; reflexivity.
      * left. destruct (status response =? 204)%nat; [reflexivity|].
        destruct (JSON_parse (text response)); reflexivity.
    + left. rewrite (request_continue_non_2xx _ _ _ Hstatus). unfold interpolate.
      destruct (Json.ToString _); reflexivity.
  - rewrite (request_fails _ _ _ _ Hresponse). eexists. split; [reflexivity|].
    left. reflexivity.
Qed.

Lemma request_calls_first (this : BookriseClient) (endpoint : jsstring)
    (options : RequestOptions) :
  exists rest,
    snd (request this endpoint options)
    = Requested (request_param this endpoint options) :: rest.
Proof.
  destruct (requestUrlFn this (request_param this endpoint options)) as [response|e]
    eqn:Hresponse.
  - rewrite (request_enter _ _ _ _ Hresponse). eexists. reflexivity.
  - rewrite (request_fails _ _ _ _ Hresponse). eexists. reflexivity.
Qed.

Lemma and_then_starts {A B} (m : Eff A) (k : A -> Eff B) (first : effect)
    (rest : list effect) :
  snd m = first :: rest -> exists rest', snd (and_then m k) = first :: rest'.
Proof.
  unfold and_then. destruct m as [[a|e] ev1]; cbn [snd]; intros ->.
  - destruct (k a) as [r ev2]. eexists. reflexivity.
  - eexists. reflexivity.
Qed.

(** X16: the calls that need an id or a prompt make a network call
    exactly when these are not empty.  With an empty book id
    [listHighlights] throws at once, without any call, and so does [chat]
    of either revision with an empty book id or an empty prompt.
    Otherwise the first thing [listHighlights] does is the GET of the
    highlights of the book, whose id goes into the address as it is, and
    the first thing [chat] does is the GET of the list of books. *)
Theorem empty_arguments_are_rejected (this : BookriseClient) (bookId prompt : jsstring)
    (contextIds : option (list jsstring)) (onChunk : bool) :
  listHighlights this []
  = (Throw (Error (lit "bookId is required to list highlights.")), [])
  /\ (bookId <> [] ->
      exists rest,
        snd (listHighlights this bookId)
        = Requested (request_param this (lit "/api/highlights?book_id=" ++ bookId)
                       no_options) :: rest)
  /\ (bookId = [] \/ prompt = [] ->
      FetchClient.chat this bookId prompt contextIds onChunk
      = (Throw (Error (lit "bookId and prompt are required for chat.")), [])
      /\ RequestUrlClient.chat this bookId prompt contextIds onChunk
         = (Throw (Error (lit "bookId and prompt are required for chat.")), []))
  /\ (bookId <> [] -> prompt <> [] ->
      (exists rest,
         snd (FetchClient.chat this bookId prompt contextIds onChunk)
         = Requested (books_request this) :: rest)
      /\ (exists rest,
            snd (RequestUrlClient.chat this bookId prompt contextIds onChunk)
            = Requested (books_request this) :: rest)).
Proof.
  split; [reflexivity|]. split; [|split].
  - intros Hid. destruct bookId as [|c id]; [congruence|].
    apply request_calls_first.
  - intros Hempty.
    assert (Js.eqb bookId [] || Js.eqb prompt [] = true) as Hargs.
    { unfold Js.eqb. destruct Hempty as [-> | ->].
      - rewrite bool_decide_eq_true_2 by reflexivity. reflexivity.
      - rewrite (bool_decide_eq_true_2 ([] = [])) by reflexivity. apply orb_true_r. }
    unfold FetchClient.chat, RequestUrlClient.chat. rewrite Hargs. split; reflexivity.
  - intros Hid Hprompt.
    assert (Js.eqb bookId [] || Js.eqb prompt [] = false) as Hargs.
    { unfold Js.eqb. rewrite !bool_decide_eq_false_2 by assumption. reflexivity. }
    destruct (request_calls_first this (lit "/api/books") no_options) as [rest Hfirst].
    unfold FetchClient.chat, RequestUrlClient.chat. rewrite Hargs.
    split; eapply and_then_starts; exact Hfirst.
Qed.

End RequestErrors.

Section RequestErrorsExamples.
Import Client Observe.
#[local] Existing Instances Sample.host Sample.json_host.

Lemma request_rejects_non_2xx_witness :
  request (Sample.answering 500 (lit "oops")) (lit "/api/books") no_options
  = (Throw (Error (lit "Error calling BookRise API: Status 500 - oops")),
     [Requested (books_request (Sample.answering 500 (lit "oops")))]).
Proof.
  destruct (request_rejects_non_2xx (Sample.answering 500 (lit "oops")) (lit "/api/books")
              no_options {| status := 500; text := lit "oops" |} eq_refl eq_refl)
    as (_ & _ & Hraw).
  apply Hraw. intros parsed Hparsed. vm_compute in Hparsed. discriminate.
Defined.

Lemma empty_arguments_are_rejected_witness :
  RequestUrlClient.chat (Sample.answering 200 Sample.library) (lit "b1") [] None true
  = (Throw (Error (lit "bookId and prompt are required for chat.")), []).
Proof.
  destruct (empty_arguments_are_rejected (Sample.answering 200 Sample.library) (lit "b1") []
              None true) as (_ & _ & Hchat & _).
  destruct (Hchat (or_intror eq_refl)) as [_ Hlater]. exact Hlater.
Defined.

End RequestErrorsExamples.

(** ** [chat] once the book is found *)

Section ChatFound.
Context `{JsonHost}.
Import Client Observe.
Local Open Scope client_scope.

Lemma find_by_id_found (bookId : jsstring) (items : list json) (b : json) :
  find_by_id bookId items = Ok (Some b) ->
  exists props, b = JObj props /\ Json.lookup (lit "id") props = Some (JStr bookId).
Proof.
  induction items as [|x items IH]; [discriminate|].
  cbn [find_by_id].
  destruct x as [| | | | |props]; cbn [Json.get]; try exact IH; [discriminate|].
  destruct (Json.lookup (lit "id") props) as [[| | |s| |]|] eqn:Hid; try exact IH.
  destruct (Js.eqb s bookId) eqn:Hs; [|exact IH].
  intros [= <-]. apply bool_decide_eq_true_1 in Hs. subst s. eauto.
Qed.

Lemma find_book_found (bookId : jsstring) (books : option json) (b : json) :
  find_book bookId books = Ok (Some b) -> if_truthy (Some b) = Some b.
Proof.
  destruct books as [[| | | |items|]|]; try discriminate.
  intros Hfound. apply find_by_id_found in Hfound as (props & -> & _). reflexivity.
Qed.

Lemma args_given (bookId prompt : jsstring) :
  bookId <> [] -> prompt <> [] -> Js.eqb bookId [] || Js.eqb prompt [] = false.
Proof.
  intros Hid Hprompt. unfold Js.eqb.
  rewrite !bool_decide_eq_false_2 by assumption. reflexivity.
Qed.

Lemma catch_wrap_throw_inv {A} (m : Eff A) (wrap : exn -> exn) (e : exn)
    (evs : list effect) :
  catch m (fun error => raise (wrap error)) = (Throw e, evs) ->
  exists cause, m = (Throw cause, evs) /\ e = wrap cause.
Proof.
  unfold catch, raise. destruct m as [[a|cause] ev1]; [discriminate|].
  rewrite app_nil_r. intros [= <- <-]. eauto.
Qed.

Lemma and_then_ok_eq {A B} (a : A) (ev1 ev2 : list effect) (k : A -> Eff B)
    (r : outcome B) :
  k a = (r, ev2) -> and_then (Ok a, ev1) k = (r, ev1 ++ ev2).
Proof. intros Hk. unfold and_then. rewrite Hk. reflexivity. Qed.

Lemma catch_wrap_throw {A} (cause : exn) (evs : list effect) (wrap : exn -> exn) :
  catch (A := A) (Throw cause, evs) (fun error => raise (wrap error))
  = (Throw (wrap cause), evs).
Proof. unfold catch, raise. rewrite app_nil_r. reflexivity. Qed.

Lemma request_value_inv (this : BookriseClient) (endpoint : jsstring)
    (options : RequestOptions) (value : json) (evs : list effect) :
  request this endpoint options = (Ok (Some value), evs) ->
  exists reply,
    requestUrlFn this (request_param this endpoint options) = Ok reply
    /\ in_2xx (status reply) = true
    /\ status reply <> 204%nat
    /\ text reply <> []
    /\ JSON_parse (text reply) = Some value
    /\ evs = [Requested (request_param this endpoint options)].
Proof.
  destruct (requestUrlFn this (request_param this endpoint options)) as [reply|e]
    eqn:Hreply.
  - rewrite (request_enter _ _ _ _ Hreply). unfold request_continue.
    destruct (in_2xx (status reply)) eqn:H2xx; cbn [negb].
    + destruct (Js.eqb (text reply) []) eqn:Hempty;
        destruct (status reply =? 204)%nat eqn:H204; cbn [andb negb];
        try (cbn; discriminate).
      destruct (JSON_parse (text reply)) as [parsed|] eqn:Hparse;
        cbn; intros Hreq; inversion Hreq; subst.
      exists reply. split; [reflexivity|]. split; [exact H2xx|].
      split; [apply Nat.eqb_neq; exact H204|].
      split; [apply bool_decide_eq_false_1 in Hempty; exact Hempty|].
      split; [exact Hparse|reflexivity].
    + intros Hreq. inversion Hreq as [[Hfst Hsnd]]. exfalso.
      revert Hfst. apply and_then_raise_throws.
  - rewrite (request_fails _ _ _ _ Hreply). discriminate.
Qed.

(** X17: once the book is found in the list, [chat] of either revision,
    with or without a callback, is its [try] block with the effects of
    both: what the block returns is returned, and what the block throws
    is thrown anew as an [Error] whose message is the words Failed to
    get chat response followed by the message of the error thrown, so
    that the caller sees neither its class nor anything else of it.  So
    it is with the errors of the network: of [fetch] and [requestUrlFn]
    in a streamed chat, and of [request] in a chat without a callback. *)
Theorem chat_wraps_failures (this : BookriseClient) (bookId prompt : jsstring)
    (contextIds : option (list jsstring)) (books : option json)
    (ev0 : list effect) (b : json) :
  bookId <> [] ->
  prompt <> [] ->
  listBooks this = (Ok books, ev0) ->
  find_book bookId books = Ok (Some b) ->
  let failure (cause : exn) (evs : list effect) : Eff json :=
    (Throw (Error (lit "Failed to get chat response: " ++ message cause)), ev0 ++ evs) in
  let wrapped (tried : Eff json) : Eff json :=
    match tried with
    | (Ok response, evs) => (Ok response, ev0 ++ evs)
    | (Throw cause, evs) => failure cause evs
    end in
  let sent := stream_request this (chat_body bookId prompt contextIds) in
  (forall onChunk,
     FetchClient.chat this bookId prompt contextIds onChunk
     = wrapped (FetchClient.chat_try this bookId prompt contextIds onChunk))
  /\ (forall onChunk,
        RequestUrlClient.chat this bookId prompt contextIds onChunk
        = wrapped (RequestUrlClient.chat_try this bookId prompt contextIds onChunk))
  /\ (forall cause,
        fetch this sent = Throw cause ->
        FetchClient.chat this bookId prompt contextIds true = failure cause [Fetched sent])
  /\ (forall cause,
        requestUrlFn this sent = Throw cause ->
        RequestUrlClient.chat this bookId prompt contextIds true
        = failure cause [Requested sent])
  /\ (forall cause evs,
        request this (lit "/chat")
          {| opt_method := Some (lit "POST"); opt_headers := [];
             opt_body := Some (JSON_stringify (chat_body bookId prompt contextIds)) |}
        = (Throw cause, evs) ->
        FetchClient.chat this bookId prompt contextIds false = failure cause evs
        /\ RequestUrlClient.chat this bookId prompt contextIds false = failure cause evs).
Proof.
  intros Hid Hprompt Hbooks Hfound failure wrapped sent.
  pose proof (find_book_found _ _ _ Hfound) as Htruthy.
  assert (forall tried : Eff json,
            catch tried
              (fun error =>
                 raise (Error (lit "Failed to get chat response: " ++ message error)))
            = match tried with
              | (Ok response, evs) => (Ok response, evs)
              | (Throw cause, evs) =>
                  (Throw (Error (lit "Failed to get chat response: " ++ message cause)), evs)
              end) as Hcatch.
  { intros [[response|cause] evs]; [reflexivity|]. apply catch_wrap_throw. }
  assert (forall onChunk,
            FetchClient.chat this bookId prompt contextIds onChunk
            = wrapped (FetchClient.chat_try this bookId prompt contextIds onChunk))
    as Hfetch.
  { intros onChunk. unfold FetchClient.chat.
    rewrite (args_given _ _ Hid Hprompt), Hbooks.
    subst wrapped failure. cbv beta.
    destruct (FetchClient.chat_try this bookId prompt contextIds onChunk)
      as [[response|cause] evs] eqn:Htry;
      apply and_then_ok_eq; rewrite Hfound, and_then_lift_ok, Htruthy, Hcatch;
      reflexivity. }
  assert (forall onChunk,
            RequestUrlClient.chat this bookId prompt contextIds onChunk
            = wrapped (RequestUrlClient.chat_try this bookId prompt contextIds onChunk))
    as Hlater.
  { intros onChunk. unfold RequestUrlClient.chat.
    rewrite (args_given _ _ Hid Hprompt), Hbooks.
    subst wrapped failure. cbv beta.
    destruct (RequestUrlClient.chat_try this bookId prompt contextIds onChunk)
      as [[response|cause] evs] eqn:Htry;
      apply and_then_ok_eq; rewrite Hfound, and_then_lift_ok, Htruthy, Hcatch;
      reflexivity. }
  split; [exact Hfetch|]. split; [exact Hlater|]. split; [|split].
  - intros cause Hcause. rewrite Hfetch. unfold FetchClient.chat_try. fold sent.
    rewrite and_then_perform, Hcause, and_then_lift_throw. reflexivity.
  - intros cause Hcause. rewrite Hlater. unfold RequestUrlClient.chat_try. fold sent.
    rewrite and_then_perform, Hcause, and_then_lift_throw. reflexivity.
  - intros cause evs Hcause. rewrite Hfetch, Hlater.
    unfold FetchClient.chat_try, RequestUrlClient.chat_try.
    rewrite Hcause. split; reflexivity.
Qed.

(** X18: a [chat] without a callback that returns has made exactly two
    network calls, the GET of the book list and then the POST of the
    message to the chat endpoint, and has called no callback.  What it
    returns is the body of the reply to the POST as [JSON.parse] reads
    it, a truthy value; the reply has a status from 200 to 299 other
    than 204 and a body that is not empty.  The two revisions do the
    same. *)
Theorem chat_without_callback (this : BookriseClient) (bookId prompt : jsstring)
    (contextIds : option (list jsstring)) (response : json) (evs : list effect) :
  FetchClient.chat this bookId prompt contextIds false = (Ok response, evs)
  \/ RequestUrlClient.chat this bookId prompt contextIds false = (Ok response, evs) ->
  let post :=
    request_param this (lit "/chat")
      {| opt_method := Some (lit "POST"); opt_headers := [];
         opt_body := Some (JSON_stringify (chat_body bookId prompt contextIds)) |} in
  (exists reply,
     requestUrlFn this post = Ok reply
     /\ in_2xx (status reply) = true
     /\ status reply <> 204%nat
     /\ text reply <> []
     /\ JSON_parse (text reply) = Some response)
  /\ Json.truthy response = true
  /\ evs = [Requested (books_request this); Requested post]
  /\ chunks evs = []
  /\ FetchClient.chat this bookId prompt contextIds false
     = RequestUrlClient.chat this bookId prompt contextIds false.
Proof.
  assert (FetchClient.chat this bookId prompt contextIds false
          = RequestUrlClient.chat this bookId prompt contextIds false) as Hsame
    by reflexivity.
  intros Hchat post.
  assert (RequestUrlClient.chat this bookId prompt contextIds false = (Ok response, evs))
    as Hlater by (destruct Hchat as [Hchat|Hchat]; [rewrite <- Hsame|]; exact Hchat).
  clear Hchat.
  unfold RequestUrlClient.chat, RequestUrlClient.chat_try in Hlater.
  destruct (Js.eqb bookId [] || Js.eqb prompt []); [discriminate|].
  apply and_then_ok_inv in Hlater as (books & ev0 & ev1 & Hbooks & Hlater & ->).
  apply and_then_ok_inv in Hlater as (book & ev2 & ev3 & Hbook & Hlater & ->).
  unfold lift in Hbook; inversion Hbook as [[Hfound Hev2]]; subst ev2; clear Hbook.
  destruct (if_truthy book); [|discriminate].
  apply catch_rethrow_ok_inv in Hlater.
  apply and_then_ok_inv in Hlater as (answer & ev4 & ev5 & Hanswer & Hlater & ->).
  destruct answer as [answer|]; [|discriminate].
  cbn [if_truthy] in Hlater.
  destruct (Json.truthy answer) eqn:Htruthy; [|discriminate].
  injection Hlater as <- <-.
  apply request_value_inv in Hanswer
    as (reply & Hreply & H2xx & H204 & Hbody & Hparse & ->).
  assert (exists items, books = Some (JArr items)) as [items ->]
    by (destruct books as [[| | | |items|]|]; try discriminate; eauto).
  pose proof (request_value_effects _ _ _ _ _ Hbooks) as ->.
  split; [exists reply; auto|].
  split; [exact Htruthy|]. split; [reflexivity|]. split; [reflexivity|exact Hsame].
Qed.

(** X19: in the later revision a streamed [chat] whose request is
    answered with a status outside 200 to 299, or with an empty text,
    calls no callback and throws: the message names the status and the
    text, or says that the stream was empty. *)
Theorem later_stream_refused (this : BookriseClient) (bookId prompt : jsstring)
    (contextIds : option (list jsstring)) (books : option json) (ev0 : list effect)
    (b : json) (response : RequestUrlResponse) :
  bookId <> [] ->
  prompt <> [] ->
  listBooks this = (Ok books, ev0) ->
  find_book bookId books = Ok (Some b) ->
  requestUrlFn this (stream_request this (chat_body bookId prompt contextIds))
  = Ok response ->
  let failure (reason : jsstring) : Eff json :=
    (Throw (Error (lit "Failed to get chat response: " ++ reason)),
     ev0 ++ [Requested (stream_request this (chat_body bookId prompt contextIds))]) in
  (in_2xx (status response) = false ->
   RequestUrlClient.chat this bookId prompt contextIds true
   = failure (lit "Chat API error: " ++ decimal (status response) ++ lit " - "
              ++ text response))
  /\ (in_2xx (status response) = true -> text response = [] ->
      RequestUrlClient.chat this bookId prompt contextIds true
      = failure (lit "Received empty response from chat API stream")).
Proof.
  intros Hid Hprompt Hbooks Hfound Hresponse failure. subst failure. cbv beta.
  pose proof (find_book_found _ _ _ Hfound) as Htruthy.
  unfold RequestUrlClient.chat, RequestUrlClient.chat_try.
  rewrite (args_given _ _ Hid Hprompt), Hbooks.
  split; [intros Hstatus|intros Hstatus Htext]; apply and_then_ok_eq;
    rewrite Hfound, and_then_lift_ok, Htruthy;
    rewrite and_then_perform, Hresponse, and_then_lift_ok, Hstatus; cbn [negb].
  - reflexivity.
  - rewrite Htext.
    assert (Js.eqb (@nil N) [] = true) as Hnil by reflexivity.
    rewrite !Hnil. reflexivity.
Qed.

(** X20: in the revision that reads from [fetch], a streamed [chat]
    throws when the status is outside 200 to 299 and when the response
    has no body to read, having called no callback; and when the reader
    fails midway, [chat] throws the wrapped error after every line read
    so far was processed: the chunks of those lines were already passed
    to the callback. *)
Theorem fetch_stream_broken (this : BookriseClient) (bookId prompt : jsstring)
    (contextIds : option (list jsstring)) (books : option json) (ev0 : list effect)
    (b : json) (fetched : FetchResponse) :
  bookId <> [] ->
  prompt <> [] ->
  listBooks this = (Ok books, ev0) ->
  find_book bookId books = Ok (Some b) ->
  fetch this (stream_request this (chat_body bookId prompt contextIds)) = Ok fetched ->
  let failure (reason : jsstring) (shown : list effect) : Eff json :=
    (Throw (Error (lit "Failed to get chat response: " ++ reason)),
     ev0 ++ Fetched (stream_request this (chat_body bookId prompt contextIds)) :: shown) in
  (in_2xx (fetch_status fetched) = false ->
   FetchClient.chat this bookId prompt contextIds true
   = failure (lit "Chat API error: " ++ decimal (fetch_status fetched) ++ lit " - "
              ++ fetch_text fetched) [])
  /\ (in_2xx (fetch_status fetched) = true -> fetch_body fetched = None ->
      FetchClient.chat this bookId prompt contextIds true
      = failure (lit "Failed to get response reader") [])
  /\ (forall reads cause,
        in_2xx (fetch_status fetched) = true ->
        fetch_body fetched = Some (reads, ReadFails cause) ->
        FetchClient.chat this bookId prompt contextIds true
        = failure (message cause)
            (snd (FetchClient.read_loop
                    {| FetchClient.fullAnswer := []; FetchClient.citedChapters := [] |}
                    reads))).
Proof.
  intros Hid Hprompt Hbooks Hfound Hfetched failure. subst failure. cbv beta.
  pose proof (find_book_found _ _ _ Hfound) as Htruthy.
  unfold FetchClient.chat, FetchClient.chat_try.
  rewrite (args_given _ _ Hid Hprompt), Hbooks.
  split; [intros Hstatus|split; [intros Hstatus Hbody|intros reads cause Hstatus Hbody]];
    apply and_then_ok_eq;
    rewrite Hfound, and_then_lift_ok, Htruthy;
    rewrite and_then_perform, Hfetched, and_then_lift_ok, Hstatus; cbn [negb];
    rewrite ?Hbody.
  - reflexivity.
  - reflexivity.
  - destruct (fetch_read_loop_total reads
                {| FetchClient.fullAnswer := []; FetchClient.citedChapters := [] |})
      as (st' & shown & Hloop & _).
    rewrite Hloop. cbn [snd]. unfold and_then, raise, catch. cbn [fst snd].
    rewrite !app_nil_r. reflexivity.
Qed.

End ChatFound.

Section ChatFoundExamples.
Import Client Observe.
#[local] Existing Instances Sample.host Sample.json_host.

Lemma library_has_b1 :
  listBooks (Fixture.chatting 200 (lit "{}"))
  = (Ok (Some (JArr [JObj [(lit "id", JStr (lit "b1"))]])),
     [Requested (books_request (Fixture.chatting 200 (lit "{}")))]).
Proof. vm_compute. reflexivity. Qed.

Lemma chat_wraps_failures_witness :
  FetchClient.chat (Sample.answering 200 Sample.library) (lit "b1") (lit "hello") None true
  = (Throw (Error (lit "Failed to get chat response: Failed to fetch")),
     [Requested (books_request (Sample.answering 200 Sample.library));
      Fetched (stream_request (Sample.answering 200 Sample.library)
                 (chat_body (lit "b1") (lit "hello") None))]).
Proof.
  destruct (chat_wraps_failures (Sample.answering 200 Sample.library) (lit "b1")
              (lit "hello") None
              (Some (JArr [JObj [(lit "id", JStr (lit "b1"))]]))
              [Requested (books_request (Sample.answering 200 Sample.library))]
              (JObj [(lit "id", JStr (lit "b1"))])
              ltac:(discriminate) ltac:(discriminate)
              ltac:(vm_compute; reflexivity) ltac:(vm_compute; reflexivity))
    as (_ & _ & Hfetch & _).
  rewrite (Hfetch (Error (lit "Failed to fetch")) eq_refl). reflexivity.
Defined.

Lemma chat_without_callback_witness :
  FetchClient.chat (Fixture.chatting 200 (lit "{}")) (lit "b1") (lit "hello") None false
  = (Ok (JObj []),
     [Requested (books_request (Fixture.chatting 200 (lit "{}")));
      Requested (request_param (Fixture.chatting 200 (lit "{}")) (lit "/chat")
                   {| opt_method := Some (lit "POST"); opt_headers := [];
                      opt_body := Some (JSON_stringify
                                          (chat_body (lit "b1") (lit "hello") None)) |})])
  /\ JSON_parse (lit "{}") = Some (JObj []).
Proof.
  destruct (chat_without_callback (Fixture.chatting 200 (lit "{}")) (lit "b1") (lit "hello")
              None (JObj [])
              (snd (FetchClient.chat (Fixture.chatting 200 (lit "{}")) (lit "b1")
                      (lit "hello") None false))
              ltac:(left; vm_compute; reflexivity)) as (_ & _ & <- & _).
  split; vm_compute; reflexivity.
Defined.

Lemma later_stream_refused_witness :
  fst (RequestUrlClient.chat (Fixture.chatting 503 (lit "busy")) (lit "b1") (lit "hello")
         None true)
  = Throw (Error (lit "Failed to get chat response: Chat API error: 503 - busy")).
Proof.
  destruct (later_stream_refused (Fixture.chatting 503 (lit "busy")) (lit "b1") (lit "hello")
              None _ _ (JObj [(lit "id", JStr (lit "b1"))])
              {| status := 503; text := lit "busy" |}
              ltac:(discriminate) ltac:(discriminate) library_has_b1
              ltac:(vm_compute; reflexivity) ltac:(vm_compute; reflexivity))
    as [Hstatus _].
  rewrite (Hstatus eq_refl). vm_compute. reflexivity.
Defined.

Lemma fetch_stream_broken_witness :
  let result := FetchClient.chat Fixture.breaking (lit "b1") (lit "hello") None true in
  fst result = Throw (Error (lit "Failed to get chat response: network error"))
  /\ chunks (snd result) = [JStr (lit "Hel"); JStr (lit "lo")].
Proof.
  intros result. subst result.
  destruct (fetch_stream_broken Fixture.breaking (lit "b1") (lit "hello") None
              (Some (JArr [JObj [(lit "id", JStr (lit "b1"))]]))
              [Requested (books_request Fixture.breaking)]
              (JObj [(lit "id", JStr (lit "b1"))])
              {| fetch_status := 200; fetch_text := [];
                 fetch_body := Some ([join nl Sample.hello_lines ++ nl],
                                     ReadFails (Error (lit "network error"))) |}
              ltac:(discriminate) ltac:(discriminate)
              ltac:(vm_compute; reflexivity) ltac:(vm_compute; reflexivity)
              ltac:(vm_compute; reflexivity))
    as (_ & _ & Hbreaks).
  rewrite (Hbreaks _ _ eq_refl eq_refl). split; vm_compute; reflexivity.
Defined.

End ChatFoundExamples.

(** ** The lines of a stream *)

Section StreamLines.
Context `{JsonHost}.
Import Client Observe.
Local Open Scope client_scope.

Lemma and_then_assoc {A B C} (m : Eff A) (f : A -> Eff B) (g : B -> Eff C) :
  and_then (and_then m f) g = and_then m (fun a => and_then (f a) g).
Proof.
  unfold and_then. destruct m as [[a|e] ev1]; [|reflexivity].
  destruct (f a) as [[b|e] ev2]; [|reflexivity].
  destruct (g b) as [r ev3]. rewrite app_assoc. reflexivity.
Qed.

Lemma and_then_pure_r {A} (m : Eff A) : and_then m pure = m.
Proof.
  unfold and_then, pure. destruct m as [[a|e] ev1]; [|reflexivity].
  rewrite app_nil_r. reflexivity.
Qed.

Lemma and_then_ext {A B} (m : Eff A) (f g : A -> Eff B) :
  (forall a, f a = g a) -> and_then m f = and_then m g.
Proof.
  intros Hfg. unfold and_then. destruct m as [[a|e] ev1]; [|reflexivity].
  rewrite Hfg. reflexivity.
Qed.

Lemma fetch_process_lines_app (l1 l2 : list jsstring) (st : FetchClient.StreamState) :
  FetchClient.process_lines st (l1 ++ l2)
  = let* st' := FetchClient.process_lines st l1 in FetchClient.process_lines st' l2.
Proof.
  revert st. induction l1 as [|line l1 IH]; intros st.
  - cbn [app FetchClient.process_lines]. rewrite and_then_pure_l. reflexivity.
  - cbn [app FetchClient.process_lines]. rewrite and_then_assoc.
    apply and_then_ext. intros st'. apply IH.
Qed.

(** X21: the revision that reads from [fetch] splits every read into
    lines on its own: reading a stream is processing, in order, the lines
    of the first read, then the lines of the second, and so on.  Nothing
    is carried from one read to the next, so a line that arrives in two
    reads is processed as two lines. *)
Theorem read_loop_splits_each_read (reads : list jsstring)
    (st : FetchClient.StreamState) :
  FetchClient.read_loop st reads
  = FetchClient.process_lines st (concat (map (split 10) reads)).
Proof.
  revert st. induction reads as [|chunk reads IH]; intros st; [reflexivity|].
  cbn [FetchClient.read_loop map concat].
  rewrite fetch_process_lines_app. apply and_then_ext. intros st'. apply IH.
Qed.

Lemma trimEnd_snoc (s : jsstring) (c : N) :
  is_ws c = true -> trimEnd (s ++ [c]) = trimEnd s.
Proof.
  intros Hc. unfold trimEnd. rewrite rev_app_distr. cbn [rev app trimStart].
  rewrite Hc. reflexivity.
Qed.

Lemma trim_snoc (s : jsstring) (c : N) : is_ws c = true -> trim (s ++ [c]) = trim s.
Proof.
  intros Hc. unfold trim. induction s as [|a s IH].
  - cbn [app trimStart]. rewrite Hc. reflexivity.
  - cbn [app trimStart]. destruct (is_ws a); [exact IH|].
    change (a :: s ++ [c]) with ((a :: s) ++ [c]). apply trimEnd_snoc, Hc.
Qed.

Lemma trim_drop_final_cr (s : jsstring) : trim (drop_final_cr s) = trim s.
Proof.
  unfold drop_final_cr. destruct (rev s) as [|c r] eqn:Hrev; [reflexivity|].
  assert (s = rev r ++ [c]) as Hs.
  { rewrite <- (rev_involutive s), Hrev. reflexivity. }
  destruct (N.eq_dec c 13) as [->|Hne].
  - rewrite Hs, trim_snoc by reflexivity. reflexivity.
  - destruct c as [|[[q|[q|q|]|]|q|]]; try reflexivity.
    destruct q; try reflexivity. congruence.
Qed.

Lemma later_process_lines_but_last (f : jsstring -> jsstring) (lines : list jsstring) :
  (forall s, trim (f s) = trim s) ->
  forall st, RequestUrlClient.process_lines st (map_but_last f lines)
             = RequestUrlClient.process_lines st lines.
Proof.
  intros Hf. induction lines as [|line lines IH]; intros st; [reflexivity|].
  destruct lines as [|line' lines]; [reflexivity|].
  change (map_but_last f (line :: line' :: lines))
    with (f line :: map_but_last f (line' :: lines)).
  cbn [RequestUrlClient.process_lines].
  assert (RequestUrlClient.process_line st (f line)
          = RequestUrlClient.process_line st line) as ->.
  { unfold RequestUrlClient.process_line. rewrite Hf. reflexivity. }
  apply and_then_ext. intros st'. apply IH.
Qed.

(** X22: the later revision does not care how the lines of the stream
    end: splitting the text at line feeds with an optional carriage
    return before them gives the same calls, answer and chapters as
    splitting at the line feeds alone, since every line is trimmed before
    it is looked at. *)
Theorem later_line_ends_do_not_matter (text : jsstring)
    (st : RequestUrlClient.StreamState) :
  RequestUrlClient.process_lines st (split_lines text)
  = RequestUrlClient.process_lines st (split 10 text).
Proof. apply later_process_lines_but_last, trim_drop_final_cr. Qed.

(** X23: a line that is no data line is skipped, in both revisions: it
    calls no callback, leaves the answer and the chapters as they are,
    and the stream without it is processed in the same way.  In the
    later revision this holds as well for a data line without payload. *)
Theorem other_lines_are_skipped :
  (forall (st : FetchClient.StreamState) (line : jsstring) (before after : list jsstring),
     startsWith line (lit "data: ") = false ->
     FetchClient.process_line st line = (Ok st, [])
     /\ FetchClient.process_lines st (before ++ line :: after)
        = FetchClient.process_lines st (before ++ after))
  /\ (forall (st : RequestUrlClient.StreamState) (rawLine : jsstring)
        (before after : list jsstring),
        startsWith (trim rawLine) (lit "data:") = false
        \/ trim (slice 5 (trim rawLine)) = [] ->
        RequestUrlClient.process_line st rawLine = (Ok st, [])
        /\ RequestUrlClient.process_lines st (before ++ rawLine :: after)
           = RequestUrlClient.process_lines st (before ++ after)).
Proof.
  split.
  - intros st line before after Hline.
    assert (forall st0, FetchClient.process_line st0 line = (Ok st0, [])) as Hskip.
    { intros st0. unfold FetchClient.process_line. rewrite Hline. reflexivity. }
    split; [apply Hskip|]. apply fetch_process_lines_skip, Hskip.
  - intros st rawLine before after Hline.
    assert (forall st0, RequestUrlClient.process_line st0 rawLine = (Ok st0, [])) as Hskip.
    { intros st0. unfold RequestUrlClient.process_line.
      destruct (startsWith (trim rawLine) (lit "data:")) eqn:Hdata; [|reflexivity].
      destruct Hline as [Hline|Hline]; [discriminate|].
      rewrite Hline. reflexivity. }
    split; [apply Hskip|]. apply later_process_lines_skip, Hskip.
Qed.

End StreamLines.

Section StreamLinesExamples.
Import Client Observe.
#[local] Existing Instances Sample.host Sample.json_host.

Lemma other_lines_are_skipped_witness :
  let start := {| FetchClient.fullAnswer := []; FetchClient.citedChapters := [] |} in
  FetchClient.process_lines start
    ([lit ": keep-alive"] ++ lit "event: message" :: Sample.hello_lines)
  = FetchClient.process_lines start ([lit ": keep-alive"] ++ Sample.hello_lines).
Proof.
  intros start.
  destruct (@other_lines_are_skipped Sample.host Sample.json_host) as [Hfetch _].
  apply (Hfetch start (lit "event: message") [lit ": keep-alive"] Sample.hello_lines).
  reflexivity.
Defined.

End StreamLinesExamples.

(** ** The cited chapters *)

Section CitedChapters.
Context `{JsonHost}.
Import Client Observe Chapters.
Local Open Scope client_scope.

Lemma apart_filter {A} (same : A -> A -> bool) (P : A -> bool) (l : list A) :
  apart same l -> apart same (filter (fun y => P y = true) l).
Proof.
  induction l as [|x l IH]; [intros _; exact I|].
  intros [Hx Hl]. rewrite filter_cons.
  destruct (decide (P x = true)); [|exact (IH Hl)].
  split; [|exact (IH Hl)].
  apply Forall_forall. intros y Hy. apply list_elem_of_filter in Hy as [_ Hy].
  rewrite Forall_forall in Hx. apply Hx, Hy.
Qed.

Lemma apart_dedupe {A} (same : A -> A -> bool) (l : list A) : apart same (dedupe same l).
Proof.
  induction l as [|x l IH]; [exact I|].
  cbn [dedupe]. split; [|apply apart_filter, IH].
  apply Forall_forall. intros y Hy. apply list_elem_of_filter in Hy as [Hy _].
  apply negb_true_iff, Hy.
Qed.

Lemma apart_snoc {A} (same : A -> A -> bool) (l : list A) (y : A) :
  apart same l -> Forall (fun x => same x y = false) l -> apart same (l ++ [y]).
Proof.
  induction l as [|x l IH]; [intros _ _; split; [constructor|exact I]|].
  intros [Hx Hl] Hy. inversion Hy as [|? ? Hxy Hly]; subst.
  split; [|exact (IH Hl Hly)].
  apply Forall_app. split; [exact Hx|]. constructor; [exact Hxy|constructor].
Qed.

Lemma apart_add_chapters (items : list json) :
  forall set : list number,
    apart (fun x y => number_same y x) set ->
    apart (fun x y => number_same y x) (RequestUrlClient.add_chapters set items).
Proof.
  unfold RequestUrlClient.add_chapters.
  induction items as [|chapter items IH]; intros set Hset; [exact Hset|].
  cbn [fold_left]. apply IH.
  destruct chapter as [| |n| | |]; try exact Hset.
  destruct (existsb (number_same n) set) eqn:Hin; [exact Hset|].
  apply apart_snoc; [exact Hset|].
  apply Forall_forall. intros x Hx.
  destruct (number_same n x) eqn:Hnx; [|reflexivity].
  assert (existsb (number_same n) set = true) as Hyes; [|congruence].
  apply existsb_exists. exists x. split; [|exact Hnx].
  apply list_elem_of_In, Hx.
Qed.

Lemma emitChunk_keeps_chapters (st st' : RequestUrlClient.StreamState) (c : json)
    (evs : list effect) :
  RequestUrlClient.emitChunk st c = (Ok st', evs) ->
  RequestUrlClient.citedChapters st' = RequestUrlClient.citedChapters st.
Proof.
  rewrite emitChunk_unfold.
  destruct (Json.truthy c); [destruct (Json.ToString c)|];
    intros [= <- _]; reflexivity.
Qed.

Lemma later_try_block_chapters (st st' : RequestUrlClient.StreamState) (data : jsstring)
    (evs : list effect) :
  RequestUrlClient.try_block st data = (Ok st', evs) ->
  exists items,
    RequestUrlClient.citedChapters st'
    = RequestUrlClient.add_chapters (RequestUrlClient.citedChapters st) items.
Proof.
  unfold RequestUrlClient.try_block.
  destruct (JSON_parse data) as [parsed|]; [|discriminate].
  destruct (null_or_not parsed) as [->|Hnull]; [discriminate|].
  rewrite !(get_not_null _ _ Hnull), !and_then_lift_ok.
  intros Hrun. apply and_then_ok_inv in Hrun as (st1 & ev1 & ev2 & Hemit & Hcited & _).
  assert (RequestUrlClient.citedChapters st1 = RequestUrlClient.citedChapters st) as Hkeep.
  { destruct (if_truthy (field (lit "content") parsed));
      [exact (emitChunk_keeps_chapters _ _ _ _ Hemit)|].
    destruct (if_truthy (field (lit "answer") parsed));
      [exact (emitChunk_keeps_chapters _ _ _ _ Hemit)|].
    destruct (if_truthy (field (lit "delta") parsed));
      [exact (emitChunk_keeps_chapters _ _ _ _ Hemit)|].
    destruct parsed; try (injection Hemit as <- _; reflexivity).
    exact (emitChunk_keeps_chapters _ _ _ _ Hemit). }
  rewrite <- Hkeep.
  destruct (field (lit "cited_chapters") parsed) as [[| | | |items|]|];
    try (injection Hcited as <- _; exists []; reflexivity).
  injection Hcited as <- _. exists items. reflexivity.
Qed.

Lemma later_process_line_chapters (st st' : RequestUrlClient.StreamState)
    (rawLine : jsstring) (evs : list effect) :
  RequestUrlClient.process_line st rawLine = (Ok st', evs) ->
  exists items,
    RequestUrlClient.citedChapters st'
    = RequestUrlClient.add_chapters (RequestUrlClient.citedChapters st) items.
Proof.
  unfold RequestUrlClient.process_line.
  destruct (negb (startsWith (trim rawLine) (lit "data:")));
    [intros [= <- _]; exists []; reflexivity|].
  destruct (Js.eqb (trim (slice 5 (trim rawLine))) []
            || Js.eqb (trim (slice 5 (trim rawLine))) (lit "[DONE]"));
    [intros [= <- _]; exists []; reflexivity|].
  destruct (RequestUrlClient.try_block st (trim (slice 5 (trim rawLine))))
    as [[st1|e] ev1] eqn:Htry.
  - intros [= <- _]. exact (later_try_block_chapters _ _ _ _ Htry).
  - unfold catch. rewrite and_then_perform.
    destruct (RequestUrlClient.emitChunk st (JStr (trim (slice 5 (trim rawLine)))))
      as [[st1|e1] ev2] eqn:Hemit; cbn [fst snd]; [|discriminate].
    intros [= <- _]. exists [].
    exact (emitChunk_keeps_chapters _ _ _ _ Hemit).
Qed.

Lemma later_process_lines_chapters (lines : list jsstring) :
  forall (st st' : RequestUrlClient.StreamState) (evs : list effect),
    RequestUrlClient.process_lines st lines = (Ok st', evs) ->
    exists items,
      RequestUrlClient.citedChapters st'
      = RequestUrlClient.add_chapters (RequestUrlClient.citedChapters st) items.
Proof.
  induction lines as [|line lines IH]; intros st st' evs.
  - intros [= <- _]. exists []. reflexivity.
  - cbn [RequestUrlClient.process_lines]. intros Hrun.
    apply and_then_ok_inv in Hrun as (st1 & ev1 & ev2 & Hline & Hrest & _).
    apply later_process_line_chapters in Hline as [items1 H1].
    apply IH in Hrest as [items2 H2].
    exists (items1 ++ items2). rewrite H2, H1.
    unfold RequestUrlClient.add_chapters. rewrite fold_left_app. reflexivity.
Qed.

(** X24: the chapters a streamed [chat] returns hold no chapter twice, in
    both revisions: no item of the array is the same, as a [Set] compares
    its members, as an earlier item.  In the later revision the items are
    moreover all numbers: what else the stream cited is left out. *)
Theorem cited_chapters_are_unique :
  (forall (this : BookriseClient) (bookId prompt : jsstring)
     (contextIds : option (list jsstring)) (response : json) (effects : list effect),
     FetchClient.chat this bookId prompt contextIds true = (Ok response, effects) ->
     exists chapters,
       Json.get (lit "cited_chapters") response = Ok (Some (JArr chapters))
       /\ apart Json.same chapters)
  /\ (forall (this : BookriseClient) (bookId prompt : jsstring)
        (contextIds : option (list jsstring)) (response : json) (effects : list effect),
        RequestUrlClient.chat this bookId prompt contextIds true = (Ok response, effects) ->
        exists numbers,
          Json.get (lit "cited_chapters") response = Ok (Some (JArr (map JNum numbers)))
          /\ apart (fun x y => number_same y x) numbers).
Proof.
  split.
  - intros this bookId prompt contextIds response effects Hchat.
    unfold FetchClient.chat, FetchClient.chat_try in Hchat.
    destruct (Js.eqb bookId [] || Js.eqb prompt []); [discriminate|].
    apply and_then_ok_inv in Hchat as (books & ev0 & ev1 & Hbooks & Hchat & ->).
    apply and_then_ok_inv in Hchat as (book & ev2 & ev3 & Hbook & Hchat & ->).
    destruct (if_truthy book); [|discriminate].
    apply catch_rethrow_ok_inv in Hchat.
    rewrite and_then_perform in Hchat.
    destruct (fetch this (stream_request this (chat_body bookId prompt contextIds)))
      as [fetched|e]; [|discriminate].
    rewrite and_then_lift_ok in Hchat.
    destruct (negb (in_2xx (fetch_status fetched))); [discriminate|].
    destruct (fetch_body fetched) as [[reads ending]|]; [|discriminate].
    destruct (FetchClient.read_loop _ reads) as [[st'|e] evs]; [|discriminate].
    unfold and_then in Hchat. destruct ending; [|discriminate].
    cbn in Hchat. inversion Hchat; subst. clear Hchat.
    eexists. split; [reflexivity|]. apply apart_dedupe.
  - intros this bookId prompt contextIds response effects Hchat.
    unfold RequestUrlClient.chat, RequestUrlClient.chat_try in Hchat.
    destruct (Js.eqb bookId [] || Js.eqb prompt []); [discriminate|].
    apply and_then_ok_inv in Hchat as (books & ev0 & ev1 & Hbooks & Hchat & ->).
    apply and_then_ok_inv in Hchat as (book & ev2 & ev3 & Hbook & Hchat & ->).
    destruct (if_truthy book); [|discriminate].
    apply catch_rethrow_ok_inv in Hchat.
    rewrite and_then_perform in Hchat.
    destruct (requestUrlFn this (stream_request this (chat_body bookId prompt contextIds)))
      as [received|e]; [|discriminate].
    rewrite and_then_lift_ok in Hchat.
    destruct (negb (in_2xx (status received))); [discriminate|].
    destruct (Js.eqb (text received) []); [discriminate|].
    destruct (RequestUrlClient.process_lines _ (split_lines (text received)))
      as [[st'|e] evs] eqn:Hlines; [|discriminate].
    unfold and_then in Hchat. cbn in Hchat. inversion Hchat; subst. clear Hchat.
    exists (RequestUrlClient.citedChapters st'). split; [reflexivity|].
    apply later_process_lines_chapters in Hlines as [items ->].
    apply apart_add_chapters. exact I.
Qed.

End CitedChapters.

Section CitedChaptersExamples.
Import Client Observe Chapters.
#[local] Existing Instances Sample.host Sample.json_host.

Lemma cited_chapters_are_unique_witness :
  let fetched := FetchClient.chat Fixture.citing (lit "b1") (lit "hello") None true in
  let later := RequestUrlClient.chat Fixture.citing (lit "b1") (lit "hello") None true in
  let chapters := [JNum 3%Z; JNum 1%Z; JStr (lit "2"); JNum 2%Z] in
  let numbers := [JNum 3%Z; JNum 1%Z; JNum 2%Z] in
  fst fetched = Ok (ChatResponse (lit "Hel") [] chapters)
  /\ fst later = Ok (ChatResponse (lit "Hel") [] numbers)
  /\ (exists items,
        Json.get (lit "cited_chapters") (ChatResponse (lit "Hel") [] chapters)
        = Ok (Some (JArr items))
        /\ apart Json.same items)
  /\ (exists cited : list Z,
        Json.get (lit "cited_chapters") (ChatResponse (lit "Hel") [] numbers)
        = Ok (Some (JArr (map JNum cited)))
        /\ apart (fun x y => Z.eqb y x) cited).
Proof.
  intros fetched later chapters numbers.
  destruct (@cited_chapters_are_unique Sample.host Sample.json_host) as [Hfetch Hlater].
  split; [vm_compute; reflexivity|]. split; [vm_compute; reflexivity|]. split.
  - apply (Hfetch Fixture.citing (lit "b1") (lit "hello") None
             (ChatResponse (lit "Hel") [] chapters) (snd fetched)).
    vm_compute. reflexivity.
  - apply (Hlater Fixture.citing (lit "b1") (lit "hello") None
             (ChatResponse (lit "Hel") [] numbers) (snd later)).
    vm_compute. reflexivity.
Defined.

End CitedChaptersExamples.

(** ** [chat] of the first revision *)

Section Legacy.
Context `{JsonHost}.
Import Client Observe.
Local Open Scope client_scope.


End Legacy.

Section LegacyExamples.
Import Client Observe.
#[local] Existing Instances Sample.host Sample.json_host.


End LegacyExamples.

(** ** The chat view *)

Section ChatViewSend.
Context `{JsonHost} `{ChatView.SelectHost}.
Import ChatView.













Lemma try_chat_asks (c : BookriseClient) (bookId message : jsstring) (thinking : nat)
    (view : View) :
  exists notices,
    snd (try_chat c bookId message thinking view) = Asked bookId message :: notices
    /\ Forall (fun a => exists shown, a = Noticed shown) notices.
Proof.
  assert (Forall (fun a => exists shown, a = Noticed shown)
            [Noticed (lit "Error sending chat message. See console.")]) as Hnotice
    by (repeat constructor; eauto).
  unfold try_chat.
  destruct (chat c bookId message) as [response|e];
    [|eexists; split; [reflexivity|exact Hnotice]].
  destruct (if Json.truthy response then Json.get (lit "answer") response else Ok None)
    as [answer|e]; [|eexists; split; [reflexivity|exact Hnotice]].
  destruct (Client.if_truthy answer) as [a|]; [|eexists; split; [reflexivity|constructor]].
  destruct (displayAIMessage a (remove thinking view)) as [[[]|e] shown].
  - eexists. split; [reflexivity|constructor].
  - eexists. split; [reflexivity|exact Hnotice].
Qed.

(** X27: [handleSendMessage] calls [chat] at most once, and it calls it
    exactly when the input is not blank, a book is selected and the
    client is there: the call then passes the selected book and the
    trimmed input.  Otherwise the view is left exactly as it was: for a
    blank input nothing at all happens, and without a book or without a
    client a notice is all there is. *)
Theorem handleSendMessage_asks_once (client : option BookriseClient) (view : View) :
  let message := trim (messageInput_value view) in
  (message = [] \/ truthy (selectedBookId view) = false \/ client = None ->
   fst (handleSendMessage client view) = view
   /\ Forall (fun a => exists shown, a = Noticed shown) (snd (handleSendMessage client view))
   /\ (message = [] -> snd (handleSendMessage client view) = []))
  /\ (message <> [] -> truthy (selectedBookId view) = true -> client <> None ->
      exists notices,
        snd (handleSendMessage client view)
        = Asked (or_else (selectedBookId view) []) message :: notices
        /\ Forall (fun a => exists shown, a = Noticed shown) notices).
Proof.
  intros message. unfold handleSendMessage. fold message. split.
  - intros Hrefused.
    destruct (Js.eqb message []) eqn:Hblank.
    { repeat split; constructor. }
    apply bool_decide_eq_false_1 in Hblank.
    destruct (truthy (selectedBookId view)) eqn:Hselected; cbn [negb].
    + destruct client as [c|].
      * destruct Hrefused as [Hno|[Hno|Hno]]; [contradiction|discriminate..].
      * repeat split; [repeat constructor; eauto|contradiction].
    + repeat split; [repeat constructor; eauto|contradiction].
  - intros Hmessage Hselected Hclient.
    unfold Js.eqb at 1. rewrite bool_decide_eq_false_2 by exact Hmessage.
    rewrite Hselected. cbn [negb].
    destruct client as [c|]; [|congruence].
    apply try_chat_asks.
Qed.

End ChatViewSend.

Section ChatViewLoad.
Context `{JsonHost} `{ChatView.SelectHost}.
Import ChatView.

(** X28: [loadBooks] on a view whose list of books is an array always
    returns, and leaves the list an array: the books of the client when
    it lists them, no books when the list cannot be fetched or comes as
    null, which is reported as a failure to load, and the books there
    were when there is no client.  The selector then has its placeholder
    option followed by one option for each book in order, or the single
    option that no books are available; it is disabled exactly when there
    are no books; and the messages of the page are not touched. *)
Theorem loadBooks_settles (client : option BookriseClient) (view : View)
    (known : list Book.t) :
  books view = Some known ->
  let loaded :=
    match client with
    | Some c => match listBooks c with Ok (Some l) => l | _ => [] end
    | None => known
    end in
  let notices :=
    match client with
    | Some c =>
        match listBooks c with
        | Ok (Some _) => []
        | _ => [Noticed (lit "Could not load books for chat. See console for details.")]
        end
    | None => [Noticed (lit "BookRise client not available. API key might be missing.")]
    end in
  exists view',
    loadBooks client view = (Ok tt, view', notices)
    /\ books view' = Some loaded
    /\ bookSelectEl view'
       = match loaded with
         | [] => [{| option_text := lit "No books available"; option_value := [] |}]
         | _ :: _ =>
             {| option_text := lit "-- Select a Book --"; option_value := [] |}
             :: map (fun b => {| option_text := Book.title b; option_value := Book.id b |})
                  loaded
         end
    /\ bookSelectDisabled view' = match loaded with [] => true | _ :: _ => false end
    /\ (loaded = [] -> selectedBookId view' = None)
    /\ chatMessagesContainerEl view' = chatMessagesContainerEl view.
Proof.
  intros Hknown loaded notices.
  assert (forall (l : list Book.t) (v : View),
            books v = Some l ->
            exists v', populateBookSelect v = (Ok tt, v')
                       /\ books v' = Some l
                       /\ bookSelectEl v'
                          = match l with
                            | [] => [{| option_text := lit "No books available";
                                        option_value := [] |}]
                            | _ :: _ =>
                                {| option_text := lit "-- Select a Book --";
                                   option_value := [] |}
                                :: map (fun b => {| option_text := Book.title b;
                                                    option_value := Book.id b |}) l
                            end
                       /\ bookSelectDisabled v' = match l with [] => true | _ :: _ => false end
                       /\ (l = [] -> selectedBookId v' = None)
                       /\ chatMessagesContainerEl v' = chatMessagesContainerEl v)
    as Hpopulate.
  { intros l v Hl. unfold populateBookSelect.
    cbn [set_select books]. rewrite Hl.
    destruct l as [|b l]; eexists; (split; [reflexivity|]);
      cbn [set_select books bookSelectEl bookSelectDisabled selectedBookId
           chatMessagesContainerEl];
      repeat split; try assumption; discriminate. }
  assert (forall v, chatMessagesContainerEl (populateBookSelect v).2
                    = chatMessagesContainerEl v) as Hpage.
  { intros v. unfold populateBookSelect. cbn [set_select books].
    destruct (books v) as [[|b l]|]; reflexivity. }
  unfold loadBooks. subst loaded notices.
  destruct client as [c|].
  - destruct (listBooks c) as [[l|]|e].
    + destruct (Hpopulate l (set_books (Some l) view) eq_refl) as (v' & -> & Hv').
      exists v'. split; [reflexivity|exact Hv'].
    + destruct (populateBookSelect (set_books None view)) as [r v0] eqn:Hfirst.
      assert (r = Throw (TypeError (lit "Cannot read properties of null (reading 'length')"))
              /\ chatMessagesContainerEl v0 = chatMessagesContainerEl view) as [-> Hv0].
      { unfold populateBookSelect in Hfirst. cbn [set_select set_books books] in Hfirst.
        injection Hfirst as <- <-. split; reflexivity. }
      destruct (Hpopulate [] (set_books (Some []) v0) eq_refl) as (v' & -> & Hv').
      exists v'. split; [reflexivity|].
      destruct Hv' as (? & ? & ? & ? & Hsame). repeat split; try assumption.
      rewrite Hsame. exact Hv0.
    + destruct (Hpopulate [] (set_books (Some []) view) eq_refl) as (v' & -> & Hv').
      exists v'. split; [reflexivity|exact Hv'].
  - destruct (Hpopulate known view Hknown) as (v' & -> & Hv').
    exists v'. split; [reflexivity|exact Hv'].
Qed.

End ChatViewLoad.

Section ChatViewExamples.
Import ChatView.
#[local] Existing Instances Sample.host Sample.json_host Page.first_option.


Lemma handleSendMessage_asks_once_witness :
  handleSendMessage (Some Page.replying) (Page.page None (lit "hi"))
  = (Page.page None (lit "hi"),
     [Noticed (lit "Please select a book before sending a message.")]).
Proof.
  destruct (handleSendMessage_asks_once (Some Page.replying) (Page.page None (lit "hi")))
    as [Hrefused _].
  destruct (Hrefused (or_intror (or_introl eq_refl))) as (Hview & _ & _).
  rewrite (surjective_pairing (handleSendMessage _ _)), Hview. reflexivity.
Defined.

Lemma loadBooks_settles_witness :
  let result := loadBooks (Some Page.silent) (Page.page (Some (lit "b1")) []) in
  books (snd (fst result)) = Some []
  /\ snd result = [Noticed (lit "Could not load books for chat. See console for details.")].
Proof.
  intros result. subst result.
  destruct (loadBooks_settles (Some Page.silent) (Page.page (Some (lit "b1")) [])
              [Sample.a_book] eq_refl)
    as (view' & Hrun & Hbooks & _).
  rewrite Hrun. split; [exact Hbooks|reflexivity].
Defined.

End ChatViewExamples.
